(** * perf.text_runner: a shallow embedding and its checked properties

    The development follows [perf/text_runner.py]: the calibration of the
    number of loops, the sample-collecting worker, the orchestration of
    worker processes, CPU pinning, the stability warnings and the JSON dump.

    Conventions of the embedding:
    - Python [int] is [Z]; Python [float] durations are exact rationals [Q]
      (the comparisons against thresholds are the ones of the source, the
      rounding error of binary floating point is not modelled);
    - a Python function with effects is a computation in the monad [M]:
      it threads the runner object, the benchmark object under construction
      and the trace of everything observable the process did, and it either
      returns a value or raises an exception;
    - whatever the process cannot decide by itself (child processes, the
      file system, the probing of the platform, [argparse]) is a field of
      [Platform]. *)

From Stdlib Require Import ZArith QArith Qround Qabs Lia Lqa.
From stdpp Require Import base option list strings gmap pretty sorting.

Local Open Scope Z_scope.

(** ** Python values *)

(** Comparisons of floats, as booleans. *)
Definition Qgeb (a b : Q) : bool := Qle_bool b a.
Definition Qgtb (a b : Q) : bool := negb (Qle_bool a b).
Definition Qltb (a b : Q) : bool := negb (Qle_bool b a).

(** Truth value of a float: [if median] is [median != 0]. *)
Definition Qtruthy (x : Q) : bool := negb (Qeq_bool x 0).

(** Truth value of an optional string: [None] and [""] are false. *)
Definition str_truthy (s : option string) : bool :=
  match s with
  | Some s => negb (String.eqb s "")
  | None => false
  end.

(** [range(n)] *)
Definition range (n : Z) : list Z := Z.of_nat <$> seq 0 (Z.to_nat n).

(** [l[:i]] and [l[i:]], a negative index counts from the end. *)
Definition slice_index {A} (l : list A) (i : Z) : nat :=
  if i <? 0 then Z.to_nat (Z.max (Z.of_nat (length l) + i) 0) else Z.to_nat i.
Definition slice_to {A} (l : list A) (i : Z) : list A := take (slice_index l i) l.
Definition slice_from {A} (l : list A) (i : Z) : list A := drop (slice_index l i) l.

(** ['v' * n] *)
Definition str_repeat (c : string) (n : Z) : string :=
  String.concat "" (replicate (Z.to_nat n) c).

(** [round(x, ndigits)]: to the nearest multiple of [10^-ndigits], ties to
    even. *)
Definition round_half_even (x : Q) : Z :=
  let f := Qfloor x in
  match Qcompare (x - inject_Z f) (1 # 2) with
  | Lt => f
  | Gt => f + 1
  | Eq => if Z.even f then f else f + 1
  end.

Definition py_round (x : Q) (ndigits : Z) : Q :=
  (inject_Z (round_half_even (x * inject_Z (10 ^ ndigits))) / inject_Z (10 ^ ndigits))%Q.

(** Exceptions. *)
Inductive exn :=
| ValueError (msg : string)
| RuntimeError (msg : string)
| StatisticsError (msg : string)
| UnboundLocalError (var : string)
| AttributeError (msg : string)
| IndexError (msg : string)
| OSError (msg : string)
| KeyboardInterrupt
| SystemExit (status : Z).

Inductive result (A : Type) :=
| Ok (a : A)
| Raise (e : exn).
Arguments Ok {A} a.
Arguments Raise {A} e.

(** [min(l)] raises [ValueError] on an empty sequence. *)
Definition Qmin (a b : Q) : Q := if Qle_bool a b then a else b.

Definition py_min (l : list Q) : result Q :=
  match l with
  | [] => Raise (ValueError "min() arg is an empty sequence")
  | x :: l => Ok (foldl Qmin x l)
  end.

(** [sorted(l)] on floats. *)
Fixpoint sorted_insert (x : Q) (l : list Q) : list Q :=
  match l with
  | [] => [x]
  | y :: l' => if Qle_bool x y then x :: l else y :: sorted_insert x l'
  end.

Definition sorted (l : list Q) : list Q := foldr sorted_insert [] l.

(** [statistics.median]: the middle of the sorted data, the mean of the two
    middle values when their number is even. *)
Definition statistics_median (data : list Q) : result Q :=
  let s := sorted data in
  let n := length s in
  if (n =? 0)%nat then Raise (StatisticsError "no median for empty data")
  else if Nat.odd n then Ok (nth (n / 2) s 0%Q)
  else Ok ((nth (n / 2 - 1) s 0%Q + nth (n / 2) s 0%Q) / 2)%Q.

(** ** The data model *)

(** The namespace returned by [argparse]; one field per option declared in
    [TextRunner.__init__]. *)
Module Args.
Record t := mk {
  processes : Z;
  samples : Z;
  warmups : Z;
  loops : Z;
  verbose : Z;
  json : bool;
  json_file : option string;
  min_time : Q;
  max_time : Q;
  raw : bool;
  metadata : bool;
  affinity : option string
}.

(** [args.loops = v] *)
Definition set_loops (v : Z) (a : t) : t :=
  mk (processes a) (samples a) (warmups a) v (verbose a) (json a)
     (json_file a) (min_time a) (max_time a) (raw a) (metadata a) (affinity a).

(** [args.affinity = v] *)
Definition set_affinity (v : option string) (a : t) : t :=
  mk (processes a) (samples a) (warmups a) (loops a) (verbose a) (json a)
     (json_file a) (min_time a) (max_time a) (raw a) (metadata a) v.
End Args.

(** [perf.Benchmark] is defined in [perf/__init__.py]; the runner only calls
    it. *)
Module Benchmark.
(** Modelled from the spec: the class [perf.Benchmark] is not part of
    [text_runner.py]. A benchmark has a name, the [warmups], [loops] and
    [inner_loops] of the configuration, a metadata mapping from strings
    to strings and the ordered sequence of its runs, each an ordered
    sequence of samples. *)
Record t := mk {
  name : option string;
  warmups : Z;
  loops : Z;
  inner_loops : option Z;
  metadata : gmap string string;
  runs : list (list Q)
}.

(** Modelled from the spec: [Benchmark(name=, warmups=, loops=,
    inner_loops=, metadata=)] is missing; a fresh benchmark has no run. *)
Definition new (name : option string) (warmups loops : Z)
    (inner_loops : option Z) (metadata : gmap string string) : t :=
  mk name warmups loops inner_loops metadata [].

(** Modelled from the spec: [get_nrun] is missing; the number of collected
    runs. *)
Definition get_nrun (b : t) : Z := Z.of_nat (length (runs b)).

(** Modelled from the spec: [get_runs] is missing; the runs in collection
    order. *)
Definition get_runs (b : t) : list (list Q) := runs b.

(** Modelled from the spec: [get_samples] is missing; the measurement
    samples, the first [warmups] entries of every run are excluded from
    every statistic. *)
Definition get_samples (b : t) : list Q :=
  concat ((fun run => slice_from run (warmups b)) <$> runs b).

(** Modelled from the spec: [_get_raw_samples] is missing; the raw samples
    of the runs, warmups included. *)
Definition _get_raw_samples (b : t) : list Q := concat (runs b).

(** Modelled from the spec: [median] is missing; the median computed over
    the measurement samples. *)
Definition median (b : t) : result Q := statistics_median (get_samples b).

(** Modelled from the spec: [add_run] is missing; the run is appended to
    the ordered sequence of runs, insertion order is collection order. *)
Definition add_run (samples : list Q) (b : t) : t :=
  mk (name b) (warmups b) (loops b) (inner_loops b) (metadata b)
     (runs b ++ [samples]).

(** Modelled from the spec: [_get_worker_samples] is missing; the output
    of a worker is a benchmark holding exactly one run, which is the run
    handed to the orchestrator. *)
Definition _get_worker_samples (run_bench : t) : result (list Q) :=
  match runs run_bench with
  | [run] => Ok run
  | _ => Raise (ValueError "A worker result must have exactly one run")
  end.

(** [bench.metadata[key] = value] *)
Definition set_metadata (key value : string) (b : t) : t :=
  mk (name b) (warmups b) (loops b) (inner_loops b)
     (<[key := value]> (metadata b)) (runs b).

(** [collect_metadata(bench.metadata)] replaces the content of the
    mapping. *)
Definition with_metadata (m : gmap string string) (b : t) : t :=
  mk (name b) (warmups b) (loops b) (inner_loops b) m (runs b).
End Benchmark.

(** The attributes of a [TextRunner] object. *)
Module TextRunner.
Record t := mk {
  name : option string;
  metadata : gmap string string;
  args : option Args.t;
  prepare_subprocess_args : option (list string → list string);
  program_args : list string;
  inner_loops : option Z
}.

(** [self.args = v] *)
Definition set_args (v : option Args.t) (r : t) : t :=
  mk (name r) (metadata r) v (prepare_subprocess_args r) (program_args r)
     (inner_loops r).
End TextRunner.

(** ** What the process does: file objects, printed lines, events *)

Inductive fileobj :=
| sys_stdout
| sys_stderr
| opened (filename : string).

#[global] Instance fileobj_eq_dec : EqDecision fileobj.
Proof. solve_decision. Defined.

(** One constructor per [print] of the source; the arguments are the values
    the source formats into the line. *)
Inductive message :=
| MsgBlank                      (* print(file=...) *)
| MsgDot                        (* print(".", end='') *)
| MsgRun (index nrun : Z) (warmups samples : list Q)
                                (* "Run %s/%s: warmup (...): ...; raw samples (...): ..." *)
| MsgVeryUnstable (k : Q)       (* "ERROR: the benchmark is very unstable, ..." *)
| MsgSeemsUnstable (k : Q)      (* "WARNING: the benchmark seems unstable, ..." *)
| MsgTryMoreRuns                (* "Try to rerun the benchmark with more runs, samples and/or loops" *)
| MsgStdevMedian (k : Q)        (* "Standard deviation / median: %.0f%%" *)
| MsgShortestError (shortest : Q)
                                (* "ERROR: the benchmark may be very unstable, the shortest raw sample only took %s" *)
| MsgShortestWarning (shortest : Q)
                                (* "WARNING: the benchmark may be unstable, the shortest raw sample only took %s" *)
| MsgTryMoreLoops               (* "Try to rerun the benchmark with more loops or increase --min-time" *)
| MsgShortest (shortest : Q)    (* "Shortest raw sample: %s" *)
| MsgMetadataHeader (header : string)
| MsgMetadataItem (key value : string)
                                (* "- %s: %s" *)
| MsgMedian (b : Benchmark.t) (verbose : Z)
                                (* "Median +- std dev: %s" % bench.format(verbose=verbose) *)
| MsgCalibration (loops : Z) (dt : Q)
                                (* "calibration: %s: %s" *)
| MsgCalibrationUse (loops : Z) (* "calibration: use %s" *)
| MsgUnablePin                  (* "WARNING: unable to pin worker processes to isolated CPUs, CPU affinity not available" *)
| MsgUsePython33                (* "Use Python 3.3 or newer, or install psutil dependency" *)
| MsgPinIsolated (cpus : string)
                                (* "Pin process to isolated CPUs: %s" *)
| MsgPin (cpus : string)        (* "Pin process to CPUs: %s" *)
| MsgAffinityError              (* "ERROR: CPU affinity not available." *)
| MsgWarmup (index : Z) (sample : Q)
                                (* "Warmup %s: %s" *)
| MsgRawSample (index : Z) (sample : Q)
                                (* "Raw sample %s: %s" *)
| MsgInterrupted.               (* "Interrupted: exit" *)

(** Everything observable the process does, in the order it does it. *)
Inductive event :=
| Print (file : fileobj) (m : message)
| Write (file : fileobj) (text : string)
| Flush (file : fileobj)
| Open (filename : string)
| Close (filename : string)
| JsonDumpInto (file : fileobj) (b : Benchmark.t)
| Popen (args : list string)
| Kill
| Wait
| SampleFunc (loops : Z)
| ParseArgs (argv : option (list string))
| SchedSetaffinity (cpus : list Z)
| PsutilCpuAffinity (cpus : list Z)
| MonotonicClock
| CollectMetadata.

(** How a child process ends, seen from [proc.communicate()]. *)
Inductive child_outcome :=
| PopenFailed (e : exn)     (* subprocess.Popen itself raises *)
| Exited (returncode : Z) (stdout stderr : string)
| Interrupted (e : exn).    (* communicate() raises, KeyboardInterrupt say *)

(** The environment of the process. An answer may depend on everything that
    happened before, hence the trace argument of the oracles. *)
Record Platform := {
  (* statistics.stdev, called with at least two samples *)
  statistics_stdev : list Q → Q;
  (* subprocess.Popen(args, ...).communicate() *)
  communicate : list event → list string → child_outcome;
  (* perf.Benchmark.json_load *)
  json_load : string → result Benchmark.t;
  (* self.argparser.parse_args *)
  argparser_parse_args : list event → option (list string) → result Args.t;
  (* hasattr(os, 'sched_setaffinity') *)
  has_sched_setaffinity : bool;
  (* psutil: None when the module is not installed, otherwise
     hasattr(psutil.Process(), 'cpu_affinity') *)
  psutil : option bool;
  (* perf._get_isolated_cpus(), perf._parse_cpu_list, perf._format_cpu_list *)
  _get_isolated_cpus : option (list Z);
  _parse_cpu_list : string → result (list Z);
  _format_cpu_list : list Z → string;
  (* open(filename, "w") succeeds *)
  open : list event → string → result unit;
  (* perf.monotonic_clock() *)
  monotonic_clock : list event → Q;
  (* perf.metadata.collect_metadata *)
  collect_metadata : gmap string string → gmap string string;
  (* "%.<precision>f" % x *)
  format_float : Z → Q → string
}.

(** ** The monad of the embedding *)

Record State := mkState {
  self : TextRunner.t;      (* the runner object *)
  bench : Benchmark.t;      (* the benchmark object [bench] refers to *)
  trace : list event        (* what happened so far, oldest first *)
}.

Definition M (A : Type) : Type := State → result A * State.

Definition ret {A} (a : A) : M A := fun st => (Ok a, st).

Definition bind {A B} (m : M A) (k : A → M B) : M B :=
  fun st =>
    match m st with
    | (Ok a, st') => k a st'
    | (Raise e, st') => (Raise e, st')
    end.

Definition raise {A} (e : exn) : M A := fun st => (Raise e, st).

Declare Scope py_scope.
Delimit Scope py_scope with py.
Notation "x <- c1 ;; c2" := (bind c1 (fun x => c2))
  (at level 100, c1 at next level, right associativity) : py_scope.
Notation "c1 ;; c2" := (bind c1 (fun _ => c2))
  (at level 100, right associativity) : py_scope.
Local Open Scope py_scope.

(** A value or an exception computed without effect. *)
Definition lift {A} (r : result A) : M A := fun st => (r, st).

(** [if c: body] *)
Definition when (c : bool) (body : M unit) : M unit :=
  if c then body else ret tt.

(** [for x in l: body] *)
Fixpoint for_ {A} (l : list A) (body : A → M unit) : M unit :=
  match l with
  | [] => ret tt
  | x :: l' => body x ;; for_ l' body
  end.

(** [for x in l: body], the body updating the local variables [s]. *)
Fixpoint for_fold {A S} (l : list A) (body : A → S → M S) (s : S) : M S :=
  match l with
  | [] => ret s
  | x :: l' => s' <- body x s ;; for_fold l' body s'
  end.

(** [try: body / except KeyboardInterrupt: handler] *)
Definition try_except_KeyboardInterrupt {A} (body : M A) (handler : M A) : M A :=
  fun st =>
    match body st with
    | (Raise KeyboardInterrupt, st') => handler st'
    | r => r
    end.

Definition emit (e : event) : M unit :=
  fun st => (Ok tt, mkState (self st) (bench st) (trace st ++ [e])).

Definition get_trace : M (list event) := fun st => (Ok (trace st), st).

Definition get_bench : M Benchmark.t := fun st => (Ok (bench st), st).

Definition set_bench (b : Benchmark.t) : M unit :=
  fun st => (Ok tt, mkState (self st) b (trace st)).

Definition get_self : M TextRunner.t := fun st => (Ok (self st), st).

Definition set_self (r : TextRunner.t) : M unit :=
  fun st => (Ok tt, mkState r (bench st) (trace st)).

(** [self.args], an attribute access on it fails while it is [None]. *)
Definition self_args : M Args.t :=
  fun st =>
    match TextRunner.args (self st) with
    | Some a => (Ok a, st)
    | None => (Raise (AttributeError "'NoneType' object has no attribute"), st)
    end.

(** [print(..., file=file)]; [file=None] is [sys.stdout]. *)
Definition print (m : message) (file : option fileobj) : M unit :=
  emit (Print (default sys_stdout file) m).

(** [sys.exit(status)] *)
Definition sys_exit {A} (status : Z) : M A := raise (SystemExit status).

(** The loop counts the timed operation was called with, in call order. *)
Definition sample_func_calls (tr : list event) : list Z :=
  omap (λ e, match e with SampleFunc loops => Some loops | _ => None end) tr.

(** A timed operation, as the runner sees it: an opaque callable which,
    given a number of loops, takes its time and returns the elapsed time.
    The duration [op calls loops] it returns may depend on the calls made
    before, whose loop counts are [calls]. *)
Definition timed (op : list Z → Z → Q) (loops : Z) : M Q :=
  tr <- get_trace ;;
  emit (SampleFunc loops) ;;
  ret (op (sample_func_calls tr) loops).

(** ** The functions of [text_runner.py] *)

Section text_runner.
Context (pf : Platform).

Definition _json_dump (bench : Benchmark.t) (args : Args.t) : M unit :=
  if str_truthy (Args.json_file args) then
    (* --json-file=FILENAME *)
    let filename := default "" (Args.json_file args) in
    tr <- get_trace ;;
    lift (open pf tr filename) ;;
    emit (Open filename) ;;
    emit (JsonDumpInto (opened filename) bench) ;;
    emit (Flush (opened filename)) ;;
    emit (Close filename)
  else if Args.json args then
    (* --json *)
    let stdout := sys_stdout in
    emit (JsonDumpInto stdout bench) ;;
    emit (Flush stdout)
  else ret tt.

Definition _bench_from_subprocess (args : list string) : M Benchmark.t :=
  emit (Popen args) ;;
  tr <- get_trace ;;
  match communicate pf tr args with
  | PopenFailed e => raise e
  | Interrupted e =>
      (* except: proc.kill(), an OSError of it ignored; proc.wait(); raise *)
      emit Kill ;;
      emit Wait ;;
      raise e
  | Exited returncode stdout stderr =>
      if negb (returncode =? 0) then
        emit (Write sys_stdout stdout) ;;
        emit (Flush sys_stdout) ;;
        emit (Write sys_stderr stderr) ;;
        emit (Flush sys_stderr) ;;
        match args with
        | [] => raise (IndexError "list index out of range")
        | arg0 :: _ =>
            raise (RuntimeError
                     (arg0 +:+ " failed with exit code " +:+ pretty returncode))
        end
      else lift (json_load pf stdout)
  end.

Definition _display_run (bench : Benchmark.t) (index nrun : Z)
    (samples : list Q) (file : option fileobj) : M unit :=
  let warmups := slice_to samples (Benchmark.warmups bench) in
  let samples := slice_from samples (Benchmark.warmups bench) in
  print (MsgRun index nrun warmups samples) file.

Definition _warn_if_bench_unstable (bench : Benchmark.t) (verbose : Z)
    (file : option fileobj) : M unit :=
  if Benchmark.get_nrun bench =? 0 then
    raise (ValueError "benchmark has no run")
  else
    let samples := Benchmark.get_samples bench in
    (* Display a warning if the standard deviation is larger than 10% *)
    median <- lift (Benchmark.median bench) ;;
    (* Avoid division by zero *)
    when (Qtruthy median && (1 <? Z.of_nat (length samples)))
      (let k := (statistics_stdev pf samples / median)%Q in
       if Qgtb k (10 # 100) then
         (if Qgtb k (20 # 100) then print (MsgVeryUnstable k) file
          else print (MsgSeemsUnstable k) file) ;;
         print MsgTryMoreRuns file ;;
         print MsgBlank file
       else when (1 <? verbose) (print (MsgStdevMedian k) file)) ;;
    (* Check that the shortest sample took at least 1 ms *)
    shortest <- lift (py_min (Benchmark._get_raw_samples bench)) ;;
    if Qltb shortest (1 # 1000) then
      (* these two lines are printed without [file=file] *)
      (if Qltb shortest (1 # 1000000) then print (MsgShortestError shortest) None
       else print (MsgShortestWarning shortest) None) ;;
      print MsgTryMoreLoops file ;;
      print MsgBlank file
    else
      when (1 <? verbose)
        (print (MsgShortest shortest) file ;;
         print MsgBlank file).

Definition _display_metadata (metadata : gmap string string)
    (file : option fileobj) (header : string) : M unit :=
  if decide (metadata = ∅) then ret tt
  else
    print (MsgMetadataHeader header) file ;;
    for_ (merge_sort (λ x y, String.leb x.1 y.1) (map_to_list metadata))
      (λ '(key, value), print (MsgMetadataItem key value) file).

Definition _display_benchmark (bench : Benchmark.t) (verbose : Z)
    (file : option fileobj) (check_unstable metadata runs : bool) : M unit :=
  when runs
    (let runs := Benchmark.get_runs bench in
     let nrun := Z.of_nat (length runs) in
     for_ (zip (Z.of_nat <$> seq 1 (length runs)) runs)
       (λ '(index, samples), _display_run bench index nrun samples file) ;;
     print MsgBlank file) ;;
  when metadata
    (_display_metadata (Benchmark.metadata bench) file "Metadata:" ;;
     print MsgBlank file) ;;
  when check_unstable (_warn_if_bench_unstable bench verbose file) ;;
  print (MsgMedian bench verbose) file.

(** *** Methods of [TextRunner] *)

Definition _stream : M fileobj :=
  args <- self_args ;;
  ret (if Args.json args then sys_stderr else sys_stdout).

(** The [for index in range(0, 10)] loop of [_calibrate_sample_func];
    the result is the value of the local variable [loops] when the loop
    is left, by [break] or by exhaustion. *)
Fixpoint _calibrate_for (sample_func : Z → M Q) (stream : fileobj)
    (min_dt max_dt : Q) (indexes : list Z) (loops : option Z) : M Z :=
  match indexes with
  | [] =>
      match loops with
      | Some loops => ret loops
      | None => raise (UnboundLocalError "loops")
      end
  | index :: indexes =>
      let loops := 10 ^ index in
      dt <- sample_func loops ;;
      args <- self_args ;;
      when (1 <? Args.verbose args)
        (print (MsgCalibration loops dt) (Some stream)) ;;
      if Qgeb dt max_dt then
        let index := Z.max (index - 1) 0 in
        let loops := 10 ^ index in
        ret loops                                  (* break *)
      else if Qgeb dt min_dt then
        ret loops                                  (* break *)
      else _calibrate_for sample_func stream min_dt max_dt indexes (Some loops)
  end.

Definition _calibrate_sample_func (sample_func : Z → M Q) : M Z :=
  stream <- _stream ;;
  args <- self_args ;;
  let min_dt := (Args.min_time args * (90 # 100))%Q in
  let max_dt := Args.max_time args in
  loops <- _calibrate_for sample_func stream min_dt max_dt (range 10) None ;;
  args <- self_args ;;
  when (1 <? Args.verbose args)
    (print (MsgCalibrationUse loops) (Some stream)) ;;
  ret loops.

Definition parse_args (args : option (list string)) : M unit :=
  self <- get_self ;;
  match TextRunner.args self with
  | Some _ =>
      (* arguments already parsed *)
      ret tt
  | None =>
      emit (ParseArgs args) ;;
      tr <- get_trace ;;
      parsed <- lift (argparser_parse_args pf tr args) ;;
      self <- get_self ;;
      set_self (TextRunner.set_args (Some parsed) self)
  end.

(** The generator [_range], as the list of the pairs it yields. *)
Definition _range : M (list (bool * Z)) :=
  args <- self_args ;;
  ret (((λ warmup, (true, 1 + warmup)) <$> range (Args.warmups args))
       ++ ((λ run, (false, 1 + run)) <$> range (Args.samples args))).

Definition _cpu_affinity : M unit :=
  (* sched_setaffinity() was added to Python 3.3 *)
  let has_sched_setaffinity := has_sched_setaffinity pf in
  (* only looked at when [has_sched_setaffinity] is false *)
  let psutil_has_cpu_affinity :=
    match psutil pf with
    | Some has_cpu_affinity => has_cpu_affinity
    | None => false
    end in
  args <- self_args ;;
  let cpus := Args.affinity args in
  (* [None]: the function has returned; otherwise the list of CPUs and
     the local variable [stream], which only the first branch binds *)
  pinned <-
    (if negb (str_truthy cpus) then
       stream <- _stream ;;
       (* --affinity option is not set: detect isolated CPUs *)
       match _get_isolated_cpus pf with
       | None | Some [] =>
           (* no isolated CPUs or unable to get the isolated CPUs *)
           ret None
       | Some cpus =>
           if negb has_sched_setaffinity && negb psutil_has_cpu_affinity then
             (* unable to pin CPUs *)
             print MsgUnablePin (Some stream) ;;
             print MsgUsePython33 (Some stream) ;;
             ret None
           else
             when (negb (Args.verbose args =? 0))
               (print (MsgPinIsolated (_format_cpu_list pf cpus)) (Some stream)) ;;
             self <- get_self ;;
             set_self (TextRunner.set_args
                         (Some (Args.set_affinity (Some (_format_cpu_list pf cpus)) args))
                         self) ;;
             ret (Some (cpus, Some stream))
       end
     else
       cpus <- lift (_parse_cpu_list pf (default "" cpus)) ;;
       when (negb (Args.verbose args =? 0))
         (stream <- _stream ;;
          print (MsgPin (_format_cpu_list pf cpus)) (Some stream)) ;;
       ret (Some (cpus, None))) ;;
  match pinned with
  | None => ret tt
  | Some (cpus, stream) =>
      if has_sched_setaffinity then emit (SchedSetaffinity cpus)
      else if psutil_has_cpu_affinity then emit (PsutilCpuAffinity cpus)
      else
        print MsgAffinityError (Some sys_stderr) ;;
        stream <- match stream with
                  | Some stream => ret stream
                  | None => raise (UnboundLocalError "stream")
                  end ;;
        print MsgUsePython33 (Some stream) ;;
        sys_exit 1
  end.

Definition _display_result (bench : Benchmark.t) (check_unstable : bool) : M unit :=
  stream <- _stream ;;
  (* Display the average +- stdev *)
  args <- self_args ;;
  _display_benchmark bench (Args.verbose args) (Some stream) check_unstable
    (Args.metadata args) false ;;
  emit (Flush stream) ;;
  args <- self_args ;;
  _json_dump bench args.

Definition _worker (sample_func : Z → M Q) : M Benchmark.t :=
  items <- _range ;;
  samples <-
    for_fold items
      (λ '(is_warmup, index) samples,
         bench <- get_bench ;;
         sample <- sample_func (Benchmark.loops bench) ;;
         (* Round manually to 10^-9 *)
         let sample := py_round sample 9 in
         let samples := samples ++ [sample] in
         args <- self_args ;;
         when (negb (Args.verbose args =? 0))
           (stream <- _stream ;;
            print (if is_warmup : bool then MsgWarmup index sample
                   else MsgRawSample index sample) (Some stream)) ;;
         ret samples)
      [] ;;
  bench <- get_bench ;;
  set_bench (Benchmark.add_run samples bench) ;;
  bench <- get_bench ;;
  _display_result bench false ;;
  get_bench.

Definition _spawn_worker : M Benchmark.t :=
  self <- get_self ;;
  args <- self_args ;;
  let cmd :=
    TextRunner.program_args self
    ++ ["--raw"; "--json";
        "--samples"; pretty (Args.samples args);
        "--warmups"; pretty (Args.warmups args);
        "--loops"; pretty (Args.loops args)]
    ++ (if negb (Args.verbose args =? 0)
        then ["-" +:+ str_repeat "v" (Args.verbose args)] else [])
    ++ (if str_truthy (Args.affinity args)
        then ["--affinity=" +:+ default "" (Args.affinity args)] else []) in
  let cmd :=
    match TextRunner.prepare_subprocess_args self with
    | Some prepare => prepare cmd
    | None => cmd
    end in
  _bench_from_subprocess cmd.

Definition _spawn_workers (start_time : Q) : M Benchmark.t :=
  args <- self_args ;;
  let verbose := Args.verbose args in
  stream <- _stream ;;
  let nprocess := Args.processes args in
  for_ (range nprocess)
    (λ process,
       run_bench <- _spawn_worker ;;
       samples <- lift (Benchmark._get_worker_samples run_bench) ;;
       bench <- get_bench ;;
       set_bench (Benchmark.add_run samples bench) ;;
       bench <- get_bench ;;
       if 1 <? verbose then
         _display_run bench (1 + process) nprocess samples (Some stream)
       else
         print MsgDot (Some stream) ;;
         emit (Flush stream)) ;;
  when (verbose <=? 1) (print MsgBlank (Some stream)) ;;
  emit MonotonicClock ;;
  tr <- get_trace ;;
  let duration := (monotonic_clock pf tr - start_time)%Q in
  (* mins, secs = divmod(duration, 60) *)
  let mins := Qfloor (duration / 60) in
  let secs := (duration - inject_Z (60 * mins))%Q in
  bench <- get_bench ;;
  set_bench
    (Benchmark.set_metadata "duration"
       (if negb (mins =? 0)
        then format_float pf 0 (inject_Z mins) +:+ " min "
             +:+ format_float pf 0 secs +:+ " sec"
        else format_float pf 1 secs +:+ " sec")
       bench) ;;
  bench <- get_bench ;;
  _display_result bench true ;;
  get_bench.

Definition _main (sample_func : Z → M Q) : M Benchmark.t :=
  emit MonotonicClock ;;
  tr <- get_trace ;;
  let start_time := monotonic_clock pf tr in
  parse_args None ;;
  _cpu_affinity ;;
  args <- self_args ;;
  when (Args.loops args =? 0)
    (loops <- _calibrate_sample_func sample_func ;;
     self <- get_self ;;
     args <- self_args ;;
     set_self (TextRunner.set_args (Some (Args.set_loops loops args)) self)) ;;
  self <- get_self ;;
  args <- self_args ;;
  set_bench (Benchmark.new (TextRunner.name self) (Args.warmups args)
               (Args.loops args) (TextRunner.inner_loops self)
               (TextRunner.metadata self)) ;;
  when (negb (Args.raw args) || Args.metadata args)
    (emit CollectMetadata ;;
     bench <- get_bench ;;
     set_bench (Benchmark.with_metadata
                  (collect_metadata pf (Benchmark.metadata bench)) bench)) ;;
  try_except_KeyboardInterrupt
    (if negb (Args.raw args) then _spawn_workers start_time
     else _worker sample_func)
    (print MsgInterrupted (Some sys_stderr) ;;
     sys_exit 1).

Definition bench_sample_func (sample_func : Z → M Q) : M Benchmark.t :=
  _main sample_func.

End text_runner.

(** *** [bench_func] *)

Section bench_func.
Context (pf : Platform) {V : Type}.
(** [perf.perf_counter], and the function to benchmark, called with its
    positional arguments. *)
Context (perf_counter : M Q) (func : list V → M unit).

(** The function [sample_func] local to [bench_func]. *)
Definition bench_func_sample_func (args : list V) (loops : Z) : M Q :=
  (* use fast local variables *)
  let local_timer := perf_counter in
  let local_func := func in
  let local_args := args in
  match local_args with
  | _ :: _ =>
      if negb (loops =? 1) then
        let range_it := range loops in
        t0 <- local_timer ;;
        for_ range_it (λ _, local_func local_args) ;;
        t1 <- local_timer ;;
        ret (t1 - t0)%Q
      else
        t0 <- local_timer ;;
        local_func local_args ;;
        t1 <- local_timer ;;
        ret (t1 - t0)%Q
  | [] =>
      (* fast-path when func has no argument: avoid the expensive
         func( *args) argument unpacking *)
      if negb (loops =? 1) then
        let range_it := range loops in
        t0 <- local_timer ;;
        for_ range_it (λ _, local_func []) ;;
        t1 <- local_timer ;;
        ret (t1 - t0)%Q
      else
        t0 <- local_timer ;;
        local_func [] ;;
        t1 <- local_timer ;;
        ret (t1 - t0)%Q
  end.

Definition bench_func (args : list V) : M Benchmark.t :=
  _main pf (bench_func_sample_func args).

End bench_func.

(** ** Reading the trace *)

(** What the stability assessment tells about a benchmark. The source has
    no such value: it prints the verdicts, they are read back from the
    lines it printed. *)
Inductive verdict := Stable | Warn | Error.

Definition printed (p : message → bool) (e : event) : bool :=
  match e with
  | Print _ m => p m
  | _ => false
  end.

(** The verdict of the dispersion check (stdev / median). *)
Definition dispersion_verdict (out : list event) : verdict :=
  if existsb (printed (λ m, match m with MsgVeryUnstable _ => true | _ => false end)) out
  then Error
  else if existsb (printed (λ m, match m with MsgSeemsUnstable _ => true | _ => false end)) out
  then Warn
  else Stable.


(** The verdict of the minimum-duration check (shortest raw sample). *)
Definition shortest_verdict (out : list event) : verdict :=
  if existsb (printed (λ m, match m with MsgShortestError _ => true | _ => false end)) out
  then Error
  else if existsb (printed (λ m, match m with MsgShortestWarning _ => true | _ => false end)) out
  then Warn
  else Stable.

(** The command lines of the child processes, in spawn order. *)
Definition spawned (tr : list event) : list (list string) :=
  omap (λ e, match e with Popen args => Some args | _ => None end) tr.

(** The JSON dumps, with their destination, in order. *)
Definition json_dumps (tr : list event) : list (fileobj * Benchmark.t) :=
  omap (λ e, match e with JsonDumpInto f b => Some (f, b) | _ => None end) tr.

(** Whatever was written or printed to a file object. *)
Definition written_to (f : fileobj) (e : event) : bool :=
  match e with
  | Print f' _ | Write f' _ | Flush f' | JsonDumpInto f' _ =>
      bool_decide (f' = f)
  | _ => false
  end.

(** The lines [_worker] prints for each sample it collects. *)
Definition sample_lines (tr : list event) : list message :=
  omap (λ e, match e with
             | Print _ (MsgWarmup index sample) => Some (MsgWarmup index sample)
             | Print _ (MsgRawSample index sample) => Some (MsgRawSample index sample)
             | _ => None
             end) tr.

(** The events of a report: printed lines other than the per-sample lines
    of the worker, flushes, what is written to files. *)
Definition is_report (e : event) : bool :=
  match e with
  | Print _ (MsgWarmup _ _) | Print _ (MsgRawSample _ _) => false
  | Print _ _ | Write _ _ | Flush _ | Open _ | Close _ | JsonDumpInto _ _ => true
  | _ => false
  end.

(** A computation which, whatever it returns or raises, only reports: it
    leaves the runner and the benchmark as they are and adds nothing but
    report events to the trace. *)
Definition report_only {A} (m : M A) : Prop :=
  ∀ st, ∃ r out,
    m st = (r, mkState (self st) (bench st) (trace st ++ out))
    ∧ forallb is_report out = true.

(** The calls of [argparse]. *)
Definition parse_calls (tr : list event) : list (option (list string)) :=
  omap (λ e, match e with ParseArgs argv => Some argv | _ => None end) tr.

(** ** The workers, seen from the orchestrator *)

(** The command line of a worker process, as [_spawn_worker] builds it. *)
Definition worker_command (r : TextRunner.t) (args : Args.t) : list string :=
  let cmd :=
    TextRunner.program_args r
    ++ ["--raw"; "--json";
        "--samples"; pretty (Args.samples args);
        "--warmups"; pretty (Args.warmups args);
        "--loops"; pretty (Args.loops args)]
    ++ (if negb (Args.verbose args =? 0)
        then ["-" +:+ str_repeat "v" (Args.verbose args)] else [])
    ++ (if str_truthy (Args.affinity args)
        then ["--affinity=" +:+ default "" (Args.affinity args)] else []) in
  match TextRunner.prepare_subprocess_args r with
  | Some prepare => prepare cmd
  | None => cmd
  end.

(** The benchmark after the runs [runs] were added one after the other. *)
Definition add_runs (runs : list (list Q)) (b : Benchmark.t) : Benchmark.t :=
  foldl (λ b run, Benchmark.add_run run b) b runs.

(** A child spawned with [cmd], the trace being [tr] once it is spawned,
    exits with status 0 and its output loads as a benchmark with the one
    run [run]. *)
Definition child_succeeds (pf : Platform) (cmd : list string) (tr : list event)
    (run : list Q) : Prop :=
  ∃ stdout stderr run_bench,
    communicate pf tr cmd = Exited 0 stdout stderr
    ∧ json_load pf stdout = Ok run_bench
    ∧ Benchmark.runs run_bench = [run].

(** A child spawned with [cmd], the trace being [tr] once it is spawned,
    makes [_spawn_worker] and the reading of its run raise [e], after the
    events [tail]. *)
Definition child_fails (pf : Platform) (cmd : list string) (tr : list event)
    (e : exn) (tail : list event) : Prop :=
  match communicate pf tr cmd with
  | PopenFailed e' => e = e' ∧ tail = []
  | Interrupted e' => e = e' ∧ tail = [Kill; Wait]
  | Exited returncode stdout stderr =>
      if returncode =? 0 then
        tail = []
        ∧ (json_load pf stdout = Raise e
           ∨ ∃ run_bench, json_load pf stdout = Ok run_bench
                          ∧ Benchmark._get_worker_samples run_bench = Raise e)
      else
        tail = [Write sys_stdout stdout; Flush sys_stdout;
                Write sys_stderr stderr; Flush sys_stderr]
        ∧ e = match cmd with
              | [] => IndexError "list index out of range"
              | arg0 :: _ =>
                  RuntimeError (arg0 +:+ " failed with exit code "
                                +:+ pretty returncode)
              end
  end.

(** ** The calibration, as documented *)



(** ** Concrete configurations, to run the model on *)

(** The defaults of [TextRunner.__init__] with an empty command line. *)
Definition default_args : Args.t :=
  Args.mk 25 3 1 0 0 false None (1 # 10) 1 false false None.

Definition fresh_runner : TextRunner.t :=
  TextRunner.mk None ∅ None None ["python3"; "bench.py"] None.

Definition runner_with (args : Args.t) : TextRunner.t :=
  TextRunner.set_args (Some args) fresh_runner.

Definition state_of (r : TextRunner.t) (b : Benchmark.t) : State :=
  mkState r b [].

(** A standard deviation accurate to 10^-12, for the examples:
    the square root of the sample variance, computed on integers. *)
Definition Qsum (l : list Q) : Q := foldr Qplus 0%Q l.

Definition variance (l : list Q) : Q :=
  let n := inject_Z (Z.of_nat (length l)) in
  let mean := (Qsum l / n)%Q in
  (Qsum ((λ x, (x - mean) * (x - mean))%Q <$> l) / (n - 1))%Q.

Definition stdev_12 (l : list Q) : Q :=
  (inject_Z (Z.sqrt (Qfloor (variance l * inject_Z (10 ^ 24)))) / inject_Z (10 ^ 12))%Q.

(** What a worker hands over: a benchmark with one run, a warmup and three
    samples. *)
Definition one_run : Benchmark.t :=
  Benchmark.mk None 1 1000 None ∅ [[(11 # 100); (1 # 10); (1 # 10); (1 # 10)]%Q].

(** A platform for the examples: [has_sched_setaffinity] tells whether
    [os.sched_setaffinity] exists ([psutil] is not installed), [isolated]
    is what [perf._get_isolated_cpus()] finds, [children] is what the
    worker processes do; a child which succeeds prints a benchmark which
    loads as [one_run]. *)
Definition platform (has_sched_setaffinity : bool) (isolated : option (list Z))
    (children : list event → list string → child_outcome) : Platform := {|
  statistics_stdev := stdev_12;
  communicate := children;
  json_load := λ _, Ok one_run;
  argparser_parse_args := λ _ _, Ok default_args;
  has_sched_setaffinity := has_sched_setaffinity;
  psutil := None;
  _get_isolated_cpus := isolated;
  _parse_cpu_list := λ _, Ok [0];
  _format_cpu_list := λ _, "0";
  open := λ _ _, Ok tt;
  monotonic_clock := λ tr, inject_Z (Z.of_nat (length tr));
  collect_metadata := λ m, m;
  format_float := λ _ _, "0"
|}.

(** A platform with [os.sched_setaffinity], no isolated CPU, children which
    succeed. *)
Definition posix : Platform :=
  platform true None (λ _ _, Exited 0 "{}" "").

(** The same platform without any way to pin a process: no
    [os.sched_setaffinity], no [psutil]. *)
Definition no_affinity (isolated : option (list Z)) : Platform :=
  platform false isolated (λ _ _, Exited 0 "{}" "").

(** The same platform as [posix] where the child spawned after [n]
    successful ones exits with [status]. *)
Definition failing_child (n : nat) (status : Z) : Platform :=
  platform true None
    (λ tr _,
       if (length (spawned tr) =? S n)%nat
       then Exited status "child out" "child err"
       else Exited 0 "{}" "").

(** A timed operation whose duration is proportional to the number of
    loops: [timedOp(loops) = loops * k]. *)
Definition linear_op (k : Q) : list Z → Z → Q :=
  λ _ loops, (inject_Z loops * k)%Q.

(** [--raw --json --json-file=bench.json --loops=1000] *)
Definition json_both_args : Args.t :=
  Args.mk 25 3 1 1000 0 true (Some "bench.json") (1 # 10) 1 true false None.

(** One run: a warmup, then five samples, one of them a clear outlier. *)
Definition outlier_bench : Benchmark.t :=
  Benchmark.mk None 1 1000 None ∅
    [[(2 # 1000); (9 # 10000); (11 # 10000); (10 # 10000); (50 # 10000); (10 # 10000)]%Q].

(** One run: a warmup, then five samples within 5% of their median. *)
Definition tight_bench : Benchmark.t :=
  Benchmark.mk None 1 1000 None ∅
    [[(2 # 100); (100 # 10000); (101 # 10000); (99 # 10000); (102 # 10000); (100 # 10000)]%Q].

(** Two runs of a warmup and three samples; the shortest raw sample is
    [shortest], a warmup. *)
Definition bench_with_shortest (shortest : Q) : Benchmark.t :=
  Benchmark.mk None 1 1000 None ∅
    [[(2 # 100); (1 # 100); (1 # 100); (1 # 100)]; [shortest; (1 # 100); (1 # 100); (1 # 100)]]%Q.

(** A timed operation with some jitter: 10^-4 s per loop, and
    1.6 x 10^-9 s more at each call. *)
Definition jitter_op : list Z → Z → Q :=
  λ calls loops,
    (inject_Z loops * (1 # 10000)
     + inject_Z (Z.of_nat (length calls)) * (16 # 10000000000))%Q.

(** [--raw --loops=1000 -v] *)
Definition raw_args : Args.t :=
  Args.mk 25 3 1 1000 1 false None (1 # 10) 1 true false None.

(** [--processes=3 --loops=1000]: three workers, no calibration. *)
Definition three_processes_args : Args.t :=
  Args.mk 3 3 1 1000 0 false None (1 # 10) 1 false false None.

(** The orchestrator when it is about to spawn its workers. *)
Definition spawning_state (args : Args.t) : State :=
  state_of (runner_with args)
    (Benchmark.new None (Args.warmups args) (Args.loops args) None ∅).

(** [--processes=0], which only the defaults of the constructor can give:
    no worker at all. *)
Definition no_process_args : Args.t :=
  Args.mk 0 3 1 1000 0 false None (1 # 10) 1 false false None.


(** ** Readers and configurations of the further properties *)

(** ** The calibration, for any timed operation *)

(** The duration the timed operation returns when the calibration calls it
    with the candidate [10^index], after the calls [calls] made before the
    calibration and the calls with the smaller candidates. *)
Definition calibration_dt (op : list Z → Z → Q) (calls : list Z) (index : Z) : Q :=
  op (calls ++ ((λ i, 10 ^ i) <$> range index)) (10 ^ index).

(** ** What a computation adds to the trace *)

(** Whatever it returns or raises, the computation only adds events
    satisfying [p] to the trace. *)
Definition emits_only (p : event → bool) {A} (m : M A) : Prop :=
  ∀ st, ∃ out, trace (m st).2 = trace st ++ out ∧ forallb p out = true.

(** The computation has two phases: it first adds events satisfying [p1],
    then events satisfying [p2]. *)
Definition emits_in_order (p1 p2 : event → bool) {A} (m : M A) : Prop :=
  ∀ st, ∃ out1 out2,
    trace (m st).2 = trace st ++ out1 ++ out2
    ∧ forallb p1 out1 = true
    ∧ forallb p2 out2 = true.

(** The events which are not the spawning of a child. *)
Definition not_spawn (e : event) : bool :=
  match e with
  | Popen _ => false
  | _ => true
  end.

(** The events which are not a call of the timed operation. *)
Definition not_timed (e : event) : bool :=
  match e with
  | SampleFunc _ => false
  | _ => true
  end.

(** What was written or printed to [sys.stdout], in order. *)
Definition on_stdout (tr : list event) : list event :=
  List.filter (written_to sys_stdout) tr.

(** The line of the minimum-duration check when the shortest raw sample is
    below 1 ms. *)
Definition shortest_alarm (shortest : Q) : list event :=
  if Qltb shortest (1 # 1000) then
    [Print sys_stdout (if Qltb shortest (1 # 1000000) then MsgShortestError shortest
                       else MsgShortestWarning shortest)]
  else [].

(** What the orchestrator prints when the worker [process] has handed over
    its run: the line of the run with [-vv], a dot otherwise. *)
Definition progress (verbose : Z) (stream : fileobj) (warmups nprocess : Z)
    (process : Z) (run : list Q) : list event :=
  if 1 <? verbose then
    [Print stream (MsgRun (1 + process) nprocess (slice_to run warmups)
                     (slice_from run warmups))]
  else [Print stream MsgDot; Flush stream].

(** The text of the [duration] metadata: [mins, secs = divmod(duration, 60)],
    then ['%.0f min %.0f sec'] or ['%.1f sec']. *)
Definition duration_text (pf : Platform) (duration : Q) : string :=
  let mins := Qfloor (duration / 60) in
  let secs := (duration - inject_Z (60 * mins))%Q in
  if negb (mins =? 0)
  then format_float pf 0 (inject_Z mins) +:+ " min "
       +:+ format_float pf 0 secs +:+ " sec"
  else format_float pf 1 secs +:+ " sec".

(** The configuration [_main] runs with: the arguments of the runner when
    they are already parsed, what the parser returns otherwise. *)
Definition main_config (pf : Platform) (st : State) (args : Args.t) : Prop :=
  match TextRunner.args (self st) with
  | Some parsed => parsed = args
  | None =>
      argparser_parse_args pf (trace st ++ [MonotonicClock; ParseArgs None]) None
      = Ok args
  end.

(** The same platform as [posix] where the user interrupts the child
    spawned after [n] successful ones. *)
Definition interrupted_child (n : nat) : Platform :=
  platform true None
    (λ tr _,
       if (length (spawned tr) =? S n)%nat
       then Interrupted KeyboardInterrupt
       else Exited 0 "{}" "").

(** The events which write nothing to [sys.stdout]. *)
Definition off_stdout (e : event) : bool := negb (written_to sys_stdout e).

(** * Properties *)

(** Unfolding the monad. *)
Ltac run :=
  unfold bind, ret, lift, when, raise, print, emit, sys_exit, get_trace,
    get_bench, set_bench, get_self, set_self, self_args in *;
  simpl in *.

Lemma trace_app_nil (st : State) :
  mkState (self st) (bench st) (trace st ++ []) = st.
Proof. destruct st; simpl. by rewrite app_nil_r. Qed.

(** ** Running the monad *)

Lemma bind_eval_ok {A B} (m : M A) (k : A → M B) (st st' : State) (a : A) :
  m st = (Ok a, st') → bind m k st = k a st'.
Proof. intros H. unfold bind. by rewrite H. Qed.

Lemma bind_eval_raise {A B} (m : M A) (k : A → M B) (st st' : State) (e : exn) :
  m st = (Raise e, st') → bind m k st = (Raise e, st').
Proof. intros H. unfold bind. by rewrite H. Qed.

Lemma bind_inv_ok {A B} (m : M A) (k : A → M B) (st st' : State) (b : B) :
  bind m k st = (Ok b, st') →
  ∃ a st1, m st = (Ok a, st1) ∧ k a st1 = (Ok b, st').
Proof.
  unfold bind. destruct (m st) as [[a | e] st1]; [| done]. intros H. eauto.
Qed.

Lemma self_args_eval (st : State) (args : Args.t) :
  TextRunner.args (self st) = Some args → self_args st = (Ok args, st).
Proof. intros H. unfold self_args. by rewrite H. Qed.

Lemma stream_eval (st : State) (args : Args.t) :
  TextRunner.args (self st) = Some args →
  _stream st = (Ok (if Args.json args then sys_stderr else sys_stdout), st).
Proof.
  intros H. unfold _stream. by rewrite (bind_eval_ok _ _ _ _ _ (self_args_eval _ _ H)).
Qed.

Lemma emit_eval (e : event) (st : State) :
  emit e st = (Ok tt, mkState (self st) (bench st) (trace st ++ [e])).
Proof. reflexivity. Qed.

Lemma print_eval (m : message) (file : option fileobj) (st : State) :
  print m file st
  = (Ok tt, mkState (self st) (bench st)
              (trace st ++ [Print (default sys_stdout file) m])).
Proof. reflexivity. Qed.

Lemma for_cons {A} (x : A) (l : list A) (body : A → M unit) :
  for_ (x :: l) body = (body x ;; for_ l body).
Proof. reflexivity. Qed.

Lemma for_fold_cons {A S} (x : A) (l : list A) (body : A → S → M S) (s : S) :
  for_fold (x :: l) body s = (s' <- body x s ;; for_fold l body s').
Proof. reflexivity. Qed.

(** ** Comparisons of floats *)

Lemma Qgeb_true (a b : Q) : Qgeb a b = true ↔ (b <= a)%Q.
Proof. unfold Qgeb. apply Qle_bool_iff. Qed.

Lemma Qgeb_false (a b : Q) : Qgeb a b = false ↔ (a < b)%Q.
Proof.
  unfold Qgeb. rewrite <- not_true_iff_false, Qle_bool_iff.
  split; [apply Qnot_le_lt | apply Qlt_not_le].
Qed.

Lemma Qgtb_true (a b : Q) : Qgtb a b = true ↔ (b < a)%Q.
Proof.
  unfold Qgtb. rewrite negb_true_iff, <- not_true_iff_false, Qle_bool_iff.
  split; [apply Qnot_le_lt | apply Qlt_not_le].
Qed.

Lemma Qgtb_false (a b : Q) : Qgtb a b = false ↔ (a <= b)%Q.
Proof. unfold Qgtb. rewrite negb_false_iff. apply Qle_bool_iff. Qed.

Lemma Qltb_true (a b : Q) : Qltb a b = true ↔ (a < b)%Q.
Proof. unfold Qltb. apply (Qgtb_true b a). Qed.

Lemma Qltb_false (a b : Q) : Qltb a b = false ↔ (b <= a)%Q.
Proof. unfold Qltb. apply (Qgtb_false b a). Qed.

Lemma Qtruthy_true (x : Q) : Qtruthy x = true ↔ ¬ (x == 0)%Q.
Proof.
  unfold Qtruthy. rewrite negb_true_iff, <- not_true_iff_false, Qeq_bool_iff.
  done.
Qed.

Lemma Qtruthy_false (x : Q) : Qtruthy x = false ↔ (x == 0)%Q.
Proof. unfold Qtruthy. rewrite negb_false_iff. apply Qeq_bool_iff. Qed.

Ltac bool_to_Q :=
  repeat match goal with
    | H : Qgtb _ _ = true |- _ => apply Qgtb_true in H
    | H : Qgtb _ _ = false |- _ => apply Qgtb_false in H
    | H : Qltb _ _ = true |- _ => apply Qltb_true in H
    | H : Qltb _ _ = false |- _ => apply Qltb_false in H
    | H : Qgeb _ _ = true |- _ => apply Qgeb_true in H
    | H : Qgeb _ _ = false |- _ => apply Qgeb_false in H
    | H : Qtruthy _ = true |- _ => apply Qtruthy_true in H
    | H : Qtruthy _ = false |- _ => apply Qtruthy_false in H
    end.

(** The state after a call is the state before it with more events. *)
Ltac same_trace :=
  first [ apply f_equal; symmetry; apply trace_app_nil
        | rewrite <- ?(assoc_L (++)); reflexivity ].

Lemma str_truthy_Some (s : string) : s ≠ "" → str_truthy (Some s) = true.
Proof.
  intros Hs. simpl. apply negb_true_iff, not_true_iff_false.
  by rewrite String.eqb_eq.
Qed.

(** ** Facts on the Python values *)

Lemma length_sorted_insert x l : length (sorted_insert x l) = S (length l).
Proof. induction l as [|y l IH]; simpl; [done |]. destruct (Qle_bool x y); simpl; by rewrite ?IH. Qed.

Lemma length_sorted l : length (sorted l) = length l.
Proof.
  induction l as [|x l IH]; [done |].
  change (sorted (x :: l)) with (sorted_insert x (sorted l)).
  by rewrite length_sorted_insert, IH.
Qed.

Lemma statistics_median_nonempty (data : list Q) :
  data ≠ [] → ∃ m, statistics_median data = Ok m.
Proof.
  intros Hne. unfold statistics_median. rewrite length_sorted.
  destruct data as [|x data]; [done |]. simpl length.
  destruct (Nat.odd _); simpl; eauto.
Qed.

Lemma Qmin_le_l a b : (Qmin a b <= a)%Q.
Proof. unfold Qmin. destruct (Qle_bool a b) eqn:H; [apply Qle_refl |].
  apply Qlt_le_weak. apply Qgeb_false. exact H. Qed.
Lemma Qmin_le_r a b : (Qmin a b <= b)%Q.
Proof. unfold Qmin. destruct (Qle_bool a b) eqn:H; [by apply Qle_bool_iff | apply Qle_refl]. Qed.
Lemma Qmin_cases a b : Qmin a b = a ∨ Qmin a b = b.
Proof. unfold Qmin. destruct (Qle_bool a b); auto. Qed.

Lemma foldl_Qmin_spec (l : list Q) (x : Q) :
  foldl Qmin x l ∈ x :: l ∧ ∀ y, y ∈ x :: l → (foldl Qmin x l <= y)%Q.
Proof.
  revert x. induction l as [|z l IH]; intros x; simpl.
  - split; [apply list_elem_of_here |]. intros y ->%list_elem_of_singleton. apply Qle_refl.
  - destruct (IH (Qmin x z)) as [Hin Hle]. split.
    + apply elem_of_cons in Hin as [Hin|Hin].
      * rewrite Hin. destruct (Qmin_cases x z) as [->| ->].
        -- apply list_elem_of_here.
        -- apply list_elem_of_further, list_elem_of_here.
      * by do 2 apply list_elem_of_further.
    + intros y Hy. 
      assert (foldl Qmin (Qmin x z) l <= Qmin x z)%Q as H0 by apply Hle, list_elem_of_here.
      apply elem_of_cons in Hy as [->|Hy].
      * eapply Qle_trans; [exact H0 | apply Qmin_le_l].
      * apply elem_of_cons in Hy as [->|Hy].
        -- eapply Qle_trans; [exact H0 | apply Qmin_le_r].
        -- by apply Hle, list_elem_of_further.
Qed.

Lemma py_min_nonempty (l : list Q) :
  l ≠ [] →
  ∃ shortest, py_min l = Ok shortest ∧ shortest ∈ l ∧ ∀ y, y ∈ l → (shortest <= y)%Q.
Proof.
  destruct l as [|x l]; [done |]. intros _. eexists. split; [reflexivity |].
  apply foldl_Qmin_spec.
Qed.

Lemma get_samples_nonempty (b : Benchmark.t) :
  Benchmark.get_samples b ≠ [] →
  Benchmark.get_nrun b ≠ 0 ∧ Benchmark._get_raw_samples b ≠ [].
Proof.
  unfold Benchmark.get_samples, Benchmark.get_nrun, Benchmark._get_raw_samples.
  generalize (Benchmark.warmups b). intros w.
  induction (Benchmark.runs b) as [|run runs IH]; [done |].
  intros Hne. split; [simpl length; lia |].
  simpl in *. intros [Hrun Hruns]%app_eq_nil. apply Hne.
  subst run. unfold slice_from at 1. rewrite drop_nil. simpl.
  destruct runs as [|r rs]; [done|]. 
  destruct (decide (concat ((λ run, slice_from run w) <$> r :: rs) = [])) as [E|E]; [done|].
  by apply IH in E as [_ E].
Qed.

Lemma elem_of_concat {A} (x : A) (ls : list (list A)) :
  x ∈ concat ls ↔ ∃ l, l ∈ ls ∧ x ∈ l.
Proof.
  induction ls as [|l ls IH]; simpl.
  - split; [by intros ?%elem_of_nil | by intros (? & ?%elem_of_nil & _)].
  - rewrite elem_of_app, IH. split.
    + intros [H | (l' & H1 & H2)].
      * exists l. split; [apply list_elem_of_here | done].
      * exists l'. split; [by apply list_elem_of_further | done].
    + intros (l' & [-> | H1]%elem_of_cons & H2); [by left | right; eauto].
Qed.

Lemma round_half_even_nearest (x : Q) :
  (Qabs (x - inject_Z (round_half_even x)) <= 1 # 2)%Q.
Proof.
  unfold round_half_even.
  pose proof (Qfloor_le x) as Hle. pose proof (Qlt_floor x) as Hlt.
  rewrite inject_Z_plus in Hlt. change (inject_Z 1) with 1%Q in Hlt.
  apply Qabs_Qle_condition.
  destruct (Qcompare (x - inject_Z (Qfloor x)) (1 # 2)) eqn:Hcmp.
  - apply Qeq_alt in Hcmp.
    destruct (Z.even (Qfloor x)); rewrite ?inject_Z_plus;
      change (inject_Z 1) with 1%Q; split; lra.
  - apply Qlt_alt in Hcmp. split; lra.
  - apply Qgt_alt in Hcmp. rewrite inject_Z_plus.
    change (inject_Z 1) with 1%Q. split; lra.
Qed.

(** [round(x, 9)] is a multiple of 10^-9 at most half of 10^-9 away from
    [x]. *)
Lemma py_round_9_nearest (x : Q) :
  ∃ z : Z,
    py_round x 9 = (inject_Z z / inject_Z (10 ^ 9))%Q
    ∧ (Qabs (x - py_round x 9) <= 1 # 2000000000)%Q.
Proof.
  exists (round_half_even (x * inject_Z (10 ^ 9))). split; [reflexivity |].
  unfold py_round.
  pose proof (round_half_even_nearest (x * inject_Z (10 ^ 9))) as H.
  apply Qabs_Qle_condition in H. apply Qabs_Qle_condition.
  set (z := inject_Z (round_half_even (x * inject_Z (10 ^ 9)))) in *.
  change (inject_Z (10 ^ 9)) with (1000000000 # 1)%Q in *.
  assert (z / (1000000000 # 1) == z * (1 # 1000000000))%Q as -> by (by field).
  split; lra.
Qed.

(** ** The stability assessment needs a run *)

(** C8: requesting the stability assessment of a benchmark without any run
    raises [ValueError("benchmark has no run")], whatever the benchmark,
    the verbosity and the output file are; nothing is printed before, so no
    verdict is produced, and the failure is not swallowed: the call does not
    return. *)
Theorem warn_if_bench_unstable_no_run
    (pf : Platform) (b : Benchmark.t) (verbose : Z) (file : option fileobj)
    (st : State) :
  Benchmark.get_nrun b = 0 →
  _warn_if_bench_unstable pf b verbose file st
  = (Raise (ValueError "benchmark has no run"), st).
Proof.
  intros Hnrun. unfold _warn_if_bench_unstable. rewrite Hnrun. done.
Qed.

Lemma warn_if_bench_unstable_no_run_witness :
  Benchmark.get_nrun (Benchmark.new None 1 1000 None ∅) = 0
  ∧ _warn_if_bench_unstable posix (Benchmark.new None 1 1000 None ∅) 2 None
      (state_of (runner_with default_args) (Benchmark.new None 1 1000 None ∅))
    = (Raise (ValueError "benchmark has no run"),
       state_of (runner_with default_args) (Benchmark.new None 1 1000 None ∅)).
Proof.
  split; [reflexivity |].
  apply (warn_if_bench_unstable_no_run posix); reflexivity.
Defined.

(** The failure goes through the report: displaying a benchmark without run
    with the stability check fails the same way, before the median line. *)
Lemma display_benchmark_no_run
    (pf : Platform) (b : Benchmark.t) (verbose : Z) (file : option fileobj)
    (st : State) :
  Benchmark.get_nrun b = 0 →
  _display_benchmark pf b verbose file true false false st
  = (Raise (ValueError "benchmark has no run"), st).
Proof.
  intros Hnrun. unfold _display_benchmark, _warn_if_bench_unstable. run.
  by rewrite Hnrun.
Qed.

(** Without any worker [_spawn_workers] reports on a benchmark without run:
    the failure is the result of the orchestration. *)
Example spawn_no_worker :
  (_spawn_workers posix 0 (spawning_state no_process_args)).1
  = Raise (ValueError "benchmark has no run").
Proof. vm_compute. reflexivity. Qed.

(** ** The JSON dump *)

(** C10: when both [--json-file] and [--json] are given, the JSON dump
    writes nothing to stdout: the benchmark is dumped into the named file
    and nowhere else (nothing at all when the file cannot be opened); when
    neither is given, the JSON dump does nothing. *)
Theorem json_dump_destinations (pf : Platform) (b : Benchmark.t) (args : Args.t)
    (st : State) :
  (∀ filename,
     Args.json_file args = Some filename → filename ≠ "" →
     Args.json args = true →
     ∃ r out,
       _json_dump pf b args st = (r, mkState (self st) (bench st) (trace st ++ out))
       ∧ existsb (written_to sys_stdout) out = false
       ∧ (open pf (trace st) filename = Ok tt →
          r = Ok tt ∧ json_dumps out = [(opened filename, b)])
       ∧ (∀ e, open pf (trace st) filename = Raise e →
          r = Raise e ∧ out = []))
  ∧ (str_truthy (Args.json_file args) = false → Args.json args = false →
     _json_dump pf b args st = (Ok tt, st)).
Proof.
  split.
  - intros filename Hfile Hname Hjson. unfold _json_dump.
    rewrite Hfile, (str_truthy_Some _ Hname). run.
    destruct (open pf (trace st) filename) as [[]|e] eqn:Hopen.
    + eexists (Ok tt), _. rewrite <- !(assoc_L (++)). simpl.
      split; [reflexivity |]. split; [reflexivity |].
      split; [done | intros ? [=]].
    + exists (Raise e), []. rewrite app_nil_r.
      split; [by destruct st |]. split; [reflexivity |].
      split; [intros [=] | by intros ? [= ->]].
  - intros Hfile Hjson. unfold _json_dump. by rewrite Hfile, Hjson.
Qed.

Lemma json_dump_destinations_witness :
  (∃ r out,
     _json_dump posix one_run json_both_args (state_of (runner_with json_both_args) one_run)
     = (r, mkState (runner_with json_both_args) one_run ([] ++ out))
     ∧ existsb (written_to sys_stdout) out = false
     ∧ (open posix [] "bench.json" = Ok tt →
        r = Ok tt ∧ json_dumps out = [(opened "bench.json", one_run)])
     ∧ (∀ e, open posix [] "bench.json" = Raise e → r = Raise e ∧ out = []))
  ∧ _json_dump posix one_run default_args (state_of (runner_with default_args) one_run)
    = (Ok tt, state_of (runner_with default_args) one_run).
Proof.
  split.
  - apply (proj1 (json_dump_destinations posix one_run json_both_args
                    (state_of (runner_with json_both_args) one_run)) "bench.json");
      [reflexivity | discriminate | reflexivity].
  - apply (proj2 (json_dump_destinations posix one_run default_args
                    (state_of (runner_with default_args) one_run)));
      reflexivity.
Defined.

(** With [--json] alone the benchmark goes to stdout. *)
Lemma json_dump_stdout (pf : Platform) (b : Benchmark.t) (args : Args.t)
    (st : State) :
  str_truthy (Args.json_file args) = false → Args.json args = true →
  _json_dump pf b args st
  = (Ok tt, mkState (self st) (bench st)
              (trace st ++ [JsonDumpInto sys_stdout b; Flush sys_stdout])).
Proof.
  intros Hfile Hjson. unfold _json_dump. rewrite Hfile, Hjson. run.
  by rewrite <- !(assoc_L (++)).
Qed.

(** ** Parsing the command line once *)

(** Once [self.args] is set, [parse_args] returns at once. *)
Lemma parse_args_already_parsed (pf : Platform) (argv : option (list string))
    (st : State) :
  is_Some (TextRunner.args (self st)) →
  parse_args pf argv st = (Ok tt, st).
Proof. intros [a Ha]. unfold parse_args. run. by rewrite Ha. Qed.

(** C9: the first call of [parse_args] calls the parser and stores what it
    returns in [self.args]; any sequence of later calls on the same runner
    returns without calling the parser and leaves the runner, hence the
    stored arguments, as they are. *)
Theorem parse_args_idempotent (pf : Platform) (argv : option (list string))
    (st : State) (parsed : Args.t) :
  TextRunner.args (self st) = None →
  argparser_parse_args pf (trace st ++ [ParseArgs argv]) argv = Ok parsed →
  ∃ st1,
    parse_args pf argv st = (Ok tt, st1)
    ∧ TextRunner.args (self st1) = Some parsed
    ∧ parse_calls (trace st1) = parse_calls (trace st) ++ [argv]
    ∧ ∀ later : list (option (list string)),
        for_ later (parse_args pf) st1 = (Ok tt, st1).
Proof.
  intros Hnone Hparse. unfold parse_args at 1. run. rewrite Hnone. run.
  rewrite Hparse. eexists. split; [reflexivity |]. simpl.
  split; [reflexivity |]. split.
  - unfold parse_calls. by rewrite omap_app.
  - induction later as [|argv' later IH]; [done |].
    simpl. unfold bind. by rewrite parse_args_already_parsed.
Qed.

Lemma parse_args_idempotent_witness :
  ∃ st1,
    parse_args posix None (state_of fresh_runner one_run) = (Ok tt, st1)
    ∧ TextRunner.args (self st1) = Some default_args
    ∧ parse_calls (trace st1) = [] ++ [None]
    ∧ ∀ later : list (option (list string)),
        for_ later (parse_args posix) st1 = (Ok tt, st1).
Proof.
  apply (parse_args_idempotent posix None (state_of fresh_runner one_run)
           default_args); reflexivity.
Defined.

(** ** The stability warnings *)



(** The examples of the dispersion thresholds: a clear outlier among five
    samples is an Error, five samples within 5% of their median are
    Stable. *)
Example dispersion_outlier :
  dispersion_verdict
    (trace (_warn_if_bench_unstable posix outlier_bench 0 (Some sys_stdout)
              (state_of (runner_with default_args) outlier_bench)).2)
  = Error.
Proof. vm_compute. reflexivity. Qed.

Example dispersion_tight :
  dispersion_verdict
    (trace (_warn_if_bench_unstable posix tight_bench 0 (Some sys_stdout)
              (state_of (runner_with default_args) tight_bench)).2)
  = Stable.
Proof. vm_compute. reflexivity. Qed.

(** C3: on a benchmark with measurement samples, with [shortest] the
    minimum over the raw samples of all runs, warmups included, the verdict
    of the minimum-duration check is Error exactly when [shortest < 10^-6],
    Warn exactly when [10^-6 <= shortest < 10^-3] and Stable otherwise.
    Whatever the verdicts of the two checks are, the assessment returns
    normally (no exception, no [sys.exit]) and only adds lines to the
    output: the runner and the benchmark are left as they were. *)
Theorem shortest_check
    (pf : Platform) (b : Benchmark.t) (verbose : Z) (file : option fileobj)
    (st : State) :
  Benchmark.get_samples b ≠ [] →
  ∃ shortest out,
    (∃ run, run ∈ Benchmark.runs b ∧ shortest ∈ run)
    ∧ (∀ run x, run ∈ Benchmark.runs b → x ∈ run → (shortest <= x)%Q)
    ∧ _warn_if_bench_unstable pf b verbose file st
      = (Ok tt, mkState (self st) (bench st) (trace st ++ out))
    ∧ (shortest_verdict out = Error ↔ (shortest < 1 # 1000000)%Q)
    ∧ (shortest_verdict out = Warn
       ↔ (1 # 1000000 <= shortest)%Q ∧ (shortest < 1 # 1000)%Q)
    ∧ (shortest_verdict out = Stable ↔ (1 # 1000 <= shortest)%Q).
Proof.
  intros Hne.
  destruct (get_samples_nonempty b Hne) as [Hnrun Hraw].
  destruct (statistics_median_nonempty _ Hne) as [median Hmedian].
  destruct (py_min_nonempty _ Hraw) as (shortest & Hshortest & Hin & Hmin).
  exists shortest.
  assert (∃ out, _warn_if_bench_unstable pf b verbose file st
      = (Ok tt, mkState (self st) (bench st) (trace st ++ out))
    ∧ (shortest_verdict out = Error ↔ (shortest < 1 # 1000000)%Q)
    ∧ (shortest_verdict out = Warn
       ↔ (1 # 1000000 <= shortest)%Q ∧ (shortest < 1 # 1000)%Q)
    ∧ (shortest_verdict out = Stable ↔ (1 # 1000 <= shortest)%Q)) as [out Hout].
  { unfold _warn_if_bench_unstable.
    apply Z.eqb_neq in Hnrun. rewrite Hnrun. unfold Benchmark.median.
    run. rewrite Hmedian.
    set (k := (statistics_stdev pf (Benchmark.get_samples b) / median)%Q).
    destruct (Qtruthy median && (1 <? Z.of_nat (length (Benchmark.get_samples b))));
      simpl.
    1: destruct (Qgtb k (10 # 100)); [destruct (Qgtb k (20 # 100)) |
         destruct (1 <? verbose) ]; simpl.
    all: rewrite Hshortest; simpl.
    all: destruct (Qltb shortest (1 # 1000)) eqn:Hms;
         [destruct (Qltb shortest (1 # 1000000)) eqn:Hus | destruct (1 <? verbose)];
         simpl.
    all: eexists; (split; [same_trace |]).
    all: bool_to_Q; unfold shortest_verdict; simpl.
    all: repeat split; try discriminate; try done; intros; try lra. }
  exists out. split; [| split; [| exact Hout]].
  - by apply elem_of_concat.
  - intros run x Hrun Hx. apply Hmin, elem_of_concat. eauto.
Qed.

Lemma shortest_check_witness :
  Benchmark.get_samples (bench_with_shortest (5 # 10000000)) ≠ []
  ∧ ∃ shortest out,
      (∃ run, run ∈ Benchmark.runs (bench_with_shortest (5 # 10000000)) ∧ shortest ∈ run)
      ∧ (∀ run x, run ∈ Benchmark.runs (bench_with_shortest (5 # 10000000)) →
                  x ∈ run → (shortest <= x)%Q)
      ∧ _warn_if_bench_unstable posix (bench_with_shortest (5 # 10000000)) 0
          (Some sys_stdout) (state_of (runner_with default_args) one_run)
        = (Ok tt, mkState (runner_with default_args) one_run ([] ++ out))
      ∧ (shortest_verdict out = Error ↔ (shortest < 1 # 1000000)%Q)
      ∧ (shortest_verdict out = Warn
         ↔ (1 # 1000000 <= shortest)%Q ∧ (shortest < 1 # 1000)%Q)
      ∧ (shortest_verdict out = Stable ↔ (1 # 1000 <= shortest)%Q).
Proof.
  split; [discriminate |].
  apply (shortest_check posix (bench_with_shortest (5 # 10000000)) 0
           (Some sys_stdout) (state_of (runner_with default_args) one_run)).
  discriminate.
Defined.

(** The examples of the minimum-duration thresholds: a raw sample of
    5x10^-7 s is an Error, one of 5x10^-4 s a Warn, one of 5x10^-3 s is
    Stable; in the three cases the assessment returns. *)
Example shortest_examples :
  let assess shortest :=
    _warn_if_bench_unstable posix (bench_with_shortest shortest) 0 (Some sys_stdout)
      (state_of (runner_with default_args) one_run) in
  ((assess (5 # 10000000)).1, shortest_verdict (trace (assess (5 # 10000000)).2))
  = (Ok tt, Error)
  ∧ ((assess (5 # 10000)).1, shortest_verdict (trace (assess (5 # 10000)).2))
    = (Ok tt, Warn)
  ∧ ((assess (5 # 1000)).1, shortest_verdict (trace (assess (5 # 1000)).2))
    = (Ok tt, Stable).
Proof. vm_compute. done. Qed.

(** ** CPU affinity *)

(** Without [--affinity] and without isolated CPU nothing happens, nothing
    is printed. *)
Lemma cpu_affinity_no_isolated_cpu (pf : Platform) (st : State) (args : Args.t) :
  TextRunner.args (self st) = Some args →
  str_truthy (Args.affinity args) = false →
  _get_isolated_cpus pf = None ∨ _get_isolated_cpus pf = Some [] →
  _cpu_affinity pf st = (Ok tt, st).
Proof.
  intros Hargs Hexplicit Hisolated. unfold _cpu_affinity, _stream. run.
  rewrite Hargs. simpl. rewrite Hexplicit. simpl.
  destruct Hisolated as [-> | ->]; by rewrite Hargs.
Qed.

(** Without [--affinity], with isolated CPUs but no way to pin the process
    (neither [os.sched_setaffinity] nor a [psutil] process with
    [cpu_affinity]): a warning of two lines, and the function returns, the
    process goes on unpinned. *)
Lemma cpu_affinity_isolated_unavailable (pf : Platform) (st : State)
    (args : Args.t) (cpu : Z) (cpus : list Z) :
  TextRunner.args (self st) = Some args →
  str_truthy (Args.affinity args) = false →
  _get_isolated_cpus pf = Some (cpu :: cpus) →
  has_sched_setaffinity pf = false →
  psutil pf = None ∨ psutil pf = Some false →
  _cpu_affinity pf st
  = (Ok tt,
     mkState (self st) (bench st)
       (trace st
        ++ [Print (if Args.json args then sys_stderr else sys_stdout) MsgUnablePin;
            Print (if Args.json args then sys_stderr else sys_stdout) MsgUsePython33])).
Proof.
  intros Hargs Hexplicit Hisolated Hsched Hpsutil. unfold _cpu_affinity, _stream.
  run. rewrite Hargs. simpl. rewrite Hexplicit, Hisolated, Hsched. simpl.
  rewrite Hargs. simpl.
  destruct Hpsutil as [-> | ->]; simpl; by rewrite <- (assoc_L (++)).
Qed.

(** With [--affinity] and no way to pin the process: the first line of the
    error is printed, then the unbound local variable [stream] is read. *)
Lemma cpu_affinity_explicit_unavailable (pf : Platform) (st : State)
    (args : Args.t) (cpus : list Z) :
  TextRunner.args (self st) = Some args →
  str_truthy (Args.affinity args) = true →
  _parse_cpu_list pf (default "" (Args.affinity args)) = Ok cpus →
  has_sched_setaffinity pf = false →
  psutil pf = None ∨ psutil pf = Some false →
  ∃ out,
    _cpu_affinity pf st
    = (Raise (UnboundLocalError "stream"),
       mkState (self st) (bench st)
         (trace st ++ out ++ [Print sys_stderr MsgAffinityError]))
    ∧ out = (if Args.verbose args =? 0 then []
             else [Print (if Args.json args then sys_stderr else sys_stdout)
                     (MsgPin (_format_cpu_list pf cpus))]).
Proof.
  intros Hargs Hexplicit Hparse Hsched Hpsutil. unfold _cpu_affinity, _stream.
  run. rewrite Hargs. simpl. rewrite Hexplicit, Hparse, Hsched. simpl.
  destruct (Args.verbose args =? 0); simpl; rewrite ?Hargs; simpl;
    destruct Hpsutil as [-> | ->]; simpl;
    (eexists; split; [| reflexivity]); simpl; by rewrite <- ?(assoc_L (++)).
Qed.


(** The two other cases on that platform: isolated CPUs found, a warning
    and the process goes on unpinned; none found, nothing happens. *)
Example cpu_affinity_isolated_no_mechanism :
  _cpu_affinity (no_affinity (Some [2; 3])) (state_of (runner_with default_args) one_run)
  = (Ok tt,
     mkState (runner_with default_args) one_run
       [Print sys_stdout MsgUnablePin; Print sys_stdout MsgUsePython33]).
Proof. reflexivity. Qed.

Example cpu_affinity_nothing_to_do :
  _cpu_affinity (no_affinity None) (state_of (runner_with default_args) one_run)
  = (Ok tt, state_of (runner_with default_args) one_run).
Proof. reflexivity. Qed.

(** ** Computations which only report *)

Lemma report_only_ret {A} (a : A) : report_only (ret a).
Proof.
  intros st. exists (Ok a), []. split; [| done].
  unfold ret. by rewrite trace_app_nil.
Qed.

Lemma report_only_raise {A} (e : exn) : report_only (@raise A e).
Proof.
  intros st. exists (Raise e), []. split; [| done].
  unfold raise. by rewrite trace_app_nil.
Qed.

Lemma report_only_lift {A} (r : result A) : report_only (lift r).
Proof.
  intros st. exists r, []. split; [| done].
  unfold lift. by rewrite trace_app_nil.
Qed.

Lemma report_only_bind {A B} (m : M A) (k : A → M B) :
  report_only m → (∀ a, report_only (k a)) → report_only (bind m k).
Proof.
  intros Hm Hk st. destruct (Hm st) as (r & out & Hrun & Hout).
  unfold bind. rewrite Hrun. destruct r as [a|e].
  - destruct (Hk a (mkState (self st) (bench st) (trace st ++ out)))
      as (r' & out' & Hrun' & Hout').
    exists r', (out ++ out'). rewrite Hrun'. simpl.
    split; [by rewrite (assoc_L (++)) |].
    by rewrite forallb_app, Hout, Hout'.
  - by exists (Raise e), out.
Qed.

Lemma report_only_emit (e : event) : is_report e = true → report_only (emit e).
Proof.
  intros He st. exists (Ok tt), [e]. split; [done |]. simpl. by rewrite He.
Qed.

Lemma report_only_print (m : message) (file : option fileobj) :
  is_report (Print (default sys_stdout file) m) = true →
  report_only (print m file).
Proof. apply report_only_emit. Qed.

Lemma report_only_when (c : bool) (body : M unit) :
  report_only body → report_only (when c body).
Proof. destruct c; [done |]. intros _. apply report_only_ret. Qed.

Lemma report_only_for {A} (l : list A) (body : A → M unit) :
  (∀ x, report_only (body x)) → report_only (for_ l body).
Proof.
  intros Hbody. induction l as [|x l IH]; simpl.
  - apply report_only_ret.
  - apply report_only_bind; [apply Hbody | intros _; apply IH].
Qed.

Lemma report_only_get_trace : report_only get_trace.
Proof.
  intros st. exists (Ok (trace st)), []. split; [| done].
  unfold get_trace. by rewrite trace_app_nil.
Qed.

Lemma report_only_self_args : report_only self_args.
Proof.
  intros st. unfold self_args.
  destruct (TextRunner.args (self st)); eexists _, []; rewrite trace_app_nil; done.
Qed.

Lemma report_only_stream : report_only _stream.
Proof.
  apply report_only_bind; [apply report_only_self_args |].
  intros a. apply report_only_ret.
Qed.

Create HintDb report_only.
#[local] Hint Resolve report_only_ret report_only_raise report_only_lift
  report_only_get_trace report_only_self_args
  report_only_stream : report_only.

Ltac report_only :=
  repeat first
    [ progress eauto with report_only
    | apply report_only_bind; [| intros ?]
    | apply report_only_when
    | apply report_only_for; intros ?
    | apply report_only_emit; reflexivity
    | apply report_only_print; reflexivity
    | match goal with
      | |- report_only (if ?c then _ else _) => destruct c
      | |- report_only (match ?x with _ => _ end) => destruct x
      | |- report_only (let '(_, _) := ?x in _) => destruct x
      end ].

Lemma report_only_json_dump (pf : Platform) (b : Benchmark.t) (args : Args.t) :
  report_only (_json_dump pf b args).
Proof. unfold _json_dump. report_only. Qed.

Lemma report_only_display_run (b : Benchmark.t) (index nrun : Z)
    (samples : list Q) (file : option fileobj) :
  report_only (_display_run b index nrun samples file).
Proof. unfold _display_run. report_only. Qed.

Lemma report_only_warn_if_bench_unstable (pf : Platform) (b : Benchmark.t)
    (verbose : Z) (file : option fileobj) :
  report_only (_warn_if_bench_unstable pf b verbose file).
Proof. unfold _warn_if_bench_unstable. report_only. Qed.

Lemma report_only_display_metadata (metadata : gmap string string)
    (file : option fileobj) (header : string) :
  report_only (_display_metadata metadata file header).
Proof. unfold _display_metadata. report_only. Qed.

Lemma report_only_display_benchmark (pf : Platform) (b : Benchmark.t)
    (verbose : Z) (file : option fileobj) (check_unstable metadata runs : bool) :
  report_only (_display_benchmark pf b verbose file check_unstable metadata runs).
Proof.
  unfold _display_benchmark.
  pose proof report_only_display_run. pose proof report_only_display_metadata.
  pose proof report_only_warn_if_bench_unstable.
  report_only.
Qed.

Lemma report_only_display_result (pf : Platform) (b : Benchmark.t)
    (check_unstable : bool) :
  report_only (_display_result pf b check_unstable).
Proof.
  unfold _display_result.
  pose proof report_only_display_benchmark. pose proof report_only_json_dump.
  report_only.
Qed.

Lemma report_no_sample_func (out : list event) :
  forallb is_report out = true → sample_func_calls out = [].
Proof.
  induction out as [|e out IH]; [done |].
  simpl. intros [He Hout]%andb_true_iff. unfold sample_func_calls in *. simpl.
  rewrite (IH Hout). by destruct e.
Qed.

Lemma report_no_spawn (out : list event) :
  forallb is_report out = true → spawned out = [].
Proof.
  induction out as [|e out IH]; [done |].
  simpl. intros [He Hout]%andb_true_iff. unfold spawned in *. simpl.
  rewrite (IH Hout). by destruct e.
Qed.


(** ** The worker *)

Lemma length_range (n : Z) : length (range n) = Z.to_nat n.
Proof. unfold range. by rewrite length_fmap, length_seq. Qed.

Lemma range_eval (st : State) (args : Args.t) :
  TextRunner.args (self st) = Some args →
  _range st
  = (Ok (((λ warmup, (true, 1 + warmup)) <$> range (Args.warmups args))
         ++ ((λ run, (false, 1 + run)) <$> range (Args.samples args))), st).
Proof. intros Hargs. unfold _range. run. by rewrite Hargs. Qed.

Lemma for_print_metadata (l : list (string * string)) (file : option fileobj)
    (st : State) :
  ∃ out,
    for_ l (λ '(key, value), print (MsgMetadataItem key value) file) st
    = (Ok tt, mkState (self st) (bench st) (trace st ++ out))
    ∧ forallb is_report out = true.
Proof.
  revert st. induction l as [|[key value] l IH]; intros st; simpl.
  - exists []. by rewrite trace_app_nil.
  - unfold bind. rewrite print_eval.
    destruct (IH (mkState (self st) (bench st)
                    (trace st ++ [Print (default sys_stdout file)
                                    (MsgMetadataItem key value)])))
      as (out & -> & Hout).
    eexists (_ :: out). simpl. split; [by rewrite <- (assoc_L (++)) | done].
Qed.

Lemma display_metadata_returns (metadata : gmap string string)
    (file : option fileobj) (header : string) (st : State) :
  ∃ out,
    _display_metadata metadata file header st
    = (Ok tt, mkState (self st) (bench st) (trace st ++ out))
    ∧ forallb is_report out = true.
Proof.
  unfold _display_metadata. destruct (decide (metadata = ∅)).
  { exists []. by rewrite trace_app_nil. }
  unfold bind. rewrite print_eval.
  edestruct for_print_metadata as (out & -> & Hout).
  eexists (_ :: out). simpl. split; [by rewrite <- (assoc_L (++)) | done].
Qed.



Lemma sample_func_calls_app (tr1 tr2 : list event) :
  sample_func_calls (tr1 ++ tr2) = sample_func_calls tr1 ++ sample_func_calls tr2.
Proof. apply omap_app. Qed.

Lemma sample_lines_app (tr1 tr2 : list event) :
  sample_lines (tr1 ++ tr2) = sample_lines tr1 ++ sample_lines tr2.
Proof. apply omap_app. Qed.

(** One iteration of the loop of [_worker]. *)
Lemma worker_iteration (op : list Z → Z → Q) (st : State) (args : Args.t)
    (is_warmup : bool) (index : Z) (samples : list Q) :
  TextRunner.args (self st) = Some args →
  (bench <- get_bench ;;
   sample <- timed op (Benchmark.loops bench) ;;
   let sample := py_round sample 9 in
   let samples := samples ++ [sample] in
   args <- self_args ;;
   when (negb (Args.verbose args =? 0))
     (stream <- _stream ;;
      print (if is_warmup : bool then MsgWarmup index sample
             else MsgRawSample index sample) (Some stream)) ;;
   ret samples) st
  = (Ok (samples
         ++ [py_round (op (sample_func_calls (trace st))
                         (Benchmark.loops (bench st))) 9]),
     mkState (self st) (bench st)
       (trace st
        ++ SampleFunc (Benchmark.loops (bench st))
           :: (if Args.verbose args =? 0 then []
               else [Print (if Args.json args then sys_stderr else sys_stdout)
                       (if is_warmup
                        then MsgWarmup index
                               (py_round (op (sample_func_calls (trace st))
                                            (Benchmark.loops (bench st))) 9)
                        else MsgRawSample index
                               (py_round (op (sample_func_calls (trace st))
                                            (Benchmark.loops (bench st))) 9))]))).
Proof.
  intros Hargs. unfold timed, _stream. run. rewrite Hargs. simpl.
  destruct (Args.verbose args =? 0); simpl; [done |].
  rewrite Hargs. simpl. by rewrite <- (assoc_L (++)).
Qed.

Lemma worker_loop (op : list Z → Z → Q) (args : Args.t)
    (items : list (bool * Z)) :
  ∀ (samples : list Q) (st : State),
    TextRunner.args (self st) = Some args →
    ∃ out,
      for_fold items
        (λ '(is_warmup, index) samples,
           bench <- get_bench ;;
           sample <- timed op (Benchmark.loops bench) ;;
           let sample := py_round sample 9 in
           let samples := samples ++ [sample] in
           args <- self_args ;;
           when (negb (Args.verbose args =? 0))
             (stream <- _stream ;;
              print (if is_warmup : bool then MsgWarmup index sample
                     else MsgRawSample index sample) (Some stream)) ;;
           ret samples)
        samples st
      = (Ok (samples
             ++ ((λ i, py_round
                         (op (sample_func_calls (trace st)
                              ++ replicate i (Benchmark.loops (bench st)))
                             (Benchmark.loops (bench st))) 9)
                 <$> seq 0 (length items))),
         mkState (self st) (bench st) (trace st ++ out))
      ∧ sample_func_calls out
        = replicate (length items) (Benchmark.loops (bench st))
      ∧ sample_lines out
        = (if Args.verbose args =? 0 then []
           else zip_with
                  (λ '(is_warmup, index) sample,
                     if is_warmup : bool then MsgWarmup index sample
                     else MsgRawSample index sample)
                  items
                  ((λ i, py_round
                           (op (sample_func_calls (trace st)
                                ++ replicate i (Benchmark.loops (bench st)))
                               (Benchmark.loops (bench st))) 9)
                   <$> seq 0 (length items))).
Proof.
  induction items as [|[is_warmup index] items IH]; intros samples st Hargs.
  - exists []. simpl. rewrite app_nil_r, trace_app_nil.
    split; [done |]. split; [done |]. by destruct (Args.verbose args =? 0).
  - rewrite for_fold_cons. erewrite bind_eval_ok; [| by apply worker_iteration].
    match goal with
    | |- context [for_fold items _ _ ?s] => destruct (IH (samples ++
        [py_round (op (sample_func_calls (trace st)) (Benchmark.loops (bench st))) 9])
        s Hargs) as (out & Hrun & Hcalls & Hlines)
    end.
    rewrite Hrun. cbn [self bench trace] in *.
    assert (sample_func_calls
              (trace st
               ++ SampleFunc (Benchmark.loops (bench st))
                  :: (if Args.verbose args =? 0 then []
                      else [Print (if Args.json args then sys_stderr else sys_stdout)
                              (if is_warmup
                               then MsgWarmup index
                                      (py_round (op (sample_func_calls (trace st))
                                                   (Benchmark.loops (bench st))) 9)
                               else MsgRawSample index
                                      (py_round (op (sample_func_calls (trace st))
                                                   (Benchmark.loops (bench st))) 9))]))
            = sample_func_calls (trace st) ++ [Benchmark.loops (bench st)]) as Hcalls1.
    { rewrite sample_func_calls_app. f_equal.
      by destruct (Args.verbose args =? 0). }
    rewrite Hcalls1 in *. clear Hcalls1.
    assert (((λ i, py_round
                     (op ((sample_func_calls (trace st) ++ [Benchmark.loops (bench st)])
                          ++ replicate i (Benchmark.loops (bench st)))
                         (Benchmark.loops (bench st))) 9)
             <$> seq 0 (length items))
            = ((λ i, py_round
                       (op (sample_func_calls (trace st)
                            ++ replicate i (Benchmark.loops (bench st)))
                           (Benchmark.loops (bench st))) 9)
               <$> seq 1 (length items))) as Hshift.
    { rewrite <- fmap_S_seq, <- list_fmap_compose. apply list_fmap_ext.
      intros _ i _. simpl. by rewrite <- (assoc_L (++)). }
    rewrite Hshift in *. clear Hshift.
    eexists (_ :: _ ++ out). split; [| split].
    + f_equal.
      * f_equal. rewrite <- (assoc_L (++)). f_equal. simpl. by rewrite app_nil_r.
      * f_equal. rewrite <- (assoc_L (++)). reflexivity.
    + change (sample_func_calls (?e :: ?l)) with (sample_func_calls ([e] ++ l)).
      rewrite !sample_func_calls_app, Hcalls. simpl.
      by destruct (Args.verbose args =? 0).
    + change (sample_lines (?e :: ?l)) with (sample_lines ([e] ++ l)).
      rewrite !sample_lines_app, Hlines. simpl.
      destruct (Args.verbose args =? 0); simpl; [done |].
      rewrite app_nil_r. by destruct is_warmup.
Qed.



(** A run of the worker: one warmup and three samples of 1000 loops, the
    durations rounded to the nanosecond. *)
Example worker_run :
  (_worker posix (timed jitter_op)
     (state_of (runner_with raw_args) (Benchmark.new None 1 1000 None ∅))).1
  = Ok (Benchmark.mk None 1 1000 None ∅
          [[(100000000 # 1000000000); (100000002 # 1000000000);
            (100000003 # 1000000000); (100000005 # 1000000000)]%Q]).
Proof. vm_compute. reflexivity. Qed.

(** ** Spawning the workers *)

Lemma spawned_app (tr1 tr2 : list event) :
  spawned (tr1 ++ tr2) = spawned tr1 ++ spawned tr2.
Proof. apply omap_app. Qed.

Lemma json_dumps_app (tr1 tr2 : list event) :
  json_dumps (tr1 ++ tr2) = json_dumps tr1 ++ json_dumps tr2.
Proof. apply omap_app. Qed.

Lemma spawn_worker_eval (pf : Platform) (st : State) (args : Args.t) :
  TextRunner.args (self st) = Some args →
  _spawn_worker pf st
  = _bench_from_subprocess pf (worker_command (self st) args) st.
Proof.
  intros Hargs. unfold _spawn_worker.
  rewrite (bind_eval_ok _ _ st st (self st)) by done.
  by rewrite (bind_eval_ok _ _ _ _ _ (self_args_eval _ _ Hargs)).
Qed.

(** What one child does to the orchestrator. *)
Lemma bench_from_subprocess_outcome (pf : Platform) (cmd : list string)
    (st : State) :
  (∃ stdout stderr,
     communicate pf (trace st ++ [Popen cmd]) cmd = Exited 0 stdout stderr
     ∧ _bench_from_subprocess pf cmd st
       = (json_load pf stdout,
          mkState (self st) (bench st) (trace st ++ [Popen cmd])))
  ∨ (∃ e tail,
       child_fails pf cmd (trace st ++ [Popen cmd]) e tail
       ∧ tail ≠ []
       ∧ _bench_from_subprocess pf cmd st
         = (Raise e, mkState (self st) (bench st) ((trace st ++ [Popen cmd]) ++ tail)))
  ∨ (∃ e,
       communicate pf (trace st ++ [Popen cmd]) cmd = PopenFailed e
       ∧ _bench_from_subprocess pf cmd st
         = (Raise e, mkState (self st) (bench st) (trace st ++ [Popen cmd]))).
Proof.
  assert (_bench_from_subprocess pf cmd st
          = match communicate pf (trace st ++ [Popen cmd]) cmd with
            | PopenFailed e => raise e
            | Interrupted e => emit Kill ;; emit Wait ;; raise e
            | Exited returncode stdout stderr =>
                if negb (returncode =? 0) then
                  emit (Write sys_stdout stdout) ;;
                  emit (Flush sys_stdout) ;;
                  emit (Write sys_stderr stderr) ;;
                  emit (Flush sys_stderr) ;;
                  match cmd with
                  | [] => raise (IndexError "list index out of range")
                  | arg0 :: _ =>
                      raise (RuntimeError
                               (arg0 +:+ " failed with exit code " +:+ pretty returncode))
                  end
                else lift (json_load pf stdout)
            end (mkState (self st) (bench st) (trace st ++ [Popen cmd]))) as ->
    by reflexivity.
  unfold child_fails.
  destruct (communicate pf (trace st ++ [Popen cmd]) cmd)
    as [e | returncode stdout stderr | e] eqn:Hchild.
  - right; right. by exists e.
  - destruct (returncode =? 0) eqn:Hcode.
    + left. apply Z.eqb_eq in Hcode as ->. by exists stdout, stderr.
    + right; left. simpl. unfold bind, emit, raise. simpl.
      eexists _, _. split; [split; reflexivity |]. split; [done |].
      destruct cmd; by rewrite <- !(assoc_L (++)).
  - right; left. exists e, [Kill; Wait]. split; [done |]. split; [done |].
    unfold bind, emit, raise. simpl. by rewrite <- !(assoc_L (++)).
Qed.

Lemma child_fails_tail (pf : Platform) (cmd : list string) (tr : list event)
    (e : exn) (tail : list event) :
  child_fails pf cmd tr e tail → json_dumps tail = [] ∧ spawned tail = [].
Proof.
  unfold child_fails. destruct (communicate pf tr cmd) as [| returncode ? ? |].
  - by intros [_ ->].
  - destruct (returncode =? 0); by intros [-> _].
  - by intros [_ ->].
Qed.

(** One iteration of the loop of [_spawn_workers]: either the child
    succeeds and its run is added to the benchmark, or it fails and the
    benchmark is left as it is. *)
Lemma spawn_workers_iteration (pf : Platform) (st : State) (args : Args.t)
    (verbose nprocess process : Z) (stream : fileobj) :
  TextRunner.args (self st) = Some args →
  (∃ run disp,
     child_succeeds pf (worker_command (self st) args)
       (trace st ++ [Popen (worker_command (self st) args)]) run
     ∧ (run_bench <- _spawn_worker pf ;;
        samples <- lift (Benchmark._get_worker_samples run_bench) ;;
        bench <- get_bench ;;
        set_bench (Benchmark.add_run samples bench) ;;
        bench <- get_bench ;;
        if 1 <? verbose then
          _display_run bench (1 + process) nprocess samples (Some stream)
        else
          print MsgDot (Some stream) ;;
          emit (Flush stream)) st
       = (Ok tt,
          mkState (self st) (Benchmark.add_run run (bench st))
            ((trace st ++ [Popen (worker_command (self st) args)]) ++ disp))
     ∧ json_dumps disp = [] ∧ spawned disp = [] ∧ sample_func_calls disp = [])
  ∨ (∃ e tail,
       child_fails pf (worker_command (self st) args)
         (trace st ++ [Popen (worker_command (self st) args)]) e tail
       ∧ (run_bench <- _spawn_worker pf ;;
          samples <- lift (Benchmark._get_worker_samples run_bench) ;;
          bench <- get_bench ;;
          set_bench (Benchmark.add_run samples bench) ;;
          bench <- get_bench ;;
          if 1 <? verbose then
            _display_run bench (1 + process) nprocess samples (Some stream)
          else
            print MsgDot (Some stream) ;;
            emit (Flush stream)) st
         = (Raise e,
            mkState (self st) (bench st)
              ((trace st ++ [Popen (worker_command (self st) args)]) ++ tail))).
Proof.
  intros Hargs. set (cmd := worker_command (self st) args).
  destruct (bench_from_subprocess_outcome pf cmd st)
    as [(stdout & stderr & Hchild & Hrun) | [(e & tail & Hfail & _ & Hrun)
                                            | (e & Hchild & Hrun)]].
  - destruct (json_load pf stdout) as [run_bench | e] eqn:Hload.
    + destruct (Benchmark._get_worker_samples run_bench) as [run | e] eqn:Hget.
      * left. exists run.
        exists (if 1 <? verbose
                then [Print stream (MsgRun (1 + process) nprocess
                                      (slice_to run (Benchmark.warmups
                                                       (Benchmark.add_run run (bench st))))
                                      (slice_from run (Benchmark.warmups
                                                         (Benchmark.add_run run (bench st)))))]
                else [Print stream MsgDot; Flush stream]).
        split; [| split].
        -- exists stdout, stderr, run_bench. split; [done |]. split; [done |].
           unfold Benchmark._get_worker_samples in Hget.
           destruct (Benchmark.runs run_bench) as [|? [|]]; by simplify_eq.
        -- unfold bind at 1. rewrite (spawn_worker_eval _ _ _ Hargs). fold cmd.
           rewrite Hrun, Hget.
           unfold bind, lift, get_bench, set_bench, _display_run, print, emit.
           simpl. destruct (1 <? verbose); simpl; by rewrite <- ?(assoc_L (++)).
        -- by destruct (1 <? verbose).
      * right. exists e, []. split.
        -- unfold child_fails. rewrite Hchild. simpl. split; [done |]. right. eauto.
        -- unfold bind at 1. rewrite (spawn_worker_eval _ _ _ Hargs). fold cmd.
           rewrite Hrun, Hget. by rewrite app_nil_r.
    + right. exists e, []. split.
      * unfold child_fails. rewrite Hchild. simpl. split; [done |]. by left.
      * unfold bind at 1. rewrite (spawn_worker_eval _ _ _ Hargs). fold cmd.
        rewrite Hrun. by rewrite app_nil_r.
  - right. exists e, tail. split; [done |].
    unfold bind at 1. rewrite (spawn_worker_eval _ _ _ Hargs). fold cmd.
    by rewrite Hrun.
  - right. exists e, []. split.
    + unfold child_fails. by rewrite Hchild.
    + unfold bind at 1. rewrite (spawn_worker_eval _ _ _ Hargs). fold cmd.
      rewrite Hrun. by rewrite app_nil_r.
Qed.

Lemma add_runs_cons (run : list Q) (runs : list (list Q)) (b : Benchmark.t) :
  add_runs (run :: runs) b = add_runs runs (Benchmark.add_run run b).
Proof. reflexivity. Qed.

Lemma add_runs_runs (runs : list (list Q)) (b : Benchmark.t) :
  Benchmark.runs (add_runs runs b) = Benchmark.runs b ++ runs.
Proof.
  revert b. induction runs as [|run runs IH]; intros b.
  - simpl. by rewrite app_nil_r.
  - rewrite add_runs_cons, IH. simpl. by rewrite <- (assoc_L (++)).
Qed.

Lemma add_runs_loops (runs : list (list Q)) (b : Benchmark.t) :
  Benchmark.loops (add_runs runs b) = Benchmark.loops b
  ∧ Benchmark.warmups (add_runs runs b) = Benchmark.warmups b
  ∧ Benchmark.name (add_runs runs b) = Benchmark.name b
  ∧ Benchmark.inner_loops (add_runs runs b) = Benchmark.inner_loops b
  ∧ Benchmark.metadata (add_runs runs b) = Benchmark.metadata b.
Proof.
  revert b. induction runs as [|run runs IH]; intros b; [done |].
  rewrite add_runs_cons. by destruct (IH (Benchmark.add_run run b)) as (-> & -> & -> & -> & ->).
Qed.

(** The loop of [_spawn_workers] over the processes [l]: the runs of the
    children which succeeded are added in spawn order; the loop stops at
    the first child which fails. *)
Lemma spawn_workers_loop (pf : Platform) (args : Args.t)
    (verbose nprocess : Z) (stream : fileobj) (l : list Z) :
  ∀ st : State,
    TextRunner.args (self st) = Some args →
    ∃ r st' rs,
      for_ l
        (λ process,
           run_bench <- _spawn_worker pf ;;
           samples <- lift (Benchmark._get_worker_samples run_bench) ;;
           bench <- get_bench ;;
           set_bench (Benchmark.add_run samples bench) ;;
           bench <- get_bench ;;
           if 1 <? verbose then
             _display_run bench (1 + process) nprocess samples (Some stream)
           else
             print MsgDot (Some stream) ;;
             emit (Flush stream)) st
      = (r, st')
      ∧ self st' = self st
      ∧ bench st' = add_runs rs (bench st)
      ∧ (∀ i run, rs !! i = Some run →
           ∃ tr, spawned tr
                 = spawned (trace st)
                   ++ replicate (S i) (worker_command (self st) args)
                 ∧ child_succeeds pf (worker_command (self st) args) tr run)
      ∧ json_dumps (trace st') = json_dumps (trace st)
      ∧ ((r = Ok tt
          ∧ length rs = length l
          ∧ spawned (trace st')
            = spawned (trace st)
              ++ replicate (length l) (worker_command (self st) args))
         ∨ (∃ e tr tail,
              r = Raise e
              ∧ (length rs < length l)%nat
              ∧ spawned tr
                = spawned (trace st)
                  ++ replicate (S (length rs)) (worker_command (self st) args)
              ∧ child_fails pf (worker_command (self st) args) tr e tail
              ∧ trace st' = tr ++ tail)).
Proof.
  induction l as [|process l IH]; intros st Hargs.
  - exists (Ok tt), st, []. repeat split; try done.
    left. simpl. by rewrite app_nil_r.
  - rewrite for_cons.
    destruct (spawn_workers_iteration pf st args verbose nprocess process stream Hargs)
      as [(run & disp & Hchild & Hrun & Hdump & Hspawn & _)
         | (e & tail & Hfail & Hrun)].
    + rewrite (bind_eval_ok _ _ _ _ _ Hrun).
      match goal with
      | |- context [for_ l _ ?s] =>
          destruct (IH s Hargs)
            as (r & st' & rs & Hloop & Hself & Hbench & Hprov & Hdumps & Hend)
      end.
      cbn [self bench trace] in *.
      assert (spawned ((trace st ++ [Popen (worker_command (self st) args)]) ++ disp) = spawned (trace st) ++ [worker_command (self st) args])
        as Hsp by (by rewrite !spawned_app, Hspawn, app_nil_r).
      rewrite Hsp in *.
      exists r, st', (run :: rs). split; [done |]. split; [done |].
      split; [done |]. split; [| split].
      * intros [|i] run' Hi.
        -- injection Hi as <-. exists (trace st ++ [Popen (worker_command (self st) args)]).
           by rewrite spawned_app.
        -- destruct (Hprov i run' Hi) as (tr & Htr & Hok). exists tr.
           split; [| done]. rewrite Htr, <- (assoc_L (++)). done.
      * rewrite Hdumps, !json_dumps_app, Hdump.
        change (json_dumps [Popen _]) with (@nil (fileobj * Benchmark.t)).
        by rewrite !app_nil_r.
      * destruct Hend as [(-> & Hlen & Hend) | (e & tr & tail & -> & Hlen & Htr & Hfail & Hend)].
        -- left. split; [done |]. split; [simpl; by rewrite Hlen |].
           rewrite Hend, <- (assoc_L (++)). done.
        -- right. exists e, tr, tail. split; [done |]. split; [simpl; lia |].
           split; [| done]. rewrite Htr, <- (assoc_L (++)). done.
    + rewrite (bind_eval_raise _ _ _ _ _ Hrun).
      destruct (child_fails_tail _ _ _ _ _ Hfail) as [Hdump Hspawn].
      eexists (Raise e), _, []. split; [reflexivity |]. cbn [self bench trace].
      split; [done |]. split; [done |]. split; [| split].
      * intros i run Hi. by rewrite lookup_nil in Hi.
      * rewrite !json_dumps_app, Hdump.
        change (json_dumps [Popen _]) with (@nil (fileobj * Benchmark.t)).
        by rewrite !app_nil_r.
      * right. exists e, (trace st ++ [Popen (worker_command (self st) args)]), tail.
        split; [done |]. split; [simpl; lia |]. split; [| done].
        by rewrite spawned_app.
Qed.

(** What [_spawn_workers] does, whether all children succeed or not. *)
Lemma spawn_workers_outcome (pf : Platform) (start_time : Q) (st : State)
    (args : Args.t) :
  TextRunner.args (self st) = Some args →
  ∃ r st' rs,
    _spawn_workers pf start_time st = (r, st')
    ∧ self st' = self st
    ∧ Benchmark.runs (bench st') = Benchmark.runs (bench st) ++ rs
    ∧ Benchmark.loops (bench st') = Benchmark.loops (bench st)
    ∧ (∀ i run, rs !! i = Some run →
         ∃ tr, spawned tr
               = spawned (trace st)
                 ++ replicate (S i) (worker_command (self st) args)
               ∧ child_succeeds pf (worker_command (self st) args) tr run)
    ∧ ((length rs = Z.to_nat (Args.processes args)
        ∧ spawned (trace st')
          = spawned (trace st)
            ++ replicate (Z.to_nat (Args.processes args))
                 (worker_command (self st) args)
        ∧ (r = Ok (bench st') ∨ ∃ e, r = Raise e))
       ∨ (∃ e tr tail,
            r = Raise e
            ∧ (length rs < Z.to_nat (Args.processes args))%nat
            ∧ spawned tr
              = spawned (trace st)
                ++ replicate (S (length rs)) (worker_command (self st) args)
            ∧ child_fails pf (worker_command (self st) args) tr e tail
            ∧ trace st' = tr ++ tail
            ∧ json_dumps (trace st') = json_dumps (trace st)
            ∧ bench st' = add_runs rs (bench st))).
Proof.
  intros Hargs. unfold _spawn_workers.
  rewrite (bind_eval_ok _ _ _ _ _ (self_args_eval _ _ Hargs)). cbv zeta.
  rewrite (bind_eval_ok _ _ _ _ _ (stream_eval _ _ Hargs)).
  destruct (spawn_workers_loop pf args (Args.verbose args) (Args.processes args)
              (if Args.json args then sys_stderr else sys_stdout)
              (range (Args.processes args)) st Hargs)
    as (r & st1 & rs & Hloop & Hself & Hbench & Hprov & Hdumps & Hend).
  rewrite length_range in Hend.
  destruct Hend as [(-> & Hlen & Hspawn)
                   | (e & tr & tail & -> & Hlen & Htr & Hfail & Htrace)].
  - rewrite (bind_eval_ok _ _ _ _ _ Hloop).
    set (blank := if Args.verbose args <=? 1
                  then [Print (if Args.json args then sys_stderr else sys_stdout) MsgBlank]
                  else []).
    assert (when (Args.verbose args <=? 1)
              (print MsgBlank (Some (if Args.json args then sys_stderr else sys_stdout))) st1
            = (Ok tt, mkState (self st1) (bench st1) (trace st1 ++ blank))) as Hblank.
    { unfold blank. destruct (Args.verbose args <=? 1); simpl; [done |].
      unfold ret. by rewrite trace_app_nil. }
    rewrite (bind_eval_ok _ _ _ _ _ Hblank).
    rewrite (bind_eval_ok _ _ _ _ _ (emit_eval _ _)).
    unfold bind at 1 2 3 4, get_trace, get_bench at 1 2, set_bench.
    cbn [self bench trace fst snd].
    match goal with
    | |- context [bind (_display_result pf ?b true) _ ?s] =>
        destruct (report_only_display_result pf b true s)
          as (r & out & Hdisplay & Hio)
    end.
    unfold bind. rewrite Hdisplay. cbn [self bench trace] in *.
    match goal with
    | |- context [get_bench ?s] => set (st2 := s)
    end.
    exists (match r with Ok _ => Ok (bench st2) | Raise e => Raise e end), st2, rs.
    split; [by destruct r |]. unfold st2. cbn [self bench trace].
    split; [done |].
    split; [simpl; by rewrite Hbench, add_runs_runs |].
    split; [simpl; rewrite Hbench; apply add_runs_loops |].
    split; [done |]. left. split; [done |]. split.
    + rewrite !spawned_app, (report_no_spawn _ Hio), Hspawn.
      assert (spawned blank = []) as -> by (unfold blank; by destruct (_ <=? _)).
      change (spawned [MonotonicClock]) with (@nil (list string)).
      by rewrite !app_nil_r.
    + destruct r; [by left | right; eauto].
  - rewrite (bind_eval_raise _ _ _ _ _ Hloop).
    exists (Raise e), st1, rs. split; [done |]. split; [done |].
    split; [by rewrite Hbench, add_runs_runs |].
    split; [rewrite Hbench; apply add_runs_loops |].
    split; [done |]. right. exists e, tr, tail. done.
Qed.

Lemma worker_command_loops (r : TextRunner.t) (args : Args.t) :
  TextRunner.prepare_subprocess_args r = None →
  ∃ before after,
    worker_command r args
    = before ++ ["--loops"; pretty (Args.loops args)] ++ after.
Proof.
  intros Hprepare. unfold worker_command. rewrite Hprepare.
  exists (TextRunner.program_args r
          ++ ["--raw"; "--json"; "--samples"; pretty (Args.samples args);
              "--warmups"; pretty (Args.warmups args)]).
  eexists. rewrite <- !(assoc_L (++)). simpl. reflexivity.
Qed.

Lemma child_succeeds_not_fails (pf : Platform) (cmd : list string)
    (tr : list event) (run : list Q) (e : exn) (tail : list event) :
  child_succeeds pf cmd tr run → ¬ child_fails pf cmd tr e tail.
Proof.
  intros (stdout & stderr & run_bench & Hchild & Hload & Hruns).
  unfold child_fails. rewrite Hchild. simpl. rewrite Hload.
  intros [_ [? | (run_bench' & [= <-] & Hget)]]; [done |].
  unfold Benchmark._get_worker_samples in Hget. by rewrite Hruns in Hget.
Qed.

(** C5: when [_spawn_workers] returns, the benchmark it returns is the
    benchmark it was given with one more run per process, [processes] runs
    in all when it had none, the run of the child spawned first coming
    first: the run at position [i] is the one run of the benchmark loaded
    from the output of the child spawned when [i] children had been spawned
    before. All the children were spawned with the same command line, which
    carries [--loops] and the loops of the configuration as they were when
    the first worker was spawned, and the loops of the benchmark are left
    as they were. *)
Theorem spawn_workers_runs (pf : Platform) (start_time : Q) (st st' : State)
    (args : Args.t) (b : Benchmark.t) :
  TextRunner.args (self st) = Some args →
  _spawn_workers pf start_time st = (Ok b, st') →
  ∃ rs,
    b = bench st'
    ∧ Benchmark.runs b = Benchmark.runs (bench st) ++ rs
    ∧ length rs = Z.to_nat (Args.processes args)
    ∧ (∀ i run, rs !! i = Some run →
         ∃ tr, spawned tr
               = spawned (trace st)
                 ++ replicate (S i) (worker_command (self st) args)
               ∧ child_succeeds pf (worker_command (self st) args) tr run)
    ∧ spawned (trace st')
      = spawned (trace st)
        ++ replicate (Z.to_nat (Args.processes args))
             (worker_command (self st) args)
    ∧ (TextRunner.prepare_subprocess_args (self st) = None →
       ∃ before after,
         worker_command (self st) args
         = before ++ ["--loops"; pretty (Args.loops args)] ++ after)
    ∧ TextRunner.args (self st') = Some args
    ∧ Benchmark.loops b = Benchmark.loops (bench st).
Proof.
  intros Hargs Hrun.
  destruct (spawn_workers_outcome pf start_time st args Hargs)
    as (r & st'' & rs & Hrun' & Hself & Hruns & Hloops & Hprov & Hend).
  rewrite Hrun in Hrun'. injection Hrun' as <- <-.
  destruct Hend as [(Hlen & Hspawn & [[= ->] | [e [=]]])
                   | (e & tr & tail & [=] & _)].
  exists rs. split; [done |]. split; [done |]. split; [done |].
  split; [done |]. split; [done |].
  split; [apply worker_command_loops |]. split; [by rewrite Hself |]. done.
Qed.

(** C6: when the child spawned after [n] successful ones exits with a
    status other than 0, [_spawn_workers] writes the captured stdout of the
    child to its stdout and the captured stderr to its stderr, and raises
    [RuntimeError("<program> failed with exit code <status>")], which the
    handler of [KeyboardInterrupt] in [_main] does not catch. No worker is
    spawned after the one which failed, the benchmark holds the runs of the
    [n] workers before it and no other, and nothing is dumped: the
    benchmark is neither returned nor written. *)
Theorem spawn_workers_child_failure (pf : Platform) (start_time : Q) (st : State)
    (args : Args.t) (n : nat) (status : Z) (arg0 : string) (rest : list string) :
  TextRunner.args (self st) = Some args →
  worker_command (self st) args = arg0 :: rest →
  (n < Z.to_nat (Args.processes args))%nat →
  (∀ i tr, (i < n)%nat →
     spawned tr = spawned (trace st) ++ replicate (S i) (arg0 :: rest) →
     ∃ run, child_succeeds pf (arg0 :: rest) tr run) →
  (∀ tr, spawned tr = spawned (trace st) ++ replicate (S n) (arg0 :: rest) →
     ∃ stdout stderr, communicate pf tr (arg0 :: rest) = Exited status stdout stderr) →
  status ≠ 0 →
  ∃ st' rs tr stdout stderr,
    _spawn_workers pf start_time st
    = (Raise (RuntimeError (arg0 +:+ " failed with exit code " +:+ pretty status)),
       st')
    ∧ communicate pf tr (arg0 :: rest) = Exited status stdout stderr
    ∧ trace st' = tr ++ [Write sys_stdout stdout; Flush sys_stdout;
                        Write sys_stderr stderr; Flush sys_stderr]
    ∧ spawned (trace st')
      = spawned (trace st) ++ replicate (S n) (arg0 :: rest)
    ∧ Benchmark.runs (bench st') = Benchmark.runs (bench st) ++ rs
    ∧ length rs = n
    ∧ json_dumps (trace st') = json_dumps (trace st)
    ∧ (∀ handler : M Benchmark.t,
         try_except_KeyboardInterrupt (_spawn_workers pf start_time) handler st
         = (Raise (RuntimeError (arg0 +:+ " failed with exit code " +:+ pretty status)),
            st')).
Proof.
  intros Hargs Hcmd Hn Hbefore Hchild Hstatus.
  destruct (spawn_workers_outcome pf start_time st args Hargs)
    as (r & st' & rs & Hrun & Hself & Hruns & Hloops & Hprov & Hend).
  rewrite Hcmd in *.
  assert (∀ run, rs !! n = Some run → False) as Hnth.
  { intros run Hrs. destruct (Hprov n run Hrs) as (tr & Htr & Hok).
    destruct (Hchild tr Htr) as (stdout & stderr & Hexit).
    destruct Hok as (? & ? & ? & Hexit' & _). rewrite Hexit in Hexit'.
    by injection Hexit' as ->. }
  destruct Hend as [(Hlen & _) | (e & tr & tail & -> & Hlen & Htr & Hfail & Htrace & Hdumps & _)].
  { destruct (lookup_lt_is_Some_2 rs n) as [run Hrs]; [lia |]. by destruct (Hnth run). }
  destruct (decide (length rs = n)) as [<- | Hne].
  - destruct (Hchild tr Htr) as (stdout & stderr & Hexit).
    unfold child_fails in Hfail. rewrite Hexit in Hfail.
    apply Z.eqb_neq in Hstatus. rewrite Hstatus in Hfail. destruct Hfail as [-> ->].
    exists st', rs, tr, stdout, stderr. split; [done |]. split; [done |].
    split; [done |]. split; [by rewrite Htrace, spawned_app, Htr, app_nil_r |].
    split; [done |]. split; [done |]. split; [done |].
    intros handler. unfold try_except_KeyboardInterrupt. by rewrite Hrun.
  - destruct (decide (length rs < n)%nat) as [Hlt | Hge].
    + destruct (Hbefore (length rs) tr Hlt Htr) as [run Hok].
      by destruct (child_succeeds_not_fails _ _ _ _ _ _ Hok Hfail).
    + destruct (lookup_lt_is_Some_2 rs n) as [run Hrs]; [lia |].
      by destruct (Hnth run).
Qed.

(** In [_main] the benchmark is created, without any run and with the
    loops of the configuration, after the calibration and before the first
    worker is spawned: when [_main] returns in spawning mode the benchmark
    has one run per process and every worker was given these loops. *)
Lemma main_spawning_runs (pf : Platform) (sample_func : Z → M Q)
    (st st' : State) (b : Benchmark.t) :
  _main pf sample_func st = (Ok b, st') →
  ∃ st0 args,
    TextRunner.args (self st0) = Some args
    ∧ Benchmark.runs (bench st0) = []
    ∧ Benchmark.loops (bench st0) = Args.loops args
    ∧ (Args.raw args = false →
       self st' = self st0
       ∧ length (Benchmark.runs b) = Z.to_nat (Args.processes args)
       ∧ Benchmark.loops b = Args.loops args
       ∧ spawned (trace st')
         = spawned (trace st0)
           ++ replicate (Z.to_nat (Args.processes args))
                (worker_command (self st0) args)).
Proof.
  unfold _main. intros Hmain.
  apply bind_inv_ok in Hmain as (_ & s1 & _ & Hmain).
  apply bind_inv_ok in Hmain as (tr & s2 & _ & Hmain). cbv zeta in Hmain.
  apply bind_inv_ok in Hmain as (_ & s3 & _ & Hmain).
  apply bind_inv_ok in Hmain as (_ & s4 & _ & Hmain).
  apply bind_inv_ok in Hmain as (args4 & s5 & _ & Hmain).
  apply bind_inv_ok in Hmain as (_ & s6 & _ & Hmain).
  apply bind_inv_ok in Hmain as (r & s7 & Hself & Hmain).
  unfold get_self in Hself. simplify_eq.
  apply bind_inv_ok in Hmain as (args & s8 & Hargs & Hmain).
  unfold self_args in Hargs.
  destruct (TextRunner.args (self s7)) as [args' |] eqn:Hargs'; [| done].
  simplify_eq.
  apply bind_inv_ok in Hmain as (u9 & s9 & Hset & Hmain).
  unfold set_bench in Hset. simplify_eq.
  apply bind_inv_ok in Hmain as (u10 & s10 & Hmeta & Hmain).
  exists s10, args.
  assert (self s10 = self s8
          ∧ Benchmark.runs (bench s10) = []
          ∧ Benchmark.loops (bench s10) = Args.loops args) as (Hself & Hruns & Hloops).
  { destruct (negb (Args.raw args) || Args.metadata args); simpl in Hmeta.
    - unfold bind, emit, get_bench, set_bench in Hmeta. simpl in Hmeta.
      by simplify_eq.
    - unfold ret in Hmeta. by simplify_eq. }
  split; [by rewrite Hself |]. split; [done |]. split; [done |].
  intros Hraw. rewrite Hraw in Hmain. simpl in Hmain.
  unfold try_except_KeyboardInterrupt in Hmain.
  destruct (spawn_workers_outcome pf (monotonic_clock pf tr) s10 args)
    as (r & s11 & rs & Hspawn & Hself' & Hrs & Hloops' & _ & Hend);
    [by rewrite Hself |].
  rewrite Hspawn in Hmain.
  destruct Hend as [(Hlen & Hspawned & [-> | [e ->]])
                   | (e & ? & ? & -> & _)].
  - simplify_eq. split; [done |].
    split; [by rewrite Hrs, Hruns |]. split; [by rewrite Hloops' |]. done.
  - destruct e; unfold bind, print, emit, sys_exit, raise in Hmain; done.
  - destruct e; unfold bind, print, emit, sys_exit, raise in Hmain; done.
Qed.

Lemma spawn_workers_runs_witness :
  ∃ rs,
    bench (_spawn_workers posix 0 (spawning_state three_processes_args)).2
    = bench (_spawn_workers posix 0 (spawning_state three_processes_args)).2
    ∧ Benchmark.runs
        (bench (_spawn_workers posix 0 (spawning_state three_processes_args)).2)
      = Benchmark.runs (bench (spawning_state three_processes_args)) ++ rs
    ∧ length rs = Z.to_nat (Args.processes three_processes_args)
    ∧ (∀ i run, rs !! i = Some run →
         ∃ tr, spawned tr
               = spawned (trace (spawning_state three_processes_args))
                 ++ replicate (S i)
                      (worker_command (self (spawning_state three_processes_args))
                         three_processes_args)
               ∧ child_succeeds posix
                   (worker_command (self (spawning_state three_processes_args))
                      three_processes_args) tr run)
    ∧ spawned (trace (_spawn_workers posix 0 (spawning_state three_processes_args)).2)
      = spawned (trace (spawning_state three_processes_args))
        ++ replicate (Z.to_nat (Args.processes three_processes_args))
             (worker_command (self (spawning_state three_processes_args))
                three_processes_args)
    ∧ (TextRunner.prepare_subprocess_args (self (spawning_state three_processes_args))
       = None →
       ∃ before after,
         worker_command (self (spawning_state three_processes_args))
           three_processes_args
         = before ++ ["--loops"; pretty (Args.loops three_processes_args)] ++ after)
    ∧ TextRunner.args
        (self (_spawn_workers posix 0 (spawning_state three_processes_args)).2)
      = Some three_processes_args
    ∧ Benchmark.loops
        (bench (_spawn_workers posix 0 (spawning_state three_processes_args)).2)
      = Benchmark.loops (bench (spawning_state three_processes_args)).
Proof.
  apply (spawn_workers_runs posix 0 (spawning_state three_processes_args)
           (_spawn_workers posix 0 (spawning_state three_processes_args)).2
           three_processes_args);
    [reflexivity | vm_compute; reflexivity].
Defined.

(** Three workers: three runs, in the order of the three identical
    commands. *)
Example spawn_three_workers :
  Benchmark.runs (bench (_spawn_workers posix 0 (spawning_state three_processes_args)).2)
  = [[(11 # 100); (1 # 10); (1 # 10); (1 # 10)];
     [(11 # 100); (1 # 10); (1 # 10); (1 # 10)];
     [(11 # 100); (1 # 10); (1 # 10); (1 # 10)]]%Q
  ∧ spawned (trace (_spawn_workers posix 0 (spawning_state three_processes_args)).2)
    = replicate 3
        ["python3"; "bench.py"; "--raw"; "--json"; "--samples"; "3";
         "--warmups"; "1"; "--loops"; "1000"].
Proof. vm_compute. done. Qed.

Lemma spawn_workers_child_failure_witness :
  ∃ st' rs tr stdout stderr,
    _spawn_workers (failing_child 2 2) 0 (spawning_state three_processes_args)
    = (Raise (RuntimeError ("python3" +:+ " failed with exit code " +:+ pretty 2)),
       st')
    ∧ communicate (failing_child 2 2) tr
        ("python3"
         :: ["bench.py"; "--raw"; "--json"; "--samples"; "3"; "--warmups"; "1";
             "--loops"; "1000"])
      = Exited 2 stdout stderr
    ∧ trace st' = tr ++ [Write sys_stdout stdout; Flush sys_stdout;
                        Write sys_stderr stderr; Flush sys_stderr]
    ∧ spawned (trace st')
      = spawned (trace (spawning_state three_processes_args))
        ++ replicate 3
             ("python3"
              :: ["bench.py"; "--raw"; "--json"; "--samples"; "3"; "--warmups"; "1";
                  "--loops"; "1000"])
    ∧ Benchmark.runs (bench st')
      = Benchmark.runs (bench (spawning_state three_processes_args)) ++ rs
    ∧ length rs = 2%nat
    ∧ json_dumps (trace st') = json_dumps (trace (spawning_state three_processes_args))
    ∧ (∀ handler : M Benchmark.t,
         try_except_KeyboardInterrupt (_spawn_workers (failing_child 2 2) 0) handler
           (spawning_state three_processes_args)
         = (Raise (RuntimeError ("python3" +:+ " failed with exit code " +:+ pretty 2)),
            st')).
Proof.
  apply (spawn_workers_child_failure (failing_child 2 2) 0
           (spawning_state three_processes_args) three_processes_args 2 2
           "python3"
           ["bench.py"; "--raw"; "--json"; "--samples"; "3"; "--warmups"; "1";
            "--loops"; "1000"]).
  - reflexivity.
  - reflexivity.
  - vm_compute. lia.
  - intros i tr Hi Hspawned. exists [(11 # 100); (1 # 10); (1 # 10); (1 # 10)]%Q.
    exists "{}", "", one_run. simpl. rewrite Hspawned. simpl.
    rewrite length_replicate. destruct i as [|[|i]]; [done | done | lia].
  - intros tr Hspawned. exists "child out", "child err". simpl.
    by rewrite Hspawned.
  - done.
Defined.

(** The third of three workers exits with status 2: its output is echoed,
    the benchmark has the two runs of the workers before it and nothing is
    dumped. *)
Example third_worker_fails :
  (_spawn_workers (failing_child 2 2) 0 (spawning_state three_processes_args)).1
  = Raise (RuntimeError "python3 failed with exit code 2")
  ∧ length (Benchmark.runs
              (bench (_spawn_workers (failing_child 2 2) 0
                        (spawning_state three_processes_args)).2)) = 2%nat
  ∧ json_dumps (trace (_spawn_workers (failing_child 2 2) 0
                         (spawning_state three_processes_args)).2) = [].
Proof. vm_compute. done. Qed.

(** ** The calibration *)

Lemma range_lookup (n : Z) (i : nat) :
  (i < Z.to_nat n)%nat → range n !! i = Some (Z.of_nat i).
Proof.
  intros Hi. unfold range. by rewrite list_lookup_fmap, lookup_seq_lt.
Qed.

(** Where [range n] is cut, the index is the number of indexes before it,
    and the indexes before it are the smaller ones. *)
Lemma range_middle (n : Z) (before after : list Z) (index : Z) :
  range n = before ++ index :: after →
  index = Z.of_nat (length before)
  ∧ 0 ≤ index < n
  ∧ (∀ j, 0 ≤ j < index → j ∈ before)
  ∧ before ++ [index] = take (S (length before)) (range n).
Proof.
  intros Hcut.
  assert (length before < Z.to_nat n)%nat as Hlen.
  { rewrite <- length_range, Hcut, length_app. simpl. lia. }
  assert (index = Z.of_nat (length before)) as ->.
  { pose proof (range_lookup n (length before) Hlen) as Hl.
    rewrite Hcut, list_lookup_middle in Hl by done. by injection Hl. }
  split; [done |]. split; [lia |]. split.
  - intros j Hj. apply list_elem_of_lookup. exists (Z.to_nat j).
    rewrite <- (lookup_app_l before (Z.of_nat (length before) :: after)) by lia.
    rewrite <- Hcut, range_lookup by lia. f_equal. lia.
  - rewrite Hcut. replace (S (length before)) with (length before + 1)%nat by lia.
    by rewrite take_app_add'.
Qed.

Lemma range_elem_of (n i : Z) : 0 ≤ i < n → i ∈ range n.
Proof.
  intros Hi. apply list_elem_of_lookup. exists (Z.to_nat i).
  rewrite range_lookup by lia. f_equal. lia.
Qed.

(** A list either has no element satisfying [p], or has a first one. *)
Lemma first_hit {A} (p : A → bool) (l : list A) :
  (∀ x, x ∈ l → p x = false)
  ∨ (∃ before x after,
       l = before ++ x :: after ∧ (∀ y, y ∈ before → p y = false) ∧ p x = true).
Proof.
  induction l as [|x l IH].
  - left. by intros x ?%elem_of_nil.
  - destruct (p x) eqn:Hx.
    + right. exists [], x, l. split; [done |]. split; [| done].
      by intros y ?%elem_of_nil.
    + destruct IH as [Hall | (before & y & after & -> & Hbefore & Hy)].
      * left. by intros y [-> | ?]%elem_of_cons; [| apply Hall].
      * right. exists (x :: before), y, after. split; [done |]. split; [| done].
        by intros z [-> | ?]%elem_of_cons; [| apply Hbefore].
Qed.







(** The documented example: 10^-4 s per loop and the default window of
    0.1 s to 1 s give 1000 loops, after the candidates 1, 10, 100 and
    1000. *)
Example calibrate_default_window :
  _calibrate_sample_func (timed (linear_op (1 # 10000)))
    (state_of (runner_with default_args) one_run)
  = (Ok 1000,
     mkState (runner_with default_args) one_run
       [SampleFunc 1; SampleFunc 10; SampleFunc 100; SampleFunc 1000]).
Proof. vm_compute. reflexivity. Qed.


(** * Further properties *)

(** ** The calibration of any timed operation *)

Lemma take_range (n : nat) (m : Z) :
  (n ≤ Z.to_nat m)%nat → take n (range m) = range (Z.of_nat n).
Proof.
  intros Hn. unfold range. rewrite <- fmap_take, take_seq, Nat2Z.id.
  by rewrite Nat.min_l.
Qed.

(** The indexes before a cut of [range n] are again a range. *)
Lemma range_prefix (n : Z) (before after : list Z) (index : Z) :
  range n = before ++ index :: after → before = range index.
Proof.
  intros Hcut. destruct (range_middle _ _ _ _ Hcut) as (-> & Hlt & _ & _).
  pose proof (take_app_length before (Z.of_nat (length before) :: after)) as Htake.
  rewrite <- Hcut in Htake.
  etrans; [symmetry; exact Htake | apply take_range; lia].
Qed.

(** One call of the timed operation in the calibration loop. *)
Lemma calibrate_iteration_any (op : list Z → Z → Q) (stream : fileobj)
    (min_dt max_dt : Q) (index : Z) (indexes : list Z) (loops : option Z)
    (st : State) (args : Args.t) :
  TextRunner.args (self st) = Some args →
  ∃ out,
    sample_func_calls out = [10 ^ index]
    ∧ _calibrate_for (timed op) stream min_dt max_dt (index :: indexes) loops st
      = (if Qgeb (op (sample_func_calls (trace st)) (10 ^ index)) max_dt
         then ret (10 ^ Z.max (index - 1) 0)
         else if Qgeb (op (sample_func_calls (trace st)) (10 ^ index)) min_dt
              then ret (10 ^ index)
              else _calibrate_for (timed op) stream min_dt max_dt indexes
                     (Some (10 ^ index)))
          (mkState (self st) (bench st) (trace st ++ out)).
Proof.
  intros Hargs.
  exists (SampleFunc (10 ^ index)
          :: if 1 <? Args.verbose args
             then [Print stream (MsgCalibration (10 ^ index)
                                   (op (sample_func_calls (trace st)) (10 ^ index)))]
             else []).
  split; [by destruct (1 <? Args.verbose args) |].
  cbn [_calibrate_for]. unfold timed.
  unfold bind at 1 2 3 4, get_trace, emit, ret at 1, self_args.
  cbn [self bench trace]. rewrite Hargs. unfold bind at 1.
  destruct (1 <? Args.verbose args); simpl.
  - by rewrite <- (assoc_L (++)).
  - done.
Qed.

Lemma calibrate_for_hit_any (op : list Z → Z → Q) (stream : fileobj)
    (min_dt max_dt : Q) (args : Args.t) (before : list Z) (index : Z)
    (after : list Z) :
  ∀ (loops : option Z) (st : State),
    TextRunner.args (self st) = Some args →
    (∀ pre j post, before = pre ++ j :: post →
       Qgeb (op (sample_func_calls (trace st) ++ ((λ i, 10 ^ i) <$> pre)) (10 ^ j)) max_dt
       || Qgeb (op (sample_func_calls (trace st) ++ ((λ i, 10 ^ i) <$> pre)) (10 ^ j)) min_dt
       = false) →
    ∃ out,
      sample_func_calls out = (λ i, 10 ^ i) <$> (before ++ [index])
      ∧ _calibrate_for (timed op) stream min_dt max_dt
          (before ++ index :: after) loops st
        = (if Qgeb (op (sample_func_calls (trace st) ++ ((λ i, 10 ^ i) <$> before))
                      (10 ^ index)) max_dt
           then ret (10 ^ Z.max (index - 1) 0)
           else if Qgeb (op (sample_func_calls (trace st) ++ ((λ i, 10 ^ i) <$> before))
                           (10 ^ index)) min_dt
                then ret (10 ^ index)
                else _calibrate_for (timed op) stream min_dt max_dt after
                       (Some (10 ^ index)))
            (mkState (self st) (bench st) (trace st ++ out)).
Proof.
  induction before as [|j before IH]; intros loops st Hargs Hbefore.
  - destruct (calibrate_iteration_any op stream min_dt max_dt index after loops st
                args Hargs) as (out & Hcalls & Hrun).
    exists out. split; [done |]. simpl. by rewrite app_nil_r.
  - destruct (calibrate_iteration_any op stream min_dt max_dt j
                (before ++ index :: after) loops st args Hargs)
      as (out & Hcalls & Hrun).
    simpl app. rewrite Hrun.
    pose proof (Hbefore [] j before eq_refl) as Hj. simpl in Hj.
    rewrite app_nil_r in Hj. apply orb_false_iff in Hj as [-> ->].
    destruct (IH (Some (10 ^ j)) (mkState (self st) (bench st) (trace st ++ out)) Hargs)
      as (out' & Hcalls' & Hrun').
    { intros pre j' post ->. cbn [trace].
      rewrite sample_func_calls_app, Hcalls, <- (assoc_L (++)).
      apply (Hbefore (j :: pre) j' post eq_refl). }
    rewrite Hrun'. cbn [self bench trace].
    rewrite sample_func_calls_app, Hcalls, <- !(assoc_L (++)).
    exists (out ++ out'). split; [| done].
    by rewrite sample_func_calls_app, Hcalls, Hcalls'.
Qed.

(** What [_calibrate_sample_func] does with any timed operation: it stops at
    the first candidate whose duration reaches a threshold. *)
Lemma calibrate_any_outcome (op : list Z → Z → Q) (st : State) (args : Args.t) :
  TextRunner.args (self st) = Some args →
  ∃ loops out n,
    _calibrate_sample_func (timed op) st
    = (Ok loops, mkState (self st) (bench st) (trace st ++ out))
    ∧ (1 ≤ n ≤ 10)%nat
    ∧ sample_func_calls out = (λ i, 10 ^ i) <$> take n (range 10)
    ∧ ((n = 10%nat
        ∧ loops = 10 ^ 9
        ∧ ∀ j, 0 ≤ j ≤ 9 →
            (calibration_dt op (sample_func_calls (trace st)) j < Args.max_time args)%Q
            ∧ (calibration_dt op (sample_func_calls (trace st)) j
               < Args.min_time args * (90 # 100))%Q)
       ∨ (∃ i, n = S (Z.to_nat i) ∧ 0 ≤ i ≤ 9
               ∧ (∀ j, 0 ≤ j < i →
                    (calibration_dt op (sample_func_calls (trace st)) j
                     < Args.max_time args)%Q
                    ∧ (calibration_dt op (sample_func_calls (trace st)) j
                       < Args.min_time args * (90 # 100))%Q)
               ∧ ((Args.max_time args
                   <= calibration_dt op (sample_func_calls (trace st)) i)%Q
                  ∧ loops = 10 ^ Z.max (i - 1) 0
                  ∨ (calibration_dt op (sample_func_calls (trace st)) i
                     < Args.max_time args)%Q
                    ∧ (Args.min_time args * (90 # 100)
                       <= calibration_dt op (sample_func_calls (trace st)) i)%Q
                    ∧ loops = 10 ^ i))).
Proof.
  intros Hargs. unfold _calibrate_sample_func.
  rewrite (bind_eval_ok _ _ _ _ _ (stream_eval _ _ Hargs)).
  rewrite (bind_eval_ok _ _ _ _ _ (self_args_eval _ _ Hargs)). cbv zeta.
  set (stream := if Args.json args then sys_stderr else sys_stdout).
  set (min_dt := (Args.min_time args * (90 # 100))%Q).
  set (max_dt := Args.max_time args).
  set (calls := sample_func_calls (trace st)).
  set (p := λ j, Qgeb (calibration_dt op calls j) max_dt
                 || Qgeb (calibration_dt op calls j) min_dt).
  assert (∀ loops out,
    (args0 <- self_args ;;
     when (1 <? Args.verbose args0) (print (MsgCalibrationUse loops) (Some stream)) ;;
     ret loops) (mkState (self st) (bench st) (trace st ++ out))
    = (Ok loops,
       mkState (self st) (bench st)
         (trace st ++ out ++ if 1 <? Args.verbose args
                             then [Print stream (MsgCalibrationUse loops)] else []))
    ∧ sample_func_calls
        (out ++ if 1 <? Args.verbose args
                then [Print stream (MsgCalibrationUse loops)] else [])
      = sample_func_calls out) as Hend.
  { intros loops out. split.
    - rewrite (bind_eval_ok _ _ _ _ args) by (by apply self_args_eval).
      destruct (1 <? Args.verbose args); simpl.
      + unfold bind, print, emit, ret. simpl. by rewrite <- (assoc_L (++)).
      + unfold bind, ret. simpl. by rewrite app_nil_r.
    - rewrite sample_func_calls_app. destruct (1 <? Args.verbose args); simpl;
        by rewrite app_nil_r. }
  assert (∀ j, p j = false
               ↔ (calibration_dt op calls j < max_dt)%Q
                 ∧ (calibration_dt op calls j < min_dt)%Q) as Hp.
  { intros j. unfold p. by rewrite orb_false_iff, !Qgeb_false. }
  assert (∀ before i after pre j post,
            range 10 = before ++ i :: after → before = pre ++ j :: post →
            (∀ y, y ∈ before → p y = false) →
            Qgeb (op (calls ++ ((λ i, 10 ^ i) <$> pre)) (10 ^ j)) max_dt
            || Qgeb (op (calls ++ ((λ i, 10 ^ i) <$> pre)) (10 ^ j)) min_dt
            = false) as Hpos.
  { intros before i after pre j post Hcut -> Hbefore.
    rewrite <- (assoc_L (++)) in Hcut. simpl in Hcut.
    rewrite (range_prefix _ _ _ _ Hcut).
    apply (Hbefore j). rewrite elem_of_app, elem_of_cons. auto. }
  destruct (first_hit p (range 10))
    as [Hall | (before & i & after & Hcut & Hbefore & Hi)].
  - destruct (calibrate_for_hit_any op stream min_dt max_dt args (range 9) 9 []
                None st Hargs) as (out & Hcalls & Hrun).
    { intros pre j post Hpre.
      apply (Hpos (range 9) 9 [] pre j post eq_refl Hpre).
      intros y Hy. apply Hall. change (range 10) with (range 9 ++ [9]).
      rewrite elem_of_app. by left. }
    change (range 9 ++ [9]) with (range 10) in *.
    pose proof (Hall 9 (range_elem_of 10 9 ltac:(lia))) as H9.
    unfold p, calibration_dt in H9. fold calls in Hrun.
    apply orb_false_iff in H9 as [H9max H9min]. rewrite H9max, H9min in Hrun.
    cbn [_calibrate_for] in Hrun.
    rewrite (bind_eval_ok _ _ _ _ _ Hrun).
    destruct (Hend (10 ^ 9) out) as [-> Hcalls'].
    eexists _, _, 10%nat. split; [done |]. split; [lia |].
    split; [by rewrite Hcalls', Hcalls |]. left. split; [done |]. split; [done |].
    intros j Hj. apply Hp, Hall, range_elem_of. lia.
  - destruct (range_middle _ _ _ _ Hcut) as (Hindex & Hrange & Hsmaller & Htake).
    destruct (calibrate_for_hit_any op stream min_dt max_dt args before i after None st
                Hargs) as (out & Hcalls & Hrun).
    { intros pre j post Hpre. by apply (Hpos before i after pre j post). }
    rewrite <- Hcut in Hrun. fold calls in Hrun.
    unfold p, calibration_dt in Hi. rewrite <- (range_prefix _ _ _ _ Hcut) in Hi.
    assert (∃ loops,
      _calibrate_for (timed op) stream min_dt max_dt (range 10) None st
      = (Ok loops, mkState (self st) (bench st) (trace st ++ out))
      ∧ ((max_dt <= calibration_dt op calls i)%Q ∧ loops = 10 ^ Z.max (i - 1) 0
         ∨ (calibration_dt op calls i < max_dt)%Q
           ∧ (min_dt <= calibration_dt op calls i)%Q ∧ loops = 10 ^ i))
      as (loops & Hrun' & Hloops).
    { unfold calibration_dt. rewrite <- (range_prefix _ _ _ _ Hcut).
      destruct (Qgeb (op (calls ++ ((λ i, 10 ^ i) <$> before)) (10 ^ i)) max_dt)
        eqn:Hmax.
      - eexists. split; [exact Hrun |]. left. by apply Qgeb_true in Hmax.
      - simpl in Hi. rewrite Hi in Hrun. eexists. split; [exact Hrun |].
        right. apply Qgeb_true in Hi. by apply Qgeb_false in Hmax. }
    rewrite (bind_eval_ok _ _ _ _ _ Hrun').
    destruct (Hend loops out) as [-> Hcalls'].
    eexists _, _, (S (length before)). split; [done |]. split.
    { assert (length before < 10)%nat; [| lia].
      change 10%nat with (length (range 10)). rewrite Hcut, length_app. simpl. lia. }
    split; [by rewrite Hcalls', Hcalls, Htake |].
    right. exists i. split; [lia |]. split; [lia |]. split; [| done].
    intros j Hj. by apply Hp, Hbefore, Hsmaller.
Qed.

(** X1: whatever the timed operation returns, the calibration calls it
    with 10^0, 10^1, ... in this order, once at least and ten times at
    most, leaves the runner and the benchmark as they are, and returns a
    power of ten between 10^0 and 10^9: the last candidate it tried or the
    one before it. *)
Theorem calibrate_bounded (op : list Z → Z → Q) (st : State) (args : Args.t) :
  TextRunner.args (self st) = Some args →
  ∃ loops out n i,
    _calibrate_sample_func (timed op) st
    = (Ok loops, mkState (self st) (bench st) (trace st ++ out))
    ∧ (1 ≤ n ≤ 10)%nat
    ∧ sample_func_calls out = (λ i, 10 ^ i) <$> take n (range 10)
    ∧ 0 ≤ i ≤ 9
    ∧ loops = 10 ^ i
    ∧ (Z.of_nat n = i + 1 ∨ Z.of_nat n = i + 2).
Proof.
  intros Hargs.
  destruct (calibrate_any_outcome op st args Hargs)
    as (loops & out & n & Hrun & Hn & Hcalls & Hend).
  destruct Hend as [(-> & -> & _)
                   | (j & -> & Hj & _ & [[_ ->] | (_ & _ & ->)])].
  - exists (10 ^ 9), out, 10%nat, 9. repeat split; try done; lia.
  - exists (10 ^ Z.max (j - 1) 0), out, (S (Z.to_nat j)), (Z.max (j - 1) 0).
    repeat split; try done; lia.
  - exists (10 ^ j), out, (S (Z.to_nat j)), j. repeat split; try done; lia.
Qed.

Lemma calibrate_bounded_witness :
  ∃ loops out n i,
    _calibrate_sample_func (timed jitter_op)
      (state_of (runner_with default_args) one_run)
    = (Ok loops, mkState (runner_with default_args) one_run ([] ++ out))
    ∧ (1 ≤ n ≤ 10)%nat
    ∧ sample_func_calls out = (λ i, 10 ^ i) <$> take n (range 10)
    ∧ 0 ≤ i ≤ 9
    ∧ loops = 10 ^ i
    ∧ (Z.of_nat n = i + 1 ∨ Z.of_nat n = i + 2).
Proof.
  apply (calibrate_bounded jitter_op (state_of (runner_with default_args) one_run)
           default_args).
  reflexivity.
Defined.

(** X2: the calibration never returns a candidate which overshoots: the
    duration measured for the candidate it returns was below [max_time],
    unless it returns a single loop. *)
Theorem calibrate_no_overshoot (op : list Z → Z → Q) (st : State) (args : Args.t) :
  TextRunner.args (self st) = Some args →
  ∃ st' i,
    _calibrate_sample_func (timed op) st = (Ok (10 ^ i), st')
    ∧ 0 ≤ i ≤ 9
    ∧ (i = 0
       ∨ (calibration_dt op (sample_func_calls (trace st)) i < Args.max_time args)%Q).
Proof.
  intros Hargs.
  destruct (calibrate_any_outcome op st args Hargs)
    as (loops & out & n & Hrun & Hn & Hcalls & Hend).
  destruct Hend as [(-> & -> & Hall)
                   | (j & -> & Hj & Hbefore & [[_ ->] | (Hmax & _ & ->)])].
  - eexists _, 9. split; [done |]. split; [lia |]. right. apply Hall. lia.
  - eexists _, (Z.max (j - 1) 0). split; [done |]. split; [lia |].
    destruct (decide (j = 0)) as [-> | Hne]; [by left |].
    right. apply Hbefore. lia.
  - eexists _, j. split; [done |]. split; [lia |]. by right.
Qed.

Lemma calibrate_no_overshoot_witness :
  ∃ st' i,
    _calibrate_sample_func (timed jitter_op)
      (state_of (runner_with default_args) one_run)
    = (Ok (10 ^ i), st')
    ∧ 0 ≤ i ≤ 9
    ∧ (i = 0 ∨ (calibration_dt jitter_op [] i < 1)%Q).
Proof.
  apply (calibrate_no_overshoot jitter_op
           (state_of (runner_with default_args) one_run) default_args).
  reflexivity.
Defined.

(** ** What the functions add to the trace *)

Lemma emits_only_ret (p : event → bool) {A} (a : A) : emits_only p (ret a).
Proof. intros st. exists []. by rewrite app_nil_r. Qed.

Lemma emits_only_raise (p : event → bool) {A} (e : exn) :
  emits_only p (@raise A e).
Proof. intros st. exists []. by rewrite app_nil_r. Qed.

Lemma emits_only_lift (p : event → bool) {A} (r : result A) :
  emits_only p (lift r).
Proof. intros st. exists []. by rewrite app_nil_r. Qed.

Lemma emits_only_bind (p : event → bool) {A B} (m : M A) (k : A → M B) :
  emits_only p m → (∀ a, emits_only p (k a)) → emits_only p (bind m k).
Proof.
  intros Hm Hk st. destruct (Hm st) as (out & Htrace & Hout).
  unfold bind. destruct (m st) as [[a | e] st1]; simpl in *.
  - destruct (Hk a st1) as (out' & Htrace' & Hout').
    exists (out ++ out'). rewrite Htrace', Htrace, (assoc_L (++)).
    by rewrite forallb_app, Hout, Hout'.
  - by exists out.
Qed.

Lemma emits_only_emit (p : event → bool) (e : event) :
  p e = true → emits_only p (emit e).
Proof. intros He st. exists [e]. simpl. by rewrite He. Qed.

Lemma emits_only_print (p : event → bool) (m : message) (file : option fileobj) :
  p (Print (default sys_stdout file) m) = true → emits_only p (print m file).
Proof. apply emits_only_emit. Qed.

Lemma emits_only_when (p : event → bool) (c : bool) (body : M unit) :
  emits_only p body → emits_only p (when c body).
Proof. destruct c; [done |]. intros _. apply emits_only_ret. Qed.

Lemma emits_only_for (p : event → bool) {A} (l : list A) (body : A → M unit) :
  (∀ x, emits_only p (body x)) → emits_only p (for_ l body).
Proof.
  intros Hbody. induction l as [|x l IH]; simpl.
  - apply emits_only_ret.
  - apply emits_only_bind; [apply Hbody | intros _; apply IH].
Qed.

Lemma emits_only_for_fold (p : event → bool) {A S} (l : list A)
    (body : A → S → M S) (s : S) :
  (∀ x s, emits_only p (body x s)) → emits_only p (for_fold l body s).
Proof.
  intros Hbody. revert s. induction l as [|x l IH]; intros s; simpl.
  - apply emits_only_ret.
  - apply emits_only_bind; [apply Hbody | intros s'; apply IH].
Qed.

Lemma emits_only_get_trace (p : event → bool) : emits_only p get_trace.
Proof. intros st. exists []. by rewrite app_nil_r. Qed.

Lemma emits_only_get_bench (p : event → bool) : emits_only p get_bench.
Proof. intros st. exists []. by rewrite app_nil_r. Qed.

Lemma emits_only_set_bench (p : event → bool) (b : Benchmark.t) :
  emits_only p (set_bench b).
Proof. intros st. exists []. by rewrite app_nil_r. Qed.

Lemma emits_only_get_self (p : event → bool) : emits_only p get_self.
Proof. intros st. exists []. by rewrite app_nil_r. Qed.

Lemma emits_only_set_self (p : event → bool) (r : TextRunner.t) :
  emits_only p (set_self r).
Proof. intros st. exists []. by rewrite app_nil_r. Qed.

Lemma emits_only_self_args (p : event → bool) : emits_only p self_args.
Proof.
  intros st. exists []. unfold self_args.
  destruct (TextRunner.args (self st)); by rewrite app_nil_r.
Qed.

Lemma emits_only_try_except (p : event → bool) {A} (body handler : M A) :
  emits_only p body → emits_only p handler →
  emits_only p (try_except_KeyboardInterrupt body handler).
Proof.
  intros Hbody Hhandler st. destruct (Hbody st) as (out & Htrace & Hout).
  unfold try_except_KeyboardInterrupt.
  destruct (body st) as [[a | e] st1]; simpl in *; [by exists out |].
  destruct e; try by exists out.
  destruct (Hhandler st1) as (out' & Htrace' & Hout').
  exists (out ++ out'). rewrite Htrace', Htrace, (assoc_L (++)).
  by rewrite forallb_app, Hout, Hout'.
Qed.

(** A report has no spawn and no call of the timed operation. *)
Lemma emits_only_report (p : event → bool) {A} (m : M A) :
  (∀ e, is_report e = true → p e = true) → report_only m → emits_only p m.
Proof.
  intros Hp Hm st. destruct (Hm st) as (r & out & -> & Hout).
  exists out. split; [done |]. apply forallb_forall. intros e He.
  apply Hp. by apply (proj1 (forallb_forall _ _) Hout).
Qed.

Create HintDb emits_only.
#[local] Hint Resolve emits_only_ret emits_only_raise emits_only_lift
  emits_only_get_trace emits_only_get_bench emits_only_set_bench
  emits_only_get_self emits_only_set_self emits_only_self_args : emits_only.

Ltac emits_only :=
  repeat first
    [ progress eauto with emits_only
    | apply emits_only_bind; [| intros ?]
    | apply emits_only_when
    | apply emits_only_for; intros ?
    | apply emits_only_for_fold; intros ? ?
    | apply emits_only_try_except
    | apply emits_only_emit; reflexivity
    | apply emits_only_print; reflexivity
    | match goal with
      | |- emits_only _ (if ?c then _ else _) => destruct c
      | |- emits_only _ (match ?x with _ => _ end) => destruct x
      | |- emits_only _ (let '(_, _) := ?x in _) => destruct x
      | |- emits_only _ ((let '(_, _) := ?x in _) _) => destruct x
      end ].

Lemma emits_only_stream (p : event → bool) : emits_only p _stream.
Proof. unfold _stream. emits_only. Qed.

Lemma emits_only_timed (p : event → bool) (op : list Z → Z → Q) (loops : Z) :
  p (SampleFunc loops) = true → emits_only p (timed op loops).
Proof.
  intros Hp. unfold timed. emits_only. by apply emits_only_emit.
Qed.

Lemma emits_only_display_result (p : event → bool) (pf : Platform)
    (b : Benchmark.t) (check_unstable : bool) :
  (∀ e, is_report e = true → p e = true) →
  emits_only p (_display_result pf b check_unstable).
Proof.
  intros Hp. apply emits_only_report; [done |]. apply report_only_display_result.
Qed.

Lemma emits_only_parse_args (p : event → bool) (pf : Platform)
    (argv : option (list string)) :
  p (ParseArgs argv) = true → emits_only p (parse_args pf argv).
Proof. intros Hp. unfold parse_args. emits_only. by apply emits_only_emit. Qed.

Lemma emits_only_cpu_affinity (p : event → bool) (pf : Platform) :
  (∀ e, is_report e = true → p e = true) →
  (∀ cpus, p (SchedSetaffinity cpus) = true) →
  (∀ cpus, p (PsutilCpuAffinity cpus) = true) →
  emits_only p (_cpu_affinity pf).
Proof.
  intros Hreport Hsched Hpsutil. unfold _cpu_affinity.
  pose proof (emits_only_stream p).
  emits_only; try (apply emits_only_emit; first [apply Hsched | apply Hpsutil]);
    apply emits_only_print; by apply Hreport.
Qed.

Lemma emits_only_calibrate_for (p : event → bool) (op : list Z → Z → Q)
    (stream : fileobj) (min_dt max_dt : Q) (indexes : list Z) :
  (∀ loops dt, p (Print stream (MsgCalibration loops dt)) = true) →
  (∀ loops, p (SampleFunc loops) = true) →
  ∀ loops, emits_only p (_calibrate_for (timed op) stream min_dt max_dt indexes loops).
Proof.
  intros Hprint Htimed.
  induction indexes as [|index indexes IH]; intros loops; simpl.
  - destruct loops; emits_only.
  - apply emits_only_bind; [by apply emits_only_timed | intros dt].
    apply emits_only_bind; [apply emits_only_self_args | intros args].
    apply emits_only_bind.
    { apply emits_only_when, emits_only_print, Hprint. }
    intros _. destruct (Qgeb dt max_dt); [apply emits_only_ret |].
    destruct (Qgeb dt min_dt); [apply emits_only_ret | apply IH].
Qed.

Lemma emits_only_calibrate (p : event → bool) (op : list Z → Z → Q) :
  (∀ e, is_report e = true → p e = true) →
  (∀ loops, p (SampleFunc loops) = true) →
  emits_only p (_calibrate_sample_func (timed op)).
Proof.
  intros Hreport Htimed. unfold _calibrate_sample_func.
  pose proof (emits_only_stream p).
  assert (∀ stream min_dt max_dt indexes loops,
            emits_only p (_calibrate_for (timed op) stream min_dt max_dt indexes loops))
    as Hfor.
  { intros. apply emits_only_calibrate_for; [| done]. intros. by apply Hreport. }
  emits_only; first [by apply Hfor | apply emits_only_print; by apply Hreport].
Qed.

Lemma emits_only_worker (p : event → bool) (pf : Platform) (op : list Z → Z → Q) :
  (∀ e, is_report e = true → p e = true) →
  (∀ f m, p (Print f m) = true) →
  (∀ loops, p (SampleFunc loops) = true) →
  emits_only p (_worker pf (timed op)).
Proof.
  intros Hreport Hprint Htimed. unfold _worker, _range.
  pose proof (emits_only_stream p).
  pose proof (emits_only_display_result p pf) as Hdisplay.
  emits_only; first [apply emits_only_emit, Htimed | by apply Hdisplay
                    | apply emits_only_print, Hprint].
Qed.

Lemma emits_only_bench_from_subprocess (p : event → bool) (pf : Platform)
    (cmd : list string) :
  (∀ e, is_report e = true → p e = true) →
  p (Popen cmd) = true → p Kill = true → p Wait = true →
  emits_only p (_bench_from_subprocess pf cmd).
Proof.
  intros Hreport Hpopen Hkill Hwait. unfold _bench_from_subprocess.
  emits_only; apply emits_only_emit; first [done | by apply Hreport].
Qed.

Lemma emits_only_spawn_workers (p : event → bool) (pf : Platform) (start_time : Q) :
  (∀ e, is_report e = true → p e = true) →
  (∀ cmd, p (Popen cmd) = true) → p Kill = true → p Wait = true →
  p MonotonicClock = true →
  emits_only p (_spawn_workers pf start_time).
Proof.
  intros Hreport Hpopen Hkill Hwait Hclock. unfold _spawn_workers, _spawn_worker.
  pose proof (emits_only_stream p).
  pose proof (emits_only_display_result p pf) as Hdisplay.
  pose proof (λ cmd, emits_only_bench_from_subprocess p pf cmd Hreport (Hpopen cmd)
                       Hkill Hwait) as Hchild.
  assert (∀ b i n s f, emits_only p (_display_run b i n s f)) as Hrun.
  { intros. apply emits_only_report; [done | apply report_only_display_run]. }
  emits_only; first [by apply Hdisplay | apply Hchild | apply Hrun
                    | apply emits_only_emit; first [done | by apply Hreport]
                    | apply emits_only_print; by apply Hreport].
Qed.

Lemma emits_in_order_first (p1 p2 : event → bool) {A B} (m : M A) (k : A → M B) :
  emits_only p1 m → (∀ a, emits_in_order p1 p2 (k a)) →
  emits_in_order p1 p2 (bind m k).
Proof.
  intros Hm Hk st. destruct (Hm st) as (out & Htrace & Hout).
  unfold bind. destruct (m st) as [[a | e] st1]; simpl in *.
  - destruct (Hk a st1) as (out1 & out2 & Htrace' & Hout1 & Hout2).
    exists (out ++ out1), out2. rewrite Htrace', Htrace, !(assoc_L (++)).
    by rewrite forallb_app, Hout, Hout1.
  - exists out, []. by rewrite app_nil_r.
Qed.

Lemma emits_in_order_only_first (p1 p2 : event → bool) {A} (m : M A) :
  emits_only p1 m → emits_in_order p1 p2 m.
Proof.
  intros Hm st. destruct (Hm st) as (out & Htrace & Hout).
  exists out, []. by rewrite app_nil_r.
Qed.

Lemma emits_in_order_only_second (p1 p2 : event → bool) {A} (m : M A) :
  emits_only p2 m → emits_in_order p1 p2 m.
Proof.
  intros Hm st. destruct (Hm st) as (out & Htrace & Hout). by exists [], out.
Qed.

Lemma not_spawn_spawned (out : list event) :
  forallb not_spawn out = true → spawned out = [].
Proof.
  induction out as [|e out IH]; [done |].
  simpl. intros [He Hout]%andb_true_iff. unfold spawned in *. simpl.
  rewrite (IH Hout). by destruct e.
Qed.

Lemma not_timed_sample_func_calls (out : list event) :
  forallb not_timed out = true → sample_func_calls out = [].
Proof.
  induction out as [|e out IH]; [done |].
  simpl. intros [He Hout]%andb_true_iff. unfold sample_func_calls in *. simpl.
  rewrite (IH Hout). by destruct e.
Qed.

Lemma report_not_spawn (e : event) : is_report e = true → not_spawn e = true.
Proof. by destruct e. Qed.

Lemma report_not_timed (e : event) : is_report e = true → not_timed e = true.
Proof. by destruct e. Qed.

(** X3: whatever happens in [_main] (a parser which fails, a calibration, a
    worker which fails, an interruption), the calls of the timed operation
    all come before the first worker is spawned: what [_main] adds to the
    trace is a first part without any spawn followed by a second part
    without any call of the timed operation. *)
Theorem main_times_before_spawning (pf : Platform) (op : list Z → Z → Q)
    (st : State) :
  ∃ out1 out2,
    trace (_main pf (timed op) st).2 = trace st ++ out1 ++ out2
    ∧ spawned out1 = []
    ∧ sample_func_calls out2 = [].
Proof.
  cut (emits_in_order not_spawn not_timed (_main pf (timed op))).
  { intros Hmain. destruct (Hmain st) as (out1 & out2 & Htrace & Hout1 & Hout2).
    exists out1, out2. split; [done |].
    by rewrite (not_spawn_spawned _ Hout1), (not_timed_sample_func_calls _ Hout2). }
  unfold _main.
  apply emits_in_order_first; [by apply emits_only_emit | intros _].
  apply emits_in_order_first; [apply emits_only_get_trace | intros tr].
  apply emits_in_order_first; [by apply emits_only_parse_args | intros _].
  apply emits_in_order_first.
  { apply emits_only_cpu_affinity; [apply report_not_spawn | done | done]. }
  intros _.
  apply emits_in_order_first; [apply emits_only_self_args | intros args].
  apply emits_in_order_first.
  { apply emits_only_when, emits_only_bind.
    - apply emits_only_calibrate; [apply report_not_spawn | done].
    - intros loops. emits_only. }
  intros _.
  apply emits_in_order_first; [apply emits_only_get_self | intros r].
  apply emits_in_order_first; [apply emits_only_self_args | intros args'].
  apply emits_in_order_first; [apply emits_only_set_bench | intros _].
  apply emits_in_order_first.
  { apply emits_only_when. emits_only; by apply emits_only_emit. }
  intros _. destruct (negb (Args.raw args')).
  - apply emits_in_order_only_second, emits_only_try_except.
    + apply emits_only_spawn_workers; try done. apply report_not_timed.
    + emits_only.
  - apply emits_in_order_only_first, emits_only_try_except.
    + apply emits_only_worker; try done. apply report_not_spawn.
    + emits_only.
Qed.

(** ** CPU affinity *)

(** X4: with [--affinity=LIST] and a way to pin the process, [_cpu_affinity]
    pins the process to the CPUs of the list, once, with
    [os.sched_setaffinity] when it exists and with [psutil] otherwise; it
    returns and leaves the runner, hence the option handed to the workers,
    as it is. The one line it prints, unless the verbosity is 0, comes
    before. A list which does not parse is an exception before anything is
    done. *)
Theorem cpu_affinity_explicit_pins (pf : Platform) (st : State) (args : Args.t) :
  TextRunner.args (self st) = Some args →
  str_truthy (Args.affinity args) = true →
  has_sched_setaffinity pf = true ∨ psutil pf = Some true →
  (∀ cpus,
     _parse_cpu_list pf (default "" (Args.affinity args)) = Ok cpus →
     _cpu_affinity pf st
     = (Ok tt,
        mkState (self st) (bench st)
          (trace st
           ++ (if Args.verbose args =? 0 then []
               else [Print (if Args.json args then sys_stderr else sys_stdout)
                       (MsgPin (_format_cpu_list pf cpus))])
           ++ [if has_sched_setaffinity pf then SchedSetaffinity cpus
               else PsutilCpuAffinity cpus])))
  ∧ (∀ e,
       _parse_cpu_list pf (default "" (Args.affinity args)) = Raise e →
       _cpu_affinity pf st = (Raise e, st)).
Proof.
  intros Hargs Hexplicit Hpin. split.
  - intros cpus Hparse. unfold _cpu_affinity, _stream. run.
    rewrite Hargs. simpl. rewrite Hexplicit, Hparse. simpl.
    assert (has_sched_setaffinity pf = false → psutil pf = Some true) as Hpsutil
      by (by destruct Hpin as [-> | ->]).
    destruct (has_sched_setaffinity pf); [| rewrite Hpsutil by done];
      destruct (Args.verbose args =? 0); simpl; rewrite ?Hargs; simpl;
      by rewrite <- ?(assoc_L (++)).
  - intros e Hparse. unfold _cpu_affinity. run.
    rewrite Hargs. simpl. by rewrite Hexplicit, Hparse.
Qed.

Lemma cpu_affinity_explicit_pins_witness :
  _cpu_affinity posix
    (state_of (runner_with (Args.set_affinity (Some "0-1") default_args))
       (Benchmark.new None 1 0 None ∅))
  = (Ok tt,
     mkState (runner_with (Args.set_affinity (Some "0-1") default_args))
       (Benchmark.new None 1 0 None ∅) [SchedSetaffinity [0]]).
Proof.
  apply (cpu_affinity_explicit_pins posix
           (state_of (runner_with (Args.set_affinity (Some "0-1") default_args))
              (Benchmark.new None 1 0 None ∅))
           (Args.set_affinity (Some "0-1") default_args));
    [reflexivity | reflexivity | by left | reflexivity].
Defined.

(** X5: without [--affinity], with isolated CPUs and a way to pin the
    process, [_cpu_affinity] pins the process to the isolated CPUs and
    stores their formatted list in [args.affinity]; the worker spawned next
    is then given one more argument, the last of its command line:
    [--affinity=] followed by this list. *)
Theorem cpu_affinity_isolated_inherited (pf : Platform) (st : State)
    (args : Args.t) (cpu : Z) (cpus : list Z) :
  TextRunner.args (self st) = Some args →
  str_truthy (Args.affinity args) = false →
  _get_isolated_cpus pf = Some (cpu :: cpus) →
  has_sched_setaffinity pf = true ∨ psutil pf = Some true →
  TextRunner.prepare_subprocess_args (self st) = None →
  _format_cpu_list pf (cpu :: cpus) ≠ "" →
  ∃ st',
    _cpu_affinity pf st = (Ok tt, st')
    ∧ TextRunner.args (self st')
      = Some (Args.set_affinity (Some (_format_cpu_list pf (cpu :: cpus))) args)
    ∧ trace st'
      = trace st
        ++ (if Args.verbose args =? 0 then []
            else [Print (if Args.json args then sys_stderr else sys_stdout)
                    (MsgPinIsolated (_format_cpu_list pf (cpu :: cpus)))])
        ++ [if has_sched_setaffinity pf then SchedSetaffinity (cpu :: cpus)
            else PsutilCpuAffinity (cpu :: cpus)]
    ∧ spawned (trace (_spawn_worker pf st').2)
      = spawned (trace st)
        ++ [worker_command (self st) args
            ++ ["--affinity=" +:+ _format_cpu_list pf (cpu :: cpus)]].
Proof.
  intros Hargs Hexplicit Hisolated Hpin Hprepare Hformat.
  set (fmt := _format_cpu_list pf (cpu :: cpus)) in *.
  set (pin := if has_sched_setaffinity pf then SchedSetaffinity (cpu :: cpus)
              else PsutilCpuAffinity (cpu :: cpus)).
  set (line := if Args.verbose args =? 0 then []
               else [Print (if Args.json args then sys_stderr else sys_stdout)
                       (MsgPinIsolated fmt)]).
  set (r' := TextRunner.set_args (Some (Args.set_affinity (Some fmt) args)) (self st)).
  assert (_cpu_affinity pf st
          = (Ok tt, mkState r' (bench st) (trace st ++ line ++ [pin]))) as Hrun.
  { unfold _cpu_affinity, _stream, r', line, pin. run.
    rewrite Hargs. simpl. rewrite Hexplicit, Hisolated. simpl.
    fold fmt.
    assert (has_sched_setaffinity pf = false → psutil pf = Some true) as Hpsutil
      by (by destruct Hpin as [-> | ->]).
    destruct (has_sched_setaffinity pf); [| rewrite Hpsutil by done];
      destruct (Args.verbose args =? 0); simpl; rewrite ?Hargs; simpl.
    all: first [done | by rewrite <- (assoc_L (++))]. }
  eexists. split; [exact Hrun |]. split; [done |]. split; [done |].
  rewrite (spawn_worker_eval pf _ (Args.set_affinity (Some fmt) args)) by done.
  cbn [self].
  assert (worker_command r' (Args.set_affinity (Some fmt) args)
          = worker_command (self st) args ++ ["--affinity=" +:+ fmt]) as ->.
  { unfold worker_command, r'. simpl. rewrite Hprepare, Hexplicit.
    assert (String.eqb fmt "" = false) as ->
      by (by apply not_true_iff_false; rewrite String.eqb_eq).
    simpl. by rewrite app_nil_r, <- !(assoc_L (++)). }
  match goal with
  | |- context [_bench_from_subprocess pf ?cmd ?s] =>
      destruct (bench_from_subprocess_outcome pf cmd s)
        as [(? & ? & _ & ->) | [(e & tail & Hfail & _ & ->) | (e & _ & ->)]]
  end; cbn [snd trace].
  - rewrite !spawned_app.
    assert (spawned line = []) as -> by (unfold line; by destruct (_ =? _)).
    assert (spawned [pin] = []) as -> by (unfold pin; by destruct (has_sched_setaffinity pf)).
    by rewrite !app_nil_r.
  - apply child_fails_tail in Hfail as [_ Htail].
    rewrite !spawned_app, Htail.
    assert (spawned line = []) as -> by (unfold line; by destruct (_ =? _)).
    assert (spawned [pin] = []) as -> by (unfold pin; by destruct (has_sched_setaffinity pf)).
    by rewrite !app_nil_r.
  - rewrite !spawned_app.
    assert (spawned line = []) as -> by (unfold line; by destruct (_ =? _)).
    assert (spawned [pin] = []) as -> by (unfold pin; by destruct (has_sched_setaffinity pf)).
    by rewrite !app_nil_r.
Qed.

Lemma cpu_affinity_isolated_inherited_witness :
  ∃ st',
    _cpu_affinity (platform true (Some [2; 3]) (λ _ _, Exited 0 "{}" ""))
      (spawning_state three_processes_args) = (Ok tt, st')
    ∧ spawned (trace (_spawn_worker
                        (platform true (Some [2; 3]) (λ _ _, Exited 0 "{}" ""))
                        st').2)
      = [["python3"; "bench.py"; "--raw"; "--json"; "--samples"; "3";
          "--warmups"; "1"; "--loops"; "1000"; "--affinity=0"]].
Proof.
  destruct (cpu_affinity_isolated_inherited
              (platform true (Some [2; 3]) (λ _ _, Exited 0 "{}" ""))
              (spawning_state three_processes_args) three_processes_args 2 [3])
    as (st' & Hrun & _ & _ & Hspawn);
    [reflexivity | reflexivity | reflexivity | by left | reflexivity | done |].
  exists st'. split; [exact Hrun | exact Hspawn].
Defined.

(** ** Displaying runs and metadata *)

Lemma slice_partition {A} (l : list A) (i : Z) : slice_to l i ++ slice_from l i = l.
Proof. apply take_drop. Qed.

(** X6: [_display_run] always returns and prints one line, in which every
    entry of the run appears once and in order, either as a warmup or as a
    raw sample, whatever [bench.warmups] is: the first [bench.warmups]
    entries are the warmups, all of them when the run is shorter; with a
    negative [bench.warmups] the raw samples are the last [-bench.warmups]
    entries. *)
Theorem display_run_partition (b : Benchmark.t) (index nrun : Z)
    (samples : list Q) (file : option fileobj) (st : State) :
  ∃ warmups raw,
    _display_run b index nrun samples file st
    = (Ok tt,
       mkState (self st) (bench st)
         (trace st ++ [Print (default sys_stdout file)
                         (MsgRun index nrun warmups raw)]))
    ∧ warmups ++ raw = samples
    ∧ (0 ≤ Benchmark.warmups b →
       Z.of_nat (length warmups)
       = Z.min (Benchmark.warmups b) (Z.of_nat (length samples)))
    ∧ (Benchmark.warmups b < 0 →
       Z.of_nat (length raw)
       = Z.min (- Benchmark.warmups b) (Z.of_nat (length samples))).
Proof.
  exists (slice_to samples (Benchmark.warmups b)),
         (slice_from samples (Benchmark.warmups b)).
  split; [done |]. split; [apply slice_partition |].
  unfold slice_to, slice_from, slice_index. split; intros Hw.
  - rewrite length_take. destruct (Z.ltb_spec (Benchmark.warmups b) 0); lia.
  - rewrite length_drop. destruct (Z.ltb_spec (Benchmark.warmups b) 0); lia.
Qed.

Lemma display_run_partition_witness :
  ∃ warmups raw,
    _display_run one_run 1 1 [(11 # 100); (1 # 10); (1 # 10); (1 # 10)]%Q None
      (state_of fresh_runner one_run)
    = (Ok tt,
       mkState fresh_runner one_run [Print sys_stdout (MsgRun 1 1 warmups raw)])
    ∧ Z.of_nat (length warmups) = 1.
Proof.
  destruct (display_run_partition one_run 1 1
              [(11 # 100); (1 # 10); (1 # 10); (1 # 10)]%Q None
              (state_of fresh_runner one_run))
    as (warmups & raw & Hrun & _ & Hwarmups & _).
  exists warmups, raw. split; [exact Hrun |]. apply Hwarmups. simpl. lia.
Defined.

Lemma ascii_compare_N (a b : Ascii.ascii) :
  Ascii.compare a b = (Ascii.N_of_ascii a ?= Ascii.N_of_ascii b)%N.
Proof. reflexivity. Qed.

Lemma string_leb_trans (s1 s2 s3 : string) :
  String.leb s1 s2 = true → String.leb s2 s3 = true → String.leb s1 s3 = true.
Proof.
  unfold String.leb. revert s2 s3.
  induction s1 as [|c1 s1 IH]; intros [|c2 s2] [|c3 s3]; simpl; try done.
  rewrite !ascii_compare_N.
  destruct (N.compare_spec (Ascii.N_of_ascii c1) (Ascii.N_of_ascii c2)) as [H12 | H12 | H12];
    destruct (N.compare_spec (Ascii.N_of_ascii c2) (Ascii.N_of_ascii c3)) as [H23 | H23 | H23];
    destruct (N.compare_spec (Ascii.N_of_ascii c1) (Ascii.N_of_ascii c3)) as [H13 | H13 | H13];
    try done; try lia.
  apply IH.
Qed.

Lemma StronglySorted_mono {A} (R1 R2 : relation A) (l : list A) :
  (∀ x y, R1 x y → R2 x y) → StronglySorted R1 l → StronglySorted R2 l.
Proof.
  intros HR. induction 1 as [|x l _ IH Hx]; constructor; [done |].
  eapply Forall_impl; [exact Hx | apply HR].
Qed.

Lemma for_print_metadata_lines (l : list (string * string)) (file : option fileobj)
    (st : State) :
  for_ l (λ '(key, value), print (MsgMetadataItem key value) file) st
  = (Ok tt,
     mkState (self st) (bench st)
       (trace st
        ++ ((λ '(key, value), Print (default sys_stdout file) (MsgMetadataItem key value))
            <$> l))).
Proof.
  revert st. induction l as [|[key value] l IH]; intros st; simpl.
  - by rewrite trace_app_nil.
  - unfold bind. rewrite print_eval, IH. simpl. by rewrite <- (assoc_L (++)).
Qed.

(** X7: [_display_metadata] prints nothing for an empty mapping, not even
    the header; otherwise it prints the header, then one line per entry of
    the mapping, each entry once, in the ascending order of the keys. *)
Theorem display_metadata_sorted (metadata : gmap string string)
    (file : option fileobj) (header : string) (st : State) :
  (metadata = ∅ → _display_metadata metadata file header st = (Ok tt, st))
  ∧ (metadata ≠ ∅ →
     ∃ items,
       _display_metadata metadata file header st
       = (Ok tt,
          mkState (self st) (bench st)
            (trace st
             ++ Print (default sys_stdout file) (MsgMetadataHeader header)
                :: ((λ '(key, value),
                       Print (default sys_stdout file) (MsgMetadataItem key value))
                    <$> items)))
       ∧ items ≡ₚ map_to_list metadata
       ∧ (∀ key value, (key, value) ∈ items ↔ metadata !! key = Some value)
       ∧ StronglySorted (λ x y, String.leb x.1 y.1 = true) items).
Proof.
  unfold _display_metadata. split; intros Hempty;
    destruct (decide (metadata = ∅)); try done.
  exists (merge_sort (λ x y, String.leb x.1 y.1) (map_to_list metadata)).
  split.
  { unfold bind. rewrite print_eval, for_print_metadata_lines. simpl.
    by rewrite <- (assoc_L (++)). }
  split; [apply merge_sort_Permutation |].
  split.
  { intros key value. rewrite merge_sort_Permutation. apply elem_of_map_to_list. }
  eapply StronglySorted_mono; [| apply StronglySorted_merge_sort].
  - intros x y Hxy. by apply Is_true_true.
  - intros x y z Hxy Hyz. apply Is_true_true.
    eapply string_leb_trans; by apply Is_true_true.
  - intros x y. destruct (String.leb_total x.1 y.1) as [H | H];
      [left | right]; by apply Is_true_true.
Qed.

Lemma display_metadata_sorted_witness :
  ∃ items,
    _display_metadata (<["python" := "3.5"]> (<["date" := "today"]> ∅)) None
      "Metadata:" (state_of fresh_runner one_run)
    = (Ok tt,
       mkState fresh_runner one_run
         (Print sys_stdout (MsgMetadataHeader "Metadata:")
          :: ((λ '(key, value), Print sys_stdout (MsgMetadataItem key value))
              <$> items)))
    ∧ StronglySorted (λ x y, String.leb x.1 y.1 = true) items.
Proof.
  destruct (display_metadata_sorted (<["python" := "3.5"]> (<["date" := "today"]> ∅))
              None "Metadata:" (state_of fresh_runner one_run)) as [_ Hitems].
  destruct Hitems as (items & Hrun & _ & _ & Hsorted).
  - apply insert_non_empty.
  - exists items. split; [exact Hrun | exact Hsorted].
Defined.

(** ** What goes to the standard output *)

Lemma on_stdout_app (tr1 tr2 : list event) :
  on_stdout (tr1 ++ tr2) = on_stdout tr1 ++ on_stdout tr2.
Proof. apply List.filter_app. Qed.

(** The events which are lines printed to [sys.stderr]. *)
Lemma on_stdout_stderr (out : list event) :
  forallb (λ e, match e with Print sys_stderr _ | SampleFunc _ => true | _ => false end) out
  = true →
  on_stdout out = [].
Proof.
  induction out as [|e out IH]; [done |].
  simpl. intros [He Hout]%andb_true_iff. unfold on_stdout in *. simpl.
  rewrite (IH Hout). by destruct e as [[] ?| | | | | | | | | | | | | |].
Qed.

Lemma display_metadata_stderr (metadata : gmap string string) (header : string)
    (st : State) :
  ∃ out,
    _display_metadata metadata (Some sys_stderr) header st
    = (Ok tt, mkState (self st) (bench st) (trace st ++ out))
    ∧ on_stdout out = [].
Proof.
  unfold _display_metadata. destruct (decide (metadata = ∅)).
  { exists []. by rewrite trace_app_nil. }
  unfold bind. rewrite print_eval, for_print_metadata_lines. simpl.
  eexists (_ :: _). split; [by rewrite <- (assoc_L (++)) |].
  apply on_stdout_stderr. simpl.
  induction (merge_sort _ _) as [|[key value] l IH]; done.
Qed.

(** The stability assessment, asked to print to [sys.stderr]. *)
Lemma warn_if_bench_unstable_stderr (pf : Platform) (b : Benchmark.t)
    (verbose : Z) (st : State) :
  Benchmark.get_samples b ≠ [] →
  ∃ shortest out,
    py_min (Benchmark._get_raw_samples b) = Ok shortest
    ∧ _warn_if_bench_unstable pf b verbose (Some sys_stderr) st
      = (Ok tt, mkState (self st) (bench st) (trace st ++ out))
    ∧ on_stdout out = shortest_alarm shortest.
Proof.
  intros Hne.
  destruct (get_samples_nonempty b Hne) as [Hnrun Hraw].
  destruct (statistics_median_nonempty _ Hne) as [median Hmedian].
  destruct (py_min_nonempty _ Hraw) as (shortest & Hshortest & _).
  exists shortest. unfold _warn_if_bench_unstable, shortest_alarm.
  apply Z.eqb_neq in Hnrun. rewrite Hnrun. unfold Benchmark.median.
  run. rewrite Hmedian.
  set (k := (statistics_stdev pf (Benchmark.get_samples b) / median)%Q).
  destruct (Qtruthy median && (1 <? Z.of_nat (length (Benchmark.get_samples b))));
    simpl.
  1: destruct (Qgtb k (10 # 100)); [destruct (Qgtb k (20 # 100)) |
       destruct (1 <? verbose) ]; simpl.
  all: rewrite Hshortest; simpl.
  all: destruct (Qltb shortest (1 # 1000));
       [destruct (Qltb shortest (1 # 1000000)) | destruct (1 <? verbose)];
       simpl.
  all: eexists; (split; [reflexivity |]); (split; [same_trace | reflexivity]).
Qed.

Lemma display_benchmark_stderr (pf : Platform) (b : Benchmark.t) (verbose : Z)
    (metadata : bool) (st : State) :
  Benchmark.get_samples b ≠ [] →
  ∃ shortest out,
    py_min (Benchmark._get_raw_samples b) = Ok shortest
    ∧ _display_benchmark pf b verbose (Some sys_stderr) true metadata false st
      = (Ok tt, mkState (self st) (bench st) (trace st ++ out))
    ∧ on_stdout out = shortest_alarm shortest.
Proof.
  intros Hne. unfold _display_benchmark. simpl when at 1.
  rewrite (bind_eval_ok _ _ st st tt) by done.
  assert (∃ out1,
            when metadata
              (_display_metadata (Benchmark.metadata b) (Some sys_stderr) "Metadata:" ;;
               print MsgBlank (Some sys_stderr)) st
            = (Ok tt, mkState (self st) (bench st) (trace st ++ out1))
            ∧ on_stdout out1 = []) as (out1 & Hout1 & Hstdout1).
  { destruct metadata; simpl.
    - destruct (display_metadata_stderr (Benchmark.metadata b) "Metadata:" st)
        as (out1 & Hout1 & Hstdout1).
      rewrite (bind_eval_ok _ _ _ _ _ Hout1), print_eval. simpl.
      eexists. split; [by rewrite <- (assoc_L (++)) |].
      by rewrite on_stdout_app, Hstdout1.
    - exists []. by rewrite trace_app_nil. }
  rewrite (bind_eval_ok _ _ _ _ _ Hout1). simpl when.
  destruct (warn_if_bench_unstable_stderr pf b verbose
              (mkState (self st) (bench st) (trace st ++ out1)) Hne)
    as (shortest & out2 & Hshortest & Hout2 & Hstdout2).
  rewrite (bind_eval_ok _ _ _ _ _ Hout2), print_eval. simpl.
  exists shortest, (out1 ++ out2 ++ [Print sys_stderr (MsgMedian b verbose)]).
  split; [done |]. split; [by rewrite <- !(assoc_L (++)) |].
  by rewrite !on_stdout_app, Hstdout1, Hstdout2, app_nil_r.
Qed.

(** X8: with [--json] and without [--json-file], the report of the
    orchestrator goes to [sys.stderr] and the JSON dump to [sys.stdout],
    with one exception: when the shortest raw sample is below 1 ms, the
    ERROR or WARNING line of the minimum-duration check is printed to
    [sys.stdout], before the JSON dump. Nothing else reaches
    [sys.stdout]. *)
Theorem display_result_json_stdout (pf : Platform) (b : Benchmark.t)
    (st : State) (args : Args.t) :
  TextRunner.args (self st) = Some args →
  Args.json args = true →
  str_truthy (Args.json_file args) = false →
  Benchmark.get_samples b ≠ [] →
  ∃ shortest out,
    py_min (Benchmark._get_raw_samples b) = Ok shortest
    ∧ _display_result pf b true st
      = (Ok tt, mkState (self st) (bench st) (trace st ++ out))
    ∧ on_stdout out
      = shortest_alarm shortest ++ [JsonDumpInto sys_stdout b; Flush sys_stdout].
Proof.
  intros Hargs Hjson Hfile Hne. unfold _display_result.
  rewrite (bind_eval_ok _ _ _ _ _ (stream_eval _ _ Hargs)).
  rewrite (bind_eval_ok _ _ _ _ _ (self_args_eval _ _ Hargs)).
  rewrite Hjson.
  destruct (display_benchmark_stderr pf b (Args.verbose args) (Args.metadata args)
              st Hne) as (shortest & out & Hshortest & Hout & Hstdout).
  rewrite (bind_eval_ok _ _ _ _ _ Hout).
  rewrite (bind_eval_ok _ _ _ _ _ (emit_eval _ _)).
  rewrite (bind_eval_ok _ _ _ _ args) by (by apply self_args_eval).
  unfold _json_dump. rewrite Hfile, Hjson.
  rewrite (bind_eval_ok _ _ _ _ _ (emit_eval _ _)), emit_eval. simpl.
  exists shortest, (out ++ [Flush sys_stderr; JsonDumpInto sys_stdout b; Flush sys_stdout]).
  split; [done |]. split; [by rewrite <- !(assoc_L (++)) |].
  by rewrite on_stdout_app, Hstdout.
Qed.

Lemma display_result_json_stdout_witness :
  ∃ out,
    _display_result posix (bench_with_shortest (5 # 10000)) true
      (state_of (runner_with (Args.mk 25 3 1 1000 0 true None (1 # 10) 1 false false None))
         (bench_with_shortest (5 # 10000)))
    = (Ok tt,
       mkState (runner_with (Args.mk 25 3 1 1000 0 true None (1 # 10) 1 false false None))
         (bench_with_shortest (5 # 10000)) out)
    ∧ on_stdout out
      = [Print sys_stdout (MsgShortestWarning (5 # 10000));
         JsonDumpInto sys_stdout (bench_with_shortest (5 # 10000));
         Flush sys_stdout].
Proof.
  destruct (display_result_json_stdout posix (bench_with_shortest (5 # 10000))
              (state_of (runner_with (Args.mk 25 3 1 1000 0 true None (1 # 10) 1
                                        false false None))
                 (bench_with_shortest (5 # 10000)))
              (Args.mk 25 3 1 1000 0 true None (1 # 10) 1 false false None))
    as (shortest & out & Hshortest & Hrun & Hstdout);
    [reflexivity | reflexivity | reflexivity | done |].
  exists out. split; [exact Hrun |].
  injection Hshortest as <-. exact Hstdout.
Defined.

Lemma display_benchmark_worker_stderr (pf : Platform) (b : Benchmark.t)
    (verbose : Z) (metadata : bool) (st : State) :
  ∃ out,
    _display_benchmark pf b verbose (Some sys_stderr) false metadata false st
    = (Ok tt, mkState (self st) (bench st) (trace st ++ out))
    ∧ on_stdout out = [].
Proof.
  unfold _display_benchmark. simpl when at 1 3.
  rewrite (bind_eval_ok _ _ st st tt) by done.
  destruct metadata; simpl when.
  - destruct (display_metadata_stderr (Benchmark.metadata b) "Metadata:" st)
      as (out & Hout & Hstdout).
    rewrite (bind_eval_ok _ _ _ _ tt (bind_eval_ok _ _ _ _ tt Hout)).
    rewrite (bind_eval_ok _ _ _ _ tt) by reflexivity.
    rewrite print_eval. simpl.
    eexists. split; [rewrite <- !(assoc_L (++)); reflexivity |].
    by rewrite on_stdout_app, Hstdout.
  - rewrite (bind_eval_ok _ _ st st tt) by done.
    rewrite (bind_eval_ok _ _ st st tt) by done.
    rewrite print_eval. by eexists [_].
Qed.

Lemma worker_loop_stderr (op : list Z → Z → Q) (args : Args.t)
    (items : list (bool * Z)) :
  ∀ (samples : list Q) (st : State),
    TextRunner.args (self st) = Some args →
    Args.json args = true →
    ∃ run out,
      for_fold items
        (λ '(is_warmup, index) samples,
           bench <- get_bench ;;
           sample <- timed op (Benchmark.loops bench) ;;
           let sample := py_round sample 9 in
           let samples := samples ++ [sample] in
           args <- self_args ;;
           when (negb (Args.verbose args =? 0))
             (stream <- _stream ;;
              print (if is_warmup : bool then MsgWarmup index sample
                     else MsgRawSample index sample) (Some stream)) ;;
           ret samples)
        samples st
      = (Ok run, mkState (self st) (bench st) (trace st ++ out))
      ∧ on_stdout out = [].
Proof.
  induction items as [|[is_warmup index] items IH]; intros samples st Hargs Hjson.
  - exists samples, []. by rewrite trace_app_nil.
  - rewrite for_fold_cons.
    rewrite (bind_eval_ok _ _ _ _ _
               (worker_iteration op st args is_warmup index samples Hargs)).
    rewrite Hjson.
    match goal with
    | |- context [for_fold items _ ?s (mkState _ _ (_ ++ ?out1))] =>
        destruct (IH s (mkState (self st) (bench st) (trace st ++ out1)) Hargs Hjson)
          as (run & out & -> & Hstdout);
        exists run, (out1 ++ out)
    end.
    cbn [self bench trace].
    split; [by rewrite (assoc_L (++)) |].
    rewrite on_stdout_app, Hstdout.
    by destruct (Args.verbose args =? 0), is_warmup.
Qed.

(** What a worker started with [--json] writes to [sys.stdout]. *)
Lemma worker_json_outcome (pf : Platform) (op : list Z → Z → Q) (st : State)
    (args : Args.t) :
  TextRunner.args (self st) = Some args →
  Args.json args = true →
  ∃ r out run,
    _worker pf (timed op) st
    = (r, mkState (self st) (Benchmark.add_run run (bench st)) (trace st ++ out))
    ∧ on_stdout out
      = (if str_truthy (Args.json_file args) then []
         else [JsonDumpInto sys_stdout (Benchmark.add_run run (bench st));
               Flush sys_stdout])
    ∧ (∀ b, r = Ok b → b = Benchmark.add_run run (bench st)).
Proof.
  intros Hargs Hjson. unfold _worker.
  rewrite (bind_eval_ok _ _ _ _ _ (range_eval _ _ Hargs)).
  destruct (worker_loop_stderr op args
              (((λ warmup, (true, 1 + warmup)) <$> range (Args.warmups args))
               ++ ((λ run, (false, 1 + run)) <$> range (Args.samples args)))
              [] st Hargs Hjson) as (run & out & Hloop & Hstdout).
  rewrite (bind_eval_ok _ _ _ _ _ Hloop).
  unfold bind at 1 2 3, get_bench at 1 2, set_bench. cbn [self bench trace fst snd].
  set (b := Benchmark.add_run run (bench st)).
  set (st1 := mkState (self st) b (trace st ++ out)).
  assert (∃ r out',
            _display_result pf b false st1
            = (r, mkState (self st1) (bench st1) (trace st1 ++ out'))
            ∧ on_stdout out'
              = (if str_truthy (Args.json_file args) then []
                 else [JsonDumpInto sys_stdout b; Flush sys_stdout]))
    as (r & out' & Hdisplay & Hstdout').
  { unfold _display_result.
    assert (TextRunner.args (self st1) = Some args) as Hargs1 by done.
    rewrite (bind_eval_ok _ _ _ _ _ (stream_eval _ _ Hargs1)).
    rewrite (bind_eval_ok _ _ _ _ _ (self_args_eval _ _ Hargs1)).
    rewrite Hjson.
    destruct (display_benchmark_worker_stderr pf b (Args.verbose args)
                (Args.metadata args) st1) as (out1 & Hout1 & Hstdout1).
    rewrite (bind_eval_ok _ _ _ _ _ Hout1).
    rewrite (bind_eval_ok _ _ _ _ _ (emit_eval _ _)).
    rewrite (bind_eval_ok _ _ _ _ args) by (by apply self_args_eval).
    unfold _json_dump. destruct (str_truthy (Args.json_file args)).
    - unfold bind, get_trace, lift, emit. cbn [self bench trace].
      set (filename := default "" (Args.json_file args)).
      destruct (open pf _ filename) as [[] | e].
      + exists (Ok tt),
          (out1 ++ [Flush sys_stderr; Open filename; JsonDumpInto (opened filename) b;
                    Flush (opened filename); Close filename]).
        split; [by rewrite <- !(assoc_L (++)) |].
        by rewrite on_stdout_app, Hstdout1.
      + exists (Raise e), (out1 ++ [Flush sys_stderr]).
        split; [by rewrite <- !(assoc_L (++)) |].
        by rewrite on_stdout_app, Hstdout1.
    - rewrite Hjson.
      rewrite (bind_eval_ok _ _ _ _ _ (emit_eval _ _)), emit_eval. simpl.
      exists (Ok tt),
        (out1 ++ [Flush sys_stderr; JsonDumpInto sys_stdout b; Flush sys_stdout]).
      split; [by rewrite <- !(assoc_L (++)) |].
      by rewrite on_stdout_app, Hstdout1. }
  unfold bind. rewrite Hdisplay. cbn [self bench trace].
  exists (match r with Ok _ => Ok b | Raise e => Raise e end), (out ++ out'), run.
  split; [destruct r; by rewrite (assoc_L (++)) |].
  split; [by rewrite on_stdout_app, Hstdout |].
  intros b'. destruct r; [by intros [= <-] | done].
Qed.


(** X9: with [--json] a worker writes nothing to [sys.stdout] but the JSON
    dump of the benchmark with the run it collected, followed by a flush:
    the lines of the samples and of the report go to [sys.stderr]. With
    [--json-file] as well, nothing at all goes to [sys.stdout]. *)
Theorem worker_json_stdout (pf : Platform) (op : list Z → Z → Q) (st : State)
    (args : Args.t) :
  TextRunner.args (self st) = Some args →
  Args.json args = true →
  ∃ r out run,
    _worker pf (timed op) st
    = (r, mkState (self st) (Benchmark.add_run run (bench st)) (trace st ++ out))
    ∧ on_stdout out
      = (if str_truthy (Args.json_file args) then []
         else [JsonDumpInto sys_stdout (Benchmark.add_run run (bench st));
               Flush sys_stdout]).
Proof.
  intros Hargs Hjson.
  destruct (worker_json_outcome pf op st args Hargs Hjson)
    as (r & out & run & Hrun & Hstdout & _).
  by exists r, out, run.
Qed.

Lemma worker_json_stdout_witness :
  ∃ r out run,
    _worker posix (timed jitter_op)
      (state_of (runner_with json_both_args) (Benchmark.new None 1 1000 None ∅))
    = (r, mkState (runner_with json_both_args)
            (Benchmark.add_run run (Benchmark.new None 1 1000 None ∅)) out)
    ∧ on_stdout out = [].
Proof.
  apply (worker_json_stdout posix jitter_op
           (state_of (runner_with json_both_args) (Benchmark.new None 1 1000 None ∅))
           json_both_args); reflexivity.
Defined.

(** ** The orchestrator when every worker succeeds *)

Lemma spawn_workers_iteration_ok (pf : Platform) (st st' : State) (args : Args.t)
    (verbose nprocess process : Z) (stream : fileobj) :
  TextRunner.args (self st) = Some args →
  (run_bench <- _spawn_worker pf ;;
   samples <- lift (Benchmark._get_worker_samples run_bench) ;;
   bench <- get_bench ;;
   set_bench (Benchmark.add_run samples bench) ;;
   bench <- get_bench ;;
   if 1 <? verbose then
     _display_run bench (1 + process) nprocess samples (Some stream)
   else
     print MsgDot (Some stream) ;;
     emit (Flush stream)) st
  = (Ok tt, st') →
  ∃ run,
    child_succeeds pf (worker_command (self st) args)
      (trace st ++ [Popen (worker_command (self st) args)]) run
    ∧ st' = mkState (self st) (Benchmark.add_run run (bench st))
              (trace st
               ++ Popen (worker_command (self st) args)
                  :: progress verbose stream (Benchmark.warmups (bench st))
                       nprocess process run).
Proof.
  intros Hargs Hbody.
  apply bind_inv_ok in Hbody as (run_bench & st1 & Hspawn & Hbody).
  rewrite (spawn_worker_eval _ _ _ Hargs) in Hspawn.
  destruct (bench_from_subprocess_outcome pf (worker_command (self st) args) st)
    as [(stdout & stderr & Hchild & Hrun) | [(e & tail & _ & _ & Hrun)
                                            | (e & _ & Hrun)]];
    rewrite Hrun in Hspawn; [| done | done].
  injection Hspawn as Hload <-.
  apply bind_inv_ok in Hbody as (run & st2 & Hget & Hbody).
  unfold lift in Hget. injection Hget as Hget <-.
  exists run. split.
  - exists stdout, stderr, run_bench. split; [done |]. split; [done |].
    unfold Benchmark._get_worker_samples in Hget.
    destruct (Benchmark.runs run_bench) as [|? [|]]; by simplify_eq.
  - unfold bind, get_bench, set_bench, _display_run, print, emit, progress in *.
    simpl in Hbody.
    destruct (1 <? verbose); simpl in *; injection Hbody as <-;
      by rewrite <- ?(assoc_L (++)).
Qed.

Lemma spawn_workers_loop_ok (pf : Platform) (args : Args.t)
    (verbose nprocess : Z) (stream : fileobj) (l : list Z) :
  ∀ st st' : State,
    TextRunner.args (self st) = Some args →
    for_ l
      (λ process,
         run_bench <- _spawn_worker pf ;;
         samples <- lift (Benchmark._get_worker_samples run_bench) ;;
         bench <- get_bench ;;
         set_bench (Benchmark.add_run samples bench) ;;
         bench <- get_bench ;;
         if 1 <? verbose then
           _display_run bench (1 + process) nprocess samples (Some stream)
         else
           print MsgDot (Some stream) ;;
           emit (Flush stream)) st
    = (Ok tt, st') →
    ∃ rs,
      length rs = length l
      ∧ st' = mkState (self st) (add_runs rs (bench st))
                (trace st
                 ++ concat (zip_with
                              (λ process run,
                                 Popen (worker_command (self st) args)
                                 :: progress verbose stream
                                      (Benchmark.warmups (bench st)) nprocess
                                      process run)
                              l rs)).
Proof.
  induction l as [|process l IH]; intros st st' Hargs Hloop.
  - injection Hloop as <-. exists []. split; [done |]. simpl.
    by rewrite trace_app_nil.
  - rewrite for_cons in Hloop.
    apply bind_inv_ok in Hloop as ([] & st1 & Hbody & Hloop).
    apply (spawn_workers_iteration_ok _ _ _ args) in Hbody as (run & _ & ->);
      [| done].
    apply IH in Hloop as (rs & Hlen & ->); [| done].
    exists (run :: rs). split; [simpl; by rewrite Hlen |].
    cbn [self bench trace]. rewrite add_runs_cons. simpl.
    by rewrite <- !(assoc_L (++)).
Qed.

Lemma spawn_workers_ok (pf : Platform) (start_time : Q) (st st' : State)
    (args : Args.t) (b : Benchmark.t) :
  TextRunner.args (self st) = Some args →
  _spawn_workers pf start_time st = (Ok b, st') →
  ∃ rs tr,
    length rs = Z.to_nat (Args.processes args)
    ∧ tr = trace st
           ++ concat (zip_with
                        (λ process run,
                           Popen (worker_command (self st) args)
                           :: progress (Args.verbose args)
                                (if Args.json args then sys_stderr else sys_stdout)
                                (Benchmark.warmups (bench st))
                                (Args.processes args) process run)
                        (range (Args.processes args)) rs)
           ++ (if Args.verbose args <=? 1
               then [Print (if Args.json args then sys_stderr else sys_stdout) MsgBlank]
               else [])
           ++ [MonotonicClock]
    ∧ b = Benchmark.set_metadata "duration"
            (duration_text pf (monotonic_clock pf tr - start_time))
            (add_runs rs (bench st))
    ∧ _display_result pf b true (mkState (self st) b tr) = (Ok tt, st')
    ∧ bench st' = b.
Proof.
  intros Hargs Hrun. unfold _spawn_workers in Hrun.
  rewrite (bind_eval_ok _ _ _ _ _ (self_args_eval _ _ Hargs)) in Hrun.
  cbv zeta in Hrun.
  rewrite (bind_eval_ok _ _ _ _ _ (stream_eval _ _ Hargs)) in Hrun.
  apply bind_inv_ok in Hrun as ([] & st1 & Hloop & Hrun).
  apply (spawn_workers_loop_ok _ args) in Hloop as (rs & Hlen & ->); [| done].
  rewrite length_range in Hlen.
  set (out := concat (zip_with _ _ rs)) in *.
  set (blank := if Args.verbose args <=? 1
                then [Print (if Args.json args then sys_stderr else sys_stdout) MsgBlank]
                else []).
  exists rs, (trace st ++ out ++ blank ++ [MonotonicClock]).
  split; [done |]. split; [done |].
  apply bind_inv_ok in Hrun as ([] & st2 & Hblank & Hrun).
  assert (st2 = mkState (self st) (add_runs rs (bench st)) (trace st ++ out ++ blank))
    as ->.
  { unfold blank. destruct (Args.verbose args <=? 1); simpl in Hblank.
    - unfold print, emit in Hblank. simpl in Hblank. injection Hblank as <-.
      by rewrite <- (assoc_L (++)).
    - injection Hblank as <-. by rewrite app_nil_r. }
  clear Hblank.
  unfold bind at 1 2 3 4 5 in Hrun.
  unfold emit, get_trace, get_bench at 1 2, set_bench in Hrun.
  cbn [self bench trace] in Hrun. fold (duration_text pf) in Hrun.
  rewrite <- !(assoc_L (++)) in Hrun.
  apply bind_inv_ok in Hrun as ([] & st3 & Hdisplay & Hrun).
  injection Hrun as <- <-.
  match type of Hdisplay with
  | _display_result pf ?b true ?s = _ =>
      assert (bench st3 = b) as Hbench;
      [destruct (report_only_display_result pf b true s) as (r & out' & Hout & _);
       rewrite Hout in Hdisplay; by injection Hdisplay as _ <- |]
  end.
  by rewrite Hbench.
Qed.

Lemma json_dumps_no_dump (out : list event) :
  forallb (λ e, match e with JsonDumpInto _ _ => false | _ => true end) out = true →
  json_dumps out = [].
Proof.
  induction out as [|e out IH]; [done |].
  simpl. intros [He Hout]%andb_true_iff. unfold json_dumps in *. simpl.
  rewrite (IH Hout). by destruct e.
Qed.





(** X10: when [_spawn_workers] returns, what it did is, for each worker in
    turn: spawn it, then print a dot and flush the stream (with [-vv]:
    print the line of its run, numbered from 1, with its warmups and raw
    samples); after the last worker, an empty line unless [-vv]; then the
    clock is read, and the report comes last. No worker is spawned before
    the one before it has handed over its run. *)
Theorem spawn_workers_progress (pf : Platform) (start_time : Q) (st st' : State)
    (args : Args.t) (b : Benchmark.t) :
  TextRunner.args (self st) = Some args →
  _spawn_workers pf start_time st = (Ok b, st') →
  ∃ rs report,
    Benchmark.runs b = Benchmark.runs (bench st) ++ rs
    ∧ length rs = Z.to_nat (Args.processes args)
    ∧ trace st'
      = trace st
        ++ concat (zip_with
                     (λ process run,
                        Popen (worker_command (self st) args)
                        :: (if 1 <? Args.verbose args then
                              [Print (if Args.json args then sys_stderr else sys_stdout)
                                 (MsgRun (1 + process) (Args.processes args)
                                    (slice_to run (Benchmark.warmups (bench st)))
                                    (slice_from run (Benchmark.warmups (bench st))))]
                            else
                              [Print (if Args.json args then sys_stderr else sys_stdout)
                                 MsgDot;
                               Flush (if Args.json args then sys_stderr else sys_stdout)]))
                     (range (Args.processes args)) rs)
        ++ (if Args.verbose args <=? 1
            then [Print (if Args.json args then sys_stderr else sys_stdout) MsgBlank]
            else [])
        ++ [MonotonicClock]
        ++ report
    ∧ forallb is_report report = true.
Proof.
  intros Hargs Hrun.
  destruct (spawn_workers_ok pf start_time st st' args b Hargs Hrun)
    as (rs & tr & Hlen & Htr & Hb & Hdisplay & _).
  match type of Hdisplay with
  | _display_result pf b true ?s = _ =>
      destruct (report_only_display_result pf b true s) as (r & report & Hout & Hreport)
  end.
  rewrite Hout in Hdisplay. injection Hdisplay as _ <-.
  exists rs, report. split; [by rewrite Hb; simpl; rewrite add_runs_runs |].
  split; [done |]. split; [| done].
  cbn [trace]. rewrite Htr. unfold progress. by rewrite <- !(assoc_L (++)).
Qed.

Lemma spawn_workers_progress_witness :
  trace (_spawn_workers posix 0 (spawning_state three_processes_args)).2
  = [Popen ["python3"; "bench.py"; "--raw"; "--json"; "--samples"; "3";
            "--warmups"; "1"; "--loops"; "1000"];
     Print sys_stdout MsgDot; Flush sys_stdout;
     Popen ["python3"; "bench.py"; "--raw"; "--json"; "--samples"; "3";
            "--warmups"; "1"; "--loops"; "1000"];
     Print sys_stdout MsgDot; Flush sys_stdout;
     Popen ["python3"; "bench.py"; "--raw"; "--json"; "--samples"; "3";
            "--warmups"; "1"; "--loops"; "1000"];
     Print sys_stdout MsgDot; Flush sys_stdout;
     Print sys_stdout MsgBlank; MonotonicClock;
     Print sys_stdout
       (MsgMedian (bench (_spawn_workers posix 0 (spawning_state three_processes_args)).2)
          0);
     Flush sys_stdout].
Proof.
  destruct (spawn_workers_progress posix 0 (spawning_state three_processes_args)
              (_spawn_workers posix 0 (spawning_state three_processes_args)).2
              three_processes_args
              (bench (_spawn_workers posix 0 (spawning_state three_processes_args)).2))
    as (rs & report & _ & _ & _ & _);
    [reflexivity | vm_compute; reflexivity |].
  vm_compute. reflexivity.
Defined.





(** ** The configuration across [_cpu_affinity] and [_main] *)

(** What [_cpu_affinity] leaves as it is. *)
Lemma cpu_affinity_config (pf : Platform) (st : State) (args : Args.t) :
  TextRunner.args (self st) = Some args →
  ∃ r st' affinity,
    _cpu_affinity pf st = (r, st')
    ∧ bench st' = bench st
    ∧ self st' = TextRunner.set_args (Some (Args.set_affinity affinity args)) (self st)
    ∧ (str_truthy (Args.affinity args) = true → affinity = Args.affinity args).
Proof.
  intros Hargs.
  assert (self st = TextRunner.set_args
                      (Some (Args.set_affinity (Args.affinity args) args)) (self st))
    as Hsame.
  { destruct st as [[] ? ?], args. simpl in *. by rewrite Hargs. }
  unfold _cpu_affinity, _stream. run. rewrite Hargs. simpl.
  destruct (str_truthy (Args.affinity args)) eqn:Hexplicit; simpl.
  - destruct (_parse_cpu_list pf _) as [cpus | e]; simpl.
    + destruct (Args.verbose args =? 0); simpl; rewrite ?Hargs; simpl;
        destruct (has_sched_setaffinity pf); simpl;
        try destruct (psutil pf) as [[] |]; simpl;
        by eexists _, _, (Args.affinity args).
    + by eexists _, _, (Args.affinity args).
  - rewrite Hargs. simpl.
    destruct (_get_isolated_cpus pf) as [[|cpu cpus] |]; simpl;
      try by eexists _, _, (Args.affinity args).
    destruct (has_sched_setaffinity pf); simpl.
    + destruct (Args.verbose args =? 0); simpl;
        by eexists _, _, (Some (_format_cpu_list pf (cpu :: cpus))).
    + destruct (psutil pf) as [[] |]; simpl;
        try by eexists _, _, (Args.affinity args).
      destruct (Args.verbose args =? 0); simpl;
        by eexists _, _, (Some (_format_cpu_list pf (cpu :: cpus))).
Qed.


(** X13: whatever [_cpu_affinity] does, pin the process, print a warning or
    fail, it leaves the benchmark alone and changes nothing in the runner
    but [args.affinity], which it only sets when the option was not given:
    the loops, the samples, the verbosity and every other option are the
    ones parsed. *)
Theorem cpu_affinity_keeps_config (pf : Platform) (st : State) (args : Args.t) :
  TextRunner.args (self st) = Some args →
  ∃ r st' affinity,
    _cpu_affinity pf st = (r, st')
    ∧ bench st' = bench st
    ∧ self st' = TextRunner.set_args (Some (Args.set_affinity affinity args)) (self st)
    ∧ (str_truthy (Args.affinity args) = true → affinity = Args.affinity args)
    ∧ ∀ args', TextRunner.args (self st') = Some args' →
        Args.processes args' = Args.processes args
        ∧ Args.samples args' = Args.samples args
        ∧ Args.warmups args' = Args.warmups args
        ∧ Args.loops args' = Args.loops args
        ∧ Args.verbose args' = Args.verbose args
        ∧ Args.json args' = Args.json args
        ∧ Args.json_file args' = Args.json_file args
        ∧ Args.raw args' = Args.raw args
        ∧ Args.metadata args' = Args.metadata args.
Proof.
  intros Hargs.
  destruct (cpu_affinity_config pf st args Hargs)
    as (r & st' & affinity & Hrun & Hbench & Hself & Haffinity).
  exists r, st', affinity. split; [done |]. split; [done |]. split; [done |].
  split; [done |]. intros args'. rewrite Hself. by intros [= <-].
Qed.

Lemma cpu_affinity_keeps_config_witness :
  ∃ r st' affinity,
    _cpu_affinity (platform true (Some [2; 3]) (λ _ _, Exited 0 "{}" ""))
      (spawning_state three_processes_args) = (r, st')
    ∧ bench st' = bench (spawning_state three_processes_args)
    ∧ self st' = TextRunner.set_args
                   (Some (Args.set_affinity affinity three_processes_args))
                   (self (spawning_state three_processes_args)).
Proof.
  destruct (cpu_affinity_keeps_config
              (platform true (Some [2; 3]) (λ _ _, Exited 0 "{}" ""))
              (spawning_state three_processes_args) three_processes_args)
    as (r & st' & affinity & Hrun & Hbench & Hself & _); [reflexivity |].
  exists r, st', affinity. split; [exact Hrun |]. split; [exact Hbench | exact Hself].
Defined.

(** [_main] up to [_cpu_affinity]: the clock is read, and the command line
    is parsed unless it already was. *)
Lemma main_eval (pf : Platform) (sample_func : Z → M Q) (st : State)
    (args : Args.t) :
  main_config pf st args →
  _main pf sample_func st
  = (_cpu_affinity pf ;;
     args <- self_args ;;
     when (Args.loops args =? 0)
       (loops <- _calibrate_sample_func sample_func ;;
        self <- get_self ;;
        args <- self_args ;;
        set_self (TextRunner.set_args (Some (Args.set_loops loops args)) self)) ;;
     self <- get_self ;;
     args <- self_args ;;
     set_bench (Benchmark.new (TextRunner.name self) (Args.warmups args)
                  (Args.loops args) (TextRunner.inner_loops self)
                  (TextRunner.metadata self)) ;;
     when (negb (Args.raw args) || Args.metadata args)
       (emit CollectMetadata ;;
        bench <- get_bench ;;
        set_bench (Benchmark.with_metadata
                     (collect_metadata pf (Benchmark.metadata bench)) bench)) ;;
     try_except_KeyboardInterrupt
       (if negb (Args.raw args)
        then _spawn_workers pf (monotonic_clock pf (trace st ++ [MonotonicClock]))
        else _worker pf sample_func)
       (print MsgInterrupted (Some sys_stderr) ;;
        sys_exit 1))
      (mkState (TextRunner.set_args (Some args) (self st)) (bench st)
         (trace st
          ++ MonotonicClock
             :: match TextRunner.args (self st) with
                | Some _ => []
                | None => [ParseArgs None]
                end)).
Proof.
  unfold main_config. intros Hconfig. unfold _main.
  rewrite (bind_eval_ok _ _ _ _ _ (emit_eval _ _)).
  unfold bind at 1, get_trace. cbn [trace].
  unfold bind at 1, parse_args, get_self, bind at 1. cbn [self].
  destruct (TextRunner.args (self st)) as [parsed |] eqn:Hargs.
  - subst parsed. unfold ret.
    replace (TextRunner.set_args (Some args) (self st)) with (self st); [done |].
    destruct st as [[] ? ?]. simpl in *. by rewrite Hargs.
  - unfold bind, emit, get_trace, lift, set_self. cbn [self bench trace].
    rewrite <- (assoc_L (++)). simpl. by rewrite Hconfig.
Qed.

(** X14: when the number of loops is given ([--loops], or the [loops] of
    the constructor) and [--raw] is not, the orchestrator never calls the
    timed function: whatever the function is, [bench_sample_func] does the
    same and returns the same. The function is only called in the
    workers. *)
Theorem bench_sample_func_explicit_loops (pf : Platform)
    (sample_func sample_func' : Z → M Q) (st : State) (args : Args.t) :
  main_config pf st args →
  Args.loops args ≠ 0 →
  Args.raw args = false →
  bench_sample_func pf sample_func st = bench_sample_func pf sample_func' st.
Proof.
  intros Hconfig Hloops Hraw. unfold bench_sample_func.
  rewrite !(main_eval pf _ st args Hconfig).
  match goal with
  | |- context [bind (_cpu_affinity pf) _ ?s] =>
      destruct (cpu_affinity_config pf s args eq_refl)
        as (r & st' & affinity & Hrun & _ & Hself & _)
  end.
  destruct r as [[] | e]; [| by rewrite !(bind_eval_raise _ _ _ _ _ Hrun)].
  rewrite !(bind_eval_ok _ _ _ _ _ Hrun).
  assert (TextRunner.args (self st') = Some (Args.set_affinity affinity args))
    as Hargs by (by rewrite Hself).
  rewrite !(bind_eval_ok _ _ _ _ _ (self_args_eval _ _ Hargs)).
  cbn [Args.loops Args.set_affinity].
  apply Z.eqb_neq in Hloops. rewrite Hloops. simpl when at 1 3.
  rewrite !(bind_eval_ok _ _ st' st' tt) by done.
  rewrite !(bind_eval_ok _ _ st' st' (self st')) by done.
  rewrite !(bind_eval_ok _ _ _ _ _ (self_args_eval _ _ Hargs)).
  cbn [Args.raw Args.set_affinity]. by rewrite Hraw.
Qed.

Lemma bench_sample_func_explicit_loops_witness :
  bench_sample_func posix (timed jitter_op) (spawning_state three_processes_args)
  = bench_sample_func posix (timed (linear_op 1)) (spawning_state three_processes_args).
Proof.
  apply (bench_sample_func_explicit_loops posix (timed jitter_op) (timed (linear_op 1))
           (spawning_state three_processes_args) three_processes_args);
    [reflexivity | done | reflexivity].
Defined.

(** X15: when the user interrupts the orchestrator while it waits for a
    worker, the worker is killed and waited for, [Interrupted: exit] is
    printed to [sys.stderr] and the process exits with status 1: no other
    worker is spawned, nothing is reported and nothing is dumped. *)
Theorem main_interrupted (pf : Platform) (sample_func : Z → M Q) (st : State)
    (args : Args.t) (n : nat) :
  main_config pf st args →
  Args.raw args = false →
  Args.loops args ≠ 0 →
  str_truthy (Args.affinity args) = false →
  _get_isolated_cpus pf = None →
  (n < Z.to_nat (Args.processes args))%nat →
  (∀ i tr, (i < n)%nat →
     spawned tr = spawned (trace st) ++ replicate (S i) (worker_command (self st) args) →
     ∃ run, child_succeeds pf (worker_command (self st) args) tr run) →
  (∀ tr,
     spawned tr = spawned (trace st) ++ replicate (S n) (worker_command (self st) args) →
     communicate pf tr (worker_command (self st) args) = Interrupted KeyboardInterrupt) →
  ∃ st' tr,
    _main pf sample_func st = (Raise (SystemExit 1), st')
    ∧ trace st' = tr ++ [Kill; Wait; Print sys_stderr MsgInterrupted]
    ∧ spawned (trace st')
      = spawned (trace st) ++ replicate (S n) (worker_command (self st) args)
    ∧ json_dumps (trace st') = json_dumps (trace st)
    ∧ length (Benchmark.runs (bench st')) = n.
Proof.
  intros Hconfig Hraw Hloops Haffinity Hisolated Hn Hbefore Hchild.
  rewrite (main_eval pf _ st args Hconfig).
  set (parse := match TextRunner.args (self st) with
                | Some _ => []
                | None => [ParseArgs None]
                end).
  set (r := TextRunner.set_args (Some args) (self st)).
  set (st1 := mkState r (bench st) (trace st ++ MonotonicClock :: parse)).
  assert (TextRunner.args (self st1) = Some args) as Hargs by done.
  rewrite (bind_eval_ok _ _ _ _ _
             (cpu_affinity_no_isolated_cpu pf st1 args Hargs Haffinity
                (or_introl Hisolated))).
  rewrite (bind_eval_ok _ _ _ _ _ (self_args_eval _ _ Hargs)).
  apply Z.eqb_neq in Hloops. rewrite Hloops. simpl when at 1.
  rewrite (bind_eval_ok _ _ st1 st1 tt) by done.
  rewrite (bind_eval_ok _ _ st1 st1 (self st1)) by done.
  rewrite (bind_eval_ok _ _ _ _ _ (self_args_eval _ _ Hargs)).
  rewrite Hraw. simpl negb. simpl orb. simpl when.
  unfold bind at 1 2 3 4, set_bench, emit, get_bench. cbn [self bench trace].
  match goal with
  | |- context [try_except_KeyboardInterrupt _ _ ?s] => set (st0 := s)
  end.
  assert (worker_command (self st0) args = worker_command (self st) args) as Hcmd
    by reflexivity.
  assert (spawned (trace st0) = spawned (trace st)) as Hspawned.
  { unfold st0, st1. cbn [trace].
    change (?l ++ MonotonicClock :: parse) with (l ++ [MonotonicClock] ++ parse).
    rewrite !spawned_app.
    assert (spawned parse = []) as -> by (unfold parse; by destruct (TextRunner.args _)).
    by rewrite !app_nil_r. }
  assert (json_dumps (trace st0) = json_dumps (trace st)) as Hdumped.
  { unfold st0, st1. cbn [trace].
    change (?l ++ MonotonicClock :: parse) with (l ++ [MonotonicClock] ++ parse).
    rewrite !json_dumps_app.
    assert (json_dumps parse = []) as -> by (unfold parse; by destruct (TextRunner.args _)).
    by rewrite !app_nil_r. }
  destruct (spawn_workers_outcome pf
              (monotonic_clock pf (trace st ++ [MonotonicClock])) st0 args eq_refl)
    as (res & st' & rs & Hrun & Hself & Hruns & Hloops' & Hprov & Hend).
  rewrite Hcmd, Hspawned in *.
  assert (∀ run, rs !! n = Some run → False) as Hnth.
  { intros run Hrs. destruct (Hprov n run Hrs) as (tr & Htr & Hok).
    destruct Hok as (? & ? & ? & Hexit & _). by rewrite (Hchild tr Htr) in Hexit. }
  destruct Hend as [(Hlen & _) | (e & tr & tail & -> & Hlen & Htr & Hfail & Htrace & Hdumps & Hbench)].
  { destruct (lookup_lt_is_Some_2 rs n) as [run Hrs]; [lia |]. by destruct (Hnth run). }
  destruct (decide (length rs = n)) as [<- | Hne].
  - unfold child_fails in Hfail. rewrite (Hchild tr Htr) in Hfail.
    destruct Hfail as [-> ->].
    unfold try_except_KeyboardInterrupt. rewrite Hrun.
    unfold bind, print, emit, sys_exit, raise. cbn [self bench trace default].
    eexists _, tr. split; [reflexivity |]. cbn [self bench trace].
    split; [by rewrite Htrace, <- (assoc_L (++)) |].
    split; [by rewrite Htrace, !spawned_app, Htr, !app_nil_r |].
    split.
    { rewrite json_dumps_app. change (json_dumps [_]) with (@nil (fileobj * Benchmark.t)).
      by rewrite app_nil_r, Hdumps. }
    rewrite Hbench, add_runs_runs. done.
  - destruct (decide (length rs < n)%nat) as [Hlt | Hge].
    + destruct (Hbefore (length rs) tr Hlt Htr) as [run Hok].
      by destruct (child_succeeds_not_fails _ _ _ _ _ _ Hok Hfail).
    + destruct (lookup_lt_is_Some_2 rs n) as [run Hrs]; [lia |].
      by destruct (Hnth run).
Qed.

Lemma main_interrupted_witness :
  ∃ st' tr,
    _main (interrupted_child 1) (timed jitter_op) (spawning_state three_processes_args)
    = (Raise (SystemExit 1), st')
    ∧ trace st' = tr ++ [Kill; Wait; Print sys_stderr MsgInterrupted]
    ∧ length (Benchmark.runs (bench st')) = 1%nat.
Proof.
  destruct (main_interrupted (interrupted_child 1) (timed jitter_op)
              (spawning_state three_processes_args) three_processes_args 1)
    as (st' & tr & Hrun & Htrace & _ & _ & Hruns).
  - reflexivity.
  - reflexivity.
  - done.
  - reflexivity.
  - reflexivity.
  - vm_compute. lia.
  - intros i tr Hi Hspawned. exists [(11 # 100); (1 # 10); (1 # 10); (1 # 10)]%Q.
    exists "{}", "", one_run. simpl. rewrite Hspawned. simpl.
    rewrite length_replicate. destruct i as [|i]; [done | lia].
  - intros tr Hspawned. simpl. by rewrite Hspawned.
  - exists st', tr. split; [exact Hrun |]. split; [exact Htrace | exact Hruns].
Defined.

(** ** Calibration in [_main] *)

(** What a worker does, whatever the report ends with. *)
Lemma worker_outcome (pf : Platform) (op : list Z → Z → Q) (st : State)
    (args : Args.t) :
  TextRunner.args (self st) = Some args →
  ∃ r out run,
    _worker pf (timed op) st
    = (r, mkState (self st) (Benchmark.add_run run (bench st)) (trace st ++ out))
    ∧ length run = (Z.to_nat (Args.warmups args) + Z.to_nat (Args.samples args))%nat
    ∧ sample_func_calls out = replicate (length run) (Benchmark.loops (bench st))
    ∧ spawned out = [].
Proof.
  intros Hargs. unfold _worker.
  rewrite (bind_eval_ok _ _ _ _ _ (range_eval _ _ Hargs)).
  destruct (worker_loop op args
              (((λ warmup, (true, 1 + warmup)) <$> range (Args.warmups args))
               ++ ((λ run, (false, 1 + run)) <$> range (Args.samples args)))
              [] st Hargs) as (out & Hloop & Hcalls & _).
  rewrite app_nil_l in Hloop.
  rewrite (bind_eval_ok _ _ _ _ _ Hloop).
  rewrite length_app, !length_fmap, !length_range in *.
  set (n := (Z.to_nat (Args.warmups args) + Z.to_nat (Args.samples args))%nat) in *.
  set (run := _ <$> seq 0 n) in *.
  assert (length run = n) as Hlen.
  { unfold run. by rewrite length_fmap, length_seq. }
  unfold bind at 1 2 3, get_bench at 1 2, set_bench. cbn [self bench trace fst snd].
  destruct (report_only_display_result pf (Benchmark.add_run run (bench st)) false
              (mkState (self st) (Benchmark.add_run run (bench st)) (trace st ++ out)))
    as (r & out' & Hdisplay & Hio).
  unfold bind. rewrite Hdisplay. cbn [self bench trace] in *.
  exists (match r with Ok _ => Ok (Benchmark.add_run run (bench st))
                  | Raise e => Raise e end), (out ++ out'), run.
  split; [destruct r; by rewrite (assoc_L (++)) |].
  split; [done |].
  split; [by rewrite sample_func_calls_app, Hcalls, (report_no_sample_func _ Hio),
            app_nil_r, Hlen |].
  destruct (emits_only_worker not_spawn pf op report_not_spawn
              (λ _ _, eq_refl) (λ _, eq_refl) st) as (out'' & Htrace & Hquiet).
  unfold _worker in Htrace.
  rewrite (bind_eval_ok _ _ _ _ _ (range_eval _ _ Hargs)) in Htrace.
  rewrite (bind_eval_ok _ _ _ _ _ Hloop) in Htrace.
  unfold bind at 1 2 3, get_bench at 1 2, set_bench in Htrace.
  cbn [self bench trace fst snd] in Htrace.
  unfold bind in Htrace. rewrite Hdisplay in Htrace.
  assert (trace st ++ out ++ out' = trace st ++ out'') as Heq.
  { rewrite <- Htrace. destruct r; cbn [snd trace]; by rewrite (assoc_L (++)). }
  apply app_inv_head in Heq as ->. by apply not_spawn_spawned.
Qed.

(** [_main] up to the workers when it calibrates: the loops found are
    stored in [args.loops] and the benchmark is created with them. *)
Lemma main_calibration_eval (pf : Platform) (op : list Z → Z → Q) (st : State)
    (args : Args.t) :
  main_config pf st args →
  Args.loops args = 0 →
  str_truthy (Args.affinity args) = false →
  _get_isolated_cpus pf = None →
  ∃ loops out n i st0,
    (1 ≤ n ≤ 10)%nat
    ∧ sample_func_calls out = (λ i, 10 ^ i) <$> take n (range 10)
    ∧ spawned out = []
    ∧ 0 ≤ i ≤ 9
    ∧ loops = 10 ^ i
    ∧ _main pf (timed op) st
      = try_except_KeyboardInterrupt
          (if negb (Args.raw args)
           then _spawn_workers pf (monotonic_clock pf (trace st ++ [MonotonicClock]))
           else _worker pf (timed op))
          (print MsgInterrupted (Some sys_stderr) ;;
           sys_exit 1) st0
    ∧ self st0 = TextRunner.set_args (Some (Args.set_loops loops args)) (self st)
    ∧ Benchmark.loops (bench st0) = loops
    ∧ Benchmark.runs (bench st0) = []
    ∧ sample_func_calls (trace st0) = sample_func_calls (trace st) ++ sample_func_calls out
    ∧ spawned (trace st0) = spawned (trace st).
Proof.
  intros Hconfig Hloops Haffinity Hisolated.
  rewrite (main_eval pf _ st args Hconfig).
  set (parse := match TextRunner.args (self st) with
                | Some _ => []
                | None => [ParseArgs None]
                end).
  assert (sample_func_calls parse = [] ∧ spawned parse = []) as [Hparse Hparse']
    by (unfold parse; by destruct (TextRunner.args _)).
  set (r := TextRunner.set_args (Some args) (self st)).
  set (st1 := mkState r (bench st) (trace st ++ MonotonicClock :: parse)).
  assert (TextRunner.args (self st1) = Some args) as Hargs by done.
  rewrite (bind_eval_ok _ _ _ _ _
             (cpu_affinity_no_isolated_cpu pf st1 args Hargs Haffinity
                (or_introl Hisolated))).
  rewrite (bind_eval_ok _ _ _ _ _ (self_args_eval _ _ Hargs)).
  rewrite Hloops. simpl when at 1.
  destruct (calibrate_any_outcome op st1 args Hargs)
    as (loops & out & n & Hrun & Hn & Hcalls & Hend).
  assert (∃ i, 0 ≤ i ≤ 9 ∧ loops = 10 ^ i) as (i & Hi & Hpow).
  { destruct Hend as [(_ & -> & _) | (j & _ & Hj & _ & [[_ ->] | (_ & _ & ->)])].
    - exists 9. lia.
    - exists (Z.max (j - 1) 0). lia.
    - exists j. lia. }
  set (r' := TextRunner.set_args (Some (Args.set_loops loops args)) r).
  set (st2 := mkState r' (bench st) (trace st1 ++ out)).
  assert ((loops <- _calibrate_sample_func (timed op) ;;
           self <- get_self ;;
           args <- self_args ;;
           set_self (TextRunner.set_args (Some (Args.set_loops loops args)) self)) st1
          = (Ok tt, st2)) as Hcalibrate.
  { rewrite (bind_eval_ok _ _ _ _ _ Hrun).
    unfold bind, get_self, self_args, set_self. cbn [self bench trace].
    by rewrite Hargs. }
  rewrite (bind_eval_ok _ _ _ _ _ Hcalibrate).
  rewrite (bind_eval_ok _ _ st2 st2 (self st2)) by done.
  assert (TextRunner.args (self st2) = Some (Args.set_loops loops args)) as Hargs2
    by done.
  rewrite (bind_eval_ok _ _ _ _ _ (self_args_eval _ _ Hargs2)).
  cbn [Args.raw Args.metadata Args.warmups Args.loops Args.set_loops].
  unfold bind at 1, set_bench at 1. cbn [self bench trace].
  set (b := Benchmark.new _ _ _ _ _).
  set (meta := negb (Args.raw args) || Args.metadata args).
  exists loops, out, n, i.
  exists (mkState r'
            (if meta then Benchmark.with_metadata
                            (collect_metadata pf (Benchmark.metadata b)) b
             else b)
            ((trace st1 ++ out) ++ (if meta then [CollectMetadata] else []))).
  split; [done |]. split; [done |].
  split.
  { destruct (emits_only_calibrate not_spawn op report_not_spawn (λ _, eq_refl) st1)
      as (out' & Htrace & Hquiet).
    rewrite Hrun in Htrace. cbn [snd trace] in Htrace.
    apply app_inv_head in Htrace as <-. by apply not_spawn_spawned. }
  split; [done |]. split; [done |].
  split.
  { destruct meta; simpl when.
    - unfold bind at 1 2 3, emit, get_bench, set_bench. cbn [self bench trace].
      done.
    - unfold bind at 1, ret. by rewrite app_nil_r. }
  cbn [self bench trace].
  split; [done |].
  split; [by destruct meta |]. split; [by destruct meta |].
  unfold st1. cbn [trace].
  change (?l ++ MonotonicClock :: parse) with (l ++ [MonotonicClock] ++ parse).
  split.
  - rewrite !sample_func_calls_app, Hparse.
    assert (sample_func_calls (if meta then [CollectMetadata] else []) = []) as ->
      by (by destruct meta).
    change (sample_func_calls [MonotonicClock]) with (@nil Z).
    by rewrite !app_nil_r.
  - rewrite !spawned_app, Hparse'.
    destruct (emits_only_calibrate not_spawn op report_not_spawn (λ _, eq_refl) st1)
      as (out' & Htrace & Hquiet).
    rewrite Hrun in Htrace. cbn [snd trace] in Htrace.
    apply app_inv_head in Htrace as <-.
    rewrite (not_spawn_spawned _ Hquiet).
    assert (spawned (if meta then [CollectMetadata] else []) = []) as ->
      by (by destruct meta).
    change (spawned [MonotonicClock]) with (@nil (list string)).
    by rewrite !app_nil_r.
Qed.

(** X16: in a worker started without [--loops], [_main] calibrates first
    and the worker measures with the loops found: the timed operation is
    called with 10^0, 10^1, ... by the calibration, then [warmups + samples]
    times with the power of ten it returned, which is also stored in
    [args.loops] and recorded as the loops of the benchmark; the benchmark
    gets one run of [warmups + samples] values, and no process is
    spawned. *)
Theorem main_raw_calibrated (pf : Platform) (op : list Z → Z → Q) (st : State)
    (args : Args.t) :
  main_config pf st args →
  Args.raw args = true →
  Args.loops args = 0 →
  str_truthy (Args.affinity args) = false →
  _get_isolated_cpus pf = None →
  0 ≤ Args.warmups args →
  0 ≤ Args.samples args →
  ∃ r st' n i run,
    _main pf (timed op) st = (r, st')
    ∧ (1 ≤ n ≤ 10)%nat
    ∧ 0 ≤ i ≤ 9
    ∧ sample_func_calls (trace st')
      = sample_func_calls (trace st)
        ++ ((λ i, 10 ^ i) <$> take n (range 10))
        ++ replicate (Z.to_nat (Args.warmups args + Args.samples args)) (10 ^ i)
    ∧ TextRunner.args (self st') = Some (Args.set_loops (10 ^ i) args)
    ∧ Benchmark.loops (bench st') = 10 ^ i
    ∧ Benchmark.runs (bench st') = [run]
    ∧ Z.of_nat (length run) = Args.warmups args + Args.samples args
    ∧ spawned (trace st') = spawned (trace st).
Proof.
  intros Hconfig Hraw Hloops Haffinity Hisolated Hwarmups Hsamples.
  destruct (main_calibration_eval pf op st args Hconfig Hloops Haffinity Hisolated)
    as (loops & out & n & i & st0 & Hn & Hcalls & _ & Hi & -> & Hmain & Hself
        & Hbloops & Hruns & Hcalled & Hspawned).
  rewrite Hraw in Hmain. simpl negb in Hmain. cbv iota in Hmain.
  assert (TextRunner.args (self st0) = Some (Args.set_loops (10 ^ i) args)) as Hargs
    by (by rewrite Hself).
  destruct (worker_outcome pf op st0 _ Hargs)
    as (r & out' & run & Hworker & Hlen & Hcalls' & Hspawned').
  cbn [Args.warmups Args.samples Args.set_loops] in Hlen.
  set (st1 := mkState (self st0) (Benchmark.add_run run (bench st0))
                (trace st0 ++ out')) in *.
  assert (∃ r' tail,
            _main pf (timed op) st = (r', mkState (self st1) (bench st1) (trace st1 ++ tail))
            ∧ sample_func_calls tail = [] ∧ spawned tail = [])
    as (r' & tail & Hrun & Htail & Htail').
  { rewrite Hmain. unfold try_except_KeyboardInterrupt. rewrite Hworker.
    destruct r as [b | e].
    - exists (Ok b), []. by rewrite trace_app_nil.
    - destruct e; try (eexists _, []; by rewrite trace_app_nil).
      by eexists _, [_]. }
  exists r', (mkState (self st1) (bench st1) (trace st1 ++ tail)), n, i, run.
  split; [done |]. split; [done |]. split; [done |].
  cbn [self bench trace]. unfold st1. cbn [self bench trace].
  split.
  { rewrite !sample_func_calls_app, Hcalled, Hcalls, Hcalls', Htail, Hbloops, Hlen.
    rewrite app_nil_r, <- (assoc_L (++)). do 3 f_equal. lia. }
  split; [done |]. split; [done |].
  split; [simpl; by rewrite Hruns |].
  split; [lia |].
  by rewrite !spawned_app, Hspawned, Hspawned', Htail', !app_nil_r.
Qed.

Lemma main_raw_calibrated_witness :
  ∃ r st' n i run,
    _main posix (timed jitter_op)
      (state_of (runner_with (Args.set_loops 0 raw_args)) (Benchmark.new None 1 0 None ∅))
    = (r, st')
    ∧ (1 ≤ n ≤ 10)%nat
    ∧ sample_func_calls (trace st')
      = ((λ i, 10 ^ i) <$> take n (range 10)) ++ replicate 4 (10 ^ i)
    ∧ Benchmark.loops (bench st') = 10 ^ i
    ∧ Benchmark.runs (bench st') = [run].
Proof.
  destruct (main_raw_calibrated posix jitter_op
              (state_of (runner_with (Args.set_loops 0 raw_args))
                 (Benchmark.new None 1 0 None ∅))
              (Args.set_loops 0 raw_args))
    as (r & st' & n & i & run & Hrun & Hn & _ & Hcalls & _ & Hloops & Hruns & _);
    [reflexivity | reflexivity | reflexivity | reflexivity | reflexivity
    | simpl; lia | simpl; lia |].
  exists r, st', n, i, run. split; [exact Hrun |]. split; [exact Hn |].
  split; [exact Hcalls |]. split; [exact Hloops | exact Hruns].
Defined.

(** X17: without [--loops] and without [--raw], the orchestrator calibrates
    once, before the first worker, and every worker it spawns is given
    [--loops] with the power of ten the calibration returned: all the
    workers measure with the same number of loops, the one recorded in the
    benchmark returned. The orchestrator does not call the timed operation
    again. *)
Theorem main_calibrates_for_workers (pf : Platform) (op : list Z → Z → Q)
    (st : State) (args : Args.t) :
  main_config pf st args →
  Args.raw args = false →
  Args.loops args = 0 →
  str_truthy (Args.affinity args) = false →
  _get_isolated_cpus pf = None →
  ∃ r st' n i k,
    _main pf (timed op) st = (r, st')
    ∧ (1 ≤ n ≤ 10)%nat
    ∧ 0 ≤ i ≤ 9
    ∧ sample_func_calls (trace st')
      = sample_func_calls (trace st) ++ ((λ i, 10 ^ i) <$> take n (range 10))
    ∧ (k ≤ Z.to_nat (Args.processes args))%nat
    ∧ spawned (trace st')
      = spawned (trace st)
        ++ replicate k (worker_command (self st) (Args.set_loops (10 ^ i) args))
    ∧ (TextRunner.prepare_subprocess_args (self st) = None →
       ∃ before after,
         worker_command (self st) (Args.set_loops (10 ^ i) args)
         = before ++ ["--loops"; pretty (10 ^ i)] ++ after)
    ∧ (∀ b, r = Ok b →
         k = Z.to_nat (Args.processes args)
         ∧ Benchmark.loops b = 10 ^ i
         ∧ length (Benchmark.runs b) = Z.to_nat (Args.processes args)).
Proof.
  intros Hconfig Hraw Hloops Haffinity Hisolated.
  destruct (main_calibration_eval pf op st args Hconfig Hloops Haffinity Hisolated)
    as (loops & out & n & i & st0 & Hn & Hcalls & _ & Hi & -> & Hmain & Hself
        & Hbloops & Hruns & Hcalled & Hspawned).
  rewrite Hraw in Hmain. simpl negb in Hmain. cbv iota in Hmain.
  assert (TextRunner.args (self st0) = Some (Args.set_loops (10 ^ i) args)) as Hargs
    by (by rewrite Hself).
  set (start_time := monotonic_clock pf (trace st ++ [MonotonicClock])) in *.
  destruct (spawn_workers_outcome pf start_time st0 _ Hargs)
    as (r & st1 & rs & Hrun & Hself1 & Hruns1 & Hloops1 & _ & Hend).
  destruct (emits_only_spawn_workers not_timed pf start_time report_not_timed
              (λ _, eq_refl) eq_refl eq_refl eq_refl st0) as (out1 & Htrace1 & Hquiet).
  rewrite Hrun in Htrace1. cbn [snd] in Htrace1.
  apply not_timed_sample_func_calls in Hquiet.
  assert (worker_command (self st0) (Args.set_loops (10 ^ i) args)
          = worker_command (self st) (Args.set_loops (10 ^ i) args)) as Hcmd
    by (by rewrite Hself).
  rewrite Hcmd, Hspawned in Hend.
  assert (∃ k, (k ≤ Z.to_nat (Args.processes args))%nat
               ∧ spawned (trace st1)
                 = spawned (trace st)
                   ++ replicate k (worker_command (self st)
                                     (Args.set_loops (10 ^ i) args))
               ∧ (∀ b, r = Ok b →
                    k = Z.to_nat (Args.processes args)
                    ∧ b = bench st1
                    ∧ length rs = Z.to_nat (Args.processes args)))
    as (k & Hk & Hspawned1 & Hok).
  { destruct Hend as [(Hlen & Hsp & Hres)
                     | (e & tr & tail & -> & Hlen & Htr & Hfail & Htrace & _)].
    - exists (Z.to_nat (Args.processes args)). split; [done |]. split; [done |].
      intros b ->. destruct Hres as [[= ->] | [e [=]]]. done.
    - exists (S (length rs)). cbn [Args.processes Args.set_loops] in Hlen.
      split; [lia |]. split; [| done].
      apply child_fails_tail in Hfail as [_ Htail].
      by rewrite Htrace, spawned_app, Htr, Htail, app_nil_r. }
  assert (∃ r' tail,
            _main pf (timed op) st = (r', mkState (self st1) (bench st1) (trace st1 ++ tail))
            ∧ sample_func_calls tail = [] ∧ spawned tail = []
            ∧ ∀ b, r' = Ok b → r = Ok b)
    as (r' & tail & Hrun' & Htail & Htail' & Hres).
  { rewrite Hmain. unfold try_except_KeyboardInterrupt. rewrite Hrun.
    destruct r as [b | e].
    - exists (Ok b), []. by rewrite trace_app_nil.
    - destruct e; try (eexists _, []; by rewrite trace_app_nil).
      by eexists _, [_]. }
  exists r', (mkState (self st1) (bench st1) (trace st1 ++ tail)), n, i, k.
  split; [done |]. split; [done |]. split; [done |]. cbn [self bench trace].
  split.
  { by rewrite sample_func_calls_app, Htail, Htrace1, sample_func_calls_app, Hquiet,
      Hcalled, Hcalls, !app_nil_r. }
  split; [done |].
  split; [by rewrite spawned_app, Htail', Hspawned1, app_nil_r |].
  split; [apply worker_command_loops |].
  intros b Hb. destruct (Hok b (Hres b Hb)) as (-> & -> & Hlen).
  split; [done |]. split; [by rewrite Hloops1 |].
  by rewrite Hruns1, Hruns.
Qed.

Lemma main_calibrates_for_workers_witness :
  ∃ r st' n i k,
    _main posix (timed jitter_op)
      (state_of fresh_runner (Benchmark.new None 1 0 None ∅)) = (r, st')
    ∧ (1 ≤ n ≤ 10)%nat
    ∧ sample_func_calls (trace st') = (λ i, 10 ^ i) <$> take n (range 10)
    ∧ spawned (trace st')
      = replicate k (worker_command fresh_runner (Args.set_loops (10 ^ i) default_args)).
Proof.
  destruct (main_calibrates_for_workers posix jitter_op
              (state_of fresh_runner (Benchmark.new None 1 0 None ∅)) default_args)
    as (r & st' & n & i & k & Hrun & Hn & _ & Hcalls & _ & Hspawned & _);
    [reflexivity | reflexivity | reflexivity | reflexivity | reflexivity |].
  exists r, st', n, i, k. split; [exact Hrun |]. split; [exact Hn |].
  split; [exact Hcalls | exact Hspawned].
Defined.

(** ** [bench_func] *)

Lemma for_const {A B} (l : list A) (l' : list B) (body : M unit) :
  length l = length l' → for_ l (λ _, body) = for_ l' (λ _, body).
Proof.
  revert l'. induction l as [|x l IH]; intros [|x' l'] Hlen; try done.
  simpl. by rewrite (IH l') by (simpl in Hlen; lia).
Qed.

Lemma bind_ext {A B} (m : M A) (k k' : A → M B) (st : State) :
  (∀ a s, k a s = k' a s) → bind m k st = bind m k' st.
Proof. intros Hk. unfold bind. by destruct (m st) as [[a | e] s]. Qed.

(** X18: the function which [bench_func] times calls the benchmarked
    function [loops] times in a row (not at all when [loops <= 0]), with
    the arguments given to [bench_func], between two readings of the clock,
    and returns the difference of the two readings; the special case of one
    loop and the fast path without arguments do what the general loop does.
    When a call fails the exception goes through and the clock is not read
    again. *)
Theorem bench_func_sample_func_calls {V} (perf_counter : M Q)
    (func : list V → M unit) (args : list V) (loops : Z) (st : State) :
  bench_func_sample_func perf_counter func args loops st
  = (t0 <- perf_counter ;;
     for_ (replicate (Z.to_nat loops) tt) (λ _, func args) ;;
     t1 <- perf_counter ;;
     ret (t1 - t0)%Q) st.
Proof.
  assert (∀ (k : M Q) s, (func args ;; k) s = (for_ [tt] (λ _, func args) ;; k) s)
    as Hone.
  { intros k s. simpl. unfold bind, ret.
    by destruct (func args s) as [[[] | e] s']. }
  unfold bench_func_sample_func.
  destruct (Z.eqb_spec loops 1) as [-> | Hloops]; simpl negb; cbv iota zeta.
  - change (replicate (Z.to_nat 1) tt) with [tt].
    destruct args as [|arg args]; apply bind_ext; intros t0 s; apply Hone.
  - destruct args as [|arg args];
      by rewrite (for_const (range loops) (replicate (Z.to_nat loops) tt))
        by (by rewrite length_range, length_replicate).
Qed.

(** ** The standard output of a worker process *)

Lemma on_stdout_off (out : list event) :
  forallb off_stdout out = true → on_stdout out = [].
Proof.
  induction out as [|e out IH]; [done |].
  simpl. intros [He Hout]%andb_true_iff. unfold on_stdout in *. simpl.
  rewrite (IH Hout). unfold off_stdout in He. by destruct (written_to sys_stdout e).
Qed.

(** With [--json], [_cpu_affinity] prints to [sys.stderr]. *)
Lemma cpu_affinity_json (pf : Platform) (st : State) (args : Args.t) :
  TextRunner.args (self st) = Some args →
  Args.json args = true →
  ∃ r st' out affinity,
    _cpu_affinity pf st = (r, st')
    ∧ bench st' = bench st
    ∧ self st' = TextRunner.set_args (Some (Args.set_affinity affinity args)) (self st)
    ∧ trace st' = trace st ++ out
    ∧ on_stdout out = [].
Proof.
  intros Hargs Hjson.
  assert (self st = TextRunner.set_args
                      (Some (Args.set_affinity (Args.affinity args) args)) (self st))
    as Hsame.
  { destruct st as [[] ? ?], args. simpl in *. by rewrite Hargs. }
  unfold _cpu_affinity, _stream. run. rewrite Hargs. simpl.
  destruct (str_truthy (Args.affinity args)) eqn:Hexplicit; simpl.
  - destruct (_parse_cpu_list pf _) as [cpus | e]; simpl.
    + destruct (Args.verbose args =? 0); simpl; rewrite ?Hargs; simpl;
        rewrite ?Hjson;
        destruct (has_sched_setaffinity pf); simpl;
        try destruct (psutil pf) as [[] |]; simpl;
        eexists _, _, _, (Args.affinity args);
        (split; [reflexivity |]); (split; [done |]); (split; [done |]);
        (split; [first [reflexivity | symmetry; apply (assoc_L (++))] | done]).
    + eexists _, _, [], (Args.affinity args).
      split; [reflexivity |]. by rewrite app_nil_r.
  - rewrite Hargs. simpl. rewrite Hjson.
    destruct (_get_isolated_cpus pf) as [[|cpu cpus] |]; simpl;
      try (eexists _, _, [], (Args.affinity args);
           split; [reflexivity |]; by rewrite app_nil_r).
    destruct (has_sched_setaffinity pf); simpl.
    + destruct (Args.verbose args =? 0); simpl;
        eexists _, _, _, (Some (_format_cpu_list pf (cpu :: cpus)));
        (split; [reflexivity |]); (split; [done |]); (split; [done |]);
        (split; [first [reflexivity | symmetry; apply (assoc_L (++))] | done]).
    + destruct (psutil pf) as [[] |]; simpl.
      * destruct (Args.verbose args =? 0); simpl;
          eexists _, _, _, (Some (_format_cpu_list pf (cpu :: cpus)));
          (split; [reflexivity |]); (split; [done |]); (split; [done |]);
          (split; [first [reflexivity | symmetry; apply (assoc_L (++))] | done]).
      * eexists _, _, _, (Args.affinity args).
        (split; [reflexivity |]); (split; [done |]); (split; [done |]);
        (split; [first [reflexivity | symmetry; apply (assoc_L (++))] | done]).
      * eexists _, _, _, (Args.affinity args).
        (split; [reflexivity |]); (split; [done |]); (split; [done |]);
        (split; [first [reflexivity | symmetry; apply (assoc_L (++))] | done]).
Qed.

(** With [--json], the calibration prints to [sys.stderr]. *)
Lemma calibrate_json (op : list Z → Z → Q) (st : State) (args : Args.t) :
  TextRunner.args (self st) = Some args →
  Args.json args = true →
  ∃ loops out,
    _calibrate_sample_func (timed op) st
    = (Ok loops, mkState (self st) (bench st) (trace st ++ out))
    ∧ on_stdout out = [].
Proof.
  intros Hargs Hjson.
  destruct (calibrate_any_outcome op st args Hargs) as (loops & out & _ & Hrun & _).
  exists loops, out. split; [done |]. apply on_stdout_off.
  assert (emits_only off_stdout
            (args <- self_args ;;
             loops <- _calibrate_for (timed op) sys_stderr
                        (Args.min_time args * (90 # 100))%Q (Args.max_time args)
                        (range 10) None ;;
             args <- self_args ;;
             when (1 <? Args.verbose args)
               (print (MsgCalibrationUse loops) (Some sys_stderr)) ;;
             ret loops)) as Hquiet.
  { pose proof (λ min_dt max_dt,
                  emits_only_calibrate_for off_stdout op sys_stderr min_dt max_dt
                    (range 10) (λ _ _, eq_refl) (λ _, eq_refl)) as Hfor.
    emits_only; apply Hfor. }
  destruct (Hquiet st) as (out' & Htrace & Hout).
  unfold _calibrate_sample_func in Hrun.
  rewrite (bind_eval_ok _ _ _ _ _ (stream_eval _ _ Hargs)), Hjson in Hrun.
  rewrite Hrun in Htrace. cbn [snd trace] in Htrace.
  by apply app_inv_head in Htrace as <-.
Qed.

(** X19: a worker process, started with [--raw --json], writes nothing to
    [sys.stdout] but the JSON dump of its benchmark followed by a flush,
    whatever it does before: the messages of the CPU affinity, of the
    calibration, of the samples and of the report, and [Interrupted: exit],
    all go to [sys.stderr]. When it fails before the dump, or with
    [--json-file], it writes nothing at all to [sys.stdout]. *)
Theorem main_raw_json_stdout (pf : Platform) (op : list Z → Z → Q) (st : State)
    (args : Args.t) :
  main_config pf st args →
  Args.raw args = true →
  Args.json args = true →
  ∃ r st' out,
    _main pf (timed op) st = (r, st')
    ∧ trace st' = trace st ++ out
    ∧ (on_stdout out = []
       ∨ on_stdout out = [JsonDumpInto sys_stdout (bench st'); Flush sys_stdout])
    ∧ (∀ b, r = Ok b →
         b = bench st'
         ∧ on_stdout out
           = (if str_truthy (Args.json_file args) then []
              else [JsonDumpInto sys_stdout b; Flush sys_stdout])).
Proof.
  intros Hconfig Hraw Hjson.
  rewrite (main_eval pf _ st args Hconfig).
  set (parse := match TextRunner.args (self st) with
                | Some _ => []
                | None => [ParseArgs None]
                end).
  assert (on_stdout (MonotonicClock :: parse) = []) as Hparse
    by (unfold parse; by destruct (TextRunner.args _)).
  set (st1 := mkState (TextRunner.set_args (Some args) (self st)) (bench st)
                (trace st ++ MonotonicClock :: parse)).
  destruct (cpu_affinity_json pf st1 args eq_refl Hjson)
    as (r1 & st2 & out1 & affinity & Hrun1 & _ & Hself1 & Htrace1 & Hout1).
  destruct r1 as [[] | e]; cycle 1.
  { rewrite (bind_eval_raise _ _ _ _ _ Hrun1).
    exists (Raise e), st2, ((MonotonicClock :: parse) ++ out1).
    split; [done |]. split; [by rewrite Htrace1, (assoc_L (++)) |].
    split; [left; by rewrite on_stdout_app, Hparse, Hout1 | done]. }
  rewrite (bind_eval_ok _ _ _ _ _ Hrun1).
  set (args2 := Args.set_affinity affinity args) in *.
  assert (TextRunner.args (self st2) = Some args2) as Hargs2 by (by rewrite Hself1).
  rewrite (bind_eval_ok _ _ _ _ _ (self_args_eval _ _ Hargs2)).
  assert (∃ st3 args3 out2,
            when (Args.loops args2 =? 0)
              (loops <- _calibrate_sample_func (timed op) ;;
               self <- get_self ;;
               args <- self_args ;;
               set_self (TextRunner.set_args (Some (Args.set_loops loops args)) self)) st2
            = (Ok tt, st3)
            ∧ TextRunner.args (self st3) = Some args3
            ∧ Args.json args3 = true
            ∧ Args.raw args3 = true
            ∧ Args.json_file args3 = Args.json_file args
            ∧ trace st3 = trace st2 ++ out2
            ∧ on_stdout out2 = [])
    as (st3 & args3 & out2 & Hrun2 & Hargs3 & Hjson3 & Hraw3 & Hfile3 & Htrace2 & Hout2).
  { destruct (Args.loops args2 =? 0); simpl when.
    - destruct (calibrate_json op st2 args2 Hargs2 Hjson) as (loops & out2 & Hrun2 & Hout2).
      rewrite (bind_eval_ok _ _ _ _ _ Hrun2).
      unfold bind, get_self, self_args, set_self. cbn [self bench trace].
      rewrite Hargs2.
      by eexists _, (Args.set_loops loops args2), out2.
    - exists st2, args2, []. by rewrite app_nil_r. }
  rewrite (bind_eval_ok _ _ _ _ _ Hrun2).
  rewrite (bind_eval_ok _ _ st3 st3 (self st3)) by done.
  rewrite (bind_eval_ok _ _ _ _ _ (self_args_eval _ _ Hargs3)).
  rewrite Hraw3. simpl negb. simpl orb. cbv iota.
  unfold bind at 1, set_bench at 1. cbn [self bench trace].
  set (b := Benchmark.new _ _ _ _ _).
  set (meta := if Args.metadata args3 then [CollectMetadata] else []).
  set (b' := if Args.metadata args3
             then Benchmark.with_metadata (collect_metadata pf (Benchmark.metadata b)) b
             else b).
  assert (when (Args.metadata args3)
            (emit CollectMetadata ;;
             bench <- get_bench ;;
             set_bench (Benchmark.with_metadata
                          (collect_metadata pf (Benchmark.metadata bench)) bench))
            (mkState (self st3) b (trace st3))
          = (Ok tt, mkState (self st3) b' (trace st3 ++ meta))) as Hrun3.
  { unfold b', meta. destruct (Args.metadata args3); simpl when; [done |].
    unfold ret. by rewrite app_nil_r. }
  rewrite (bind_eval_ok _ _ _ _ _ Hrun3).
  set (st4 := mkState (self st3) b' (trace st3 ++ meta)).
  destruct (worker_json_outcome pf op st4 args3 Hargs3 Hjson3)
    as (r & out3 & run & Hrun4 & Hout3 & Hres).
  rewrite Hfile3 in Hout3.
  set (st5 := mkState (self st4) (Benchmark.add_run run (bench st4)) (trace st4 ++ out3))
    in *.
  assert (∃ r' tail,
            try_except_KeyboardInterrupt (_worker pf (timed op))
              (print MsgInterrupted (Some sys_stderr) ;; sys_exit 1) st4
            = (r', mkState (self st5) (bench st5) (trace st5 ++ tail))
            ∧ on_stdout tail = []
            ∧ ∀ b, r' = Ok b → r = Ok b)
    as (r' & tail & Hrun5 & Htail & Hres').
  { unfold try_except_KeyboardInterrupt. rewrite Hrun4.
    destruct r as [b0 | e].
    - exists (Ok b0), []. by rewrite trace_app_nil.
    - destruct e; try (eexists _, []; by rewrite trace_app_nil).
      by eexists _, [_]. }
  rewrite Hrun5.
  exists r', (mkState (self st5) (bench st5) (trace st5 ++ tail)),
    ((MonotonicClock :: parse) ++ out1 ++ out2 ++ meta ++ out3 ++ tail).
  split; [done |].
  assert (on_stdout meta = []) as Hmeta by (unfold meta; by destruct (Args.metadata args3)).
  assert (on_stdout ((MonotonicClock :: parse) ++ out1 ++ out2 ++ meta ++ out3 ++ tail)
          = on_stdout out3) as ->.
  { by rewrite !on_stdout_app, Hparse, Hout1, Hout2, Hmeta, Htail, app_nil_r. }
  split.
  { cbn [trace]. unfold st5, st4. cbn [trace]. rewrite Htrace2, Htrace1.
    unfold st1. cbn [trace]. by rewrite <- !(assoc_L (++)). }
  cbn [bench]. unfold st5. cbn [bench].
  split.
  - rewrite Hout3. destruct (str_truthy (Args.json_file args)); [by left | by right].
  - intros b0 Hb0. rewrite (Hres b0 (Hres' b0 Hb0)). done.
Qed.

Lemma main_raw_json_stdout_witness :
  ∃ b st' out,
    _main posix (timed jitter_op)
      (state_of (runner_with (Args.mk 25 3 1 0 2 true None (1 # 10) 1 true false None))
         (Benchmark.new None 1 0 None ∅))
    = (Ok b, st')
    ∧ trace st' = out
    ∧ on_stdout out = [JsonDumpInto sys_stdout b; Flush sys_stdout].
Proof.
  destruct (main_raw_json_stdout posix jitter_op
              (state_of (runner_with (Args.mk 25 3 1 0 2 true None (1 # 10) 1 true
                                        false None))
                 (Benchmark.new None 1 0 None ∅))
              (Args.mk 25 3 1 0 2 true None (1 # 10) 1 true false None))
    as (r & st' & out & Hrun & Htrace & _ & Hres);
    [reflexivity | reflexivity | reflexivity |].
  assert (match (_main posix (timed jitter_op)
                   (state_of (runner_with (Args.mk 25 3 1 0 2 true None (1 # 10) 1
                                             true false None))
                      (Benchmark.new None 1 0 None ∅))).1 with
          | Ok _ => True
          | Raise _ => False
          end) as Hok by (vm_compute; exact I).
  rewrite Hrun in Hok.
  destruct r as [b | e]; [| exact (False_ind _ Hok)].
  exists b, st', out. split; [exact Hrun |]. split; [exact Htrace |].
  exact (proj2 (Hres b eq_refl)).
Defined.

(** ** The report *)

(** X20: at a verbosity of 1 or less the stability assessment is silent
    exactly when both checks pass: it prints nothing when the verdicts of
    the dispersion check and of the minimum-duration check are both Stable,
    and prints a warning otherwise. *)
Theorem warn_if_bench_unstable_quiet
    (pf : Platform) (b : Benchmark.t) (verbose : Z) (file : option fileobj)
    (st : State) :
  Benchmark.get_samples b ≠ [] →
  verbose ≤ 1 →
  ∃ out,
    _warn_if_bench_unstable pf b verbose file st
    = (Ok tt, mkState (self st) (bench st) (trace st ++ out))
    ∧ (out = [] ↔ (dispersion_verdict out = Stable ∧ shortest_verdict out = Stable)).
Proof.
  intros Hne Hverbose.
  destruct (get_samples_nonempty b Hne) as [Hnrun Hraw].
  destruct (statistics_median_nonempty _ Hne) as [median Hmedian].
  destruct (py_min_nonempty _ Hraw) as (shortest & Hshortest & _).
  unfold _warn_if_bench_unstable.
  apply Z.eqb_neq in Hnrun. rewrite Hnrun. unfold Benchmark.median.
  run. rewrite Hmedian.
  assert ((1 <? verbose) = false) as -> by (by apply Z.ltb_ge).
  set (k := (statistics_stdev pf (Benchmark.get_samples b) / median)%Q).
  destruct (Qtruthy median && (1 <? Z.of_nat (length (Benchmark.get_samples b))));
    simpl.
  1: destruct (Qgtb k (10 # 100)); [destruct (Qgtb k (20 # 100)) |]; simpl.
  all: rewrite Hshortest; simpl.
  all: destruct (Qltb shortest (1 # 1000));
       [destruct (Qltb shortest (1 # 1000000)) |]; simpl.
  all: eexists; (split; [same_trace |]).
  all: unfold dispersion_verdict, shortest_verdict; simpl.
  all: split; [try discriminate; done | intros [? ?]; try discriminate; done].
Qed.

Lemma warn_if_bench_unstable_quiet_witness :
  ∃ out,
    _warn_if_bench_unstable posix tight_bench 0 None (state_of fresh_runner tight_bench)
    = (Ok tt, mkState fresh_runner tight_bench out)
    ∧ (out = [] ↔ (dispersion_verdict out = Stable ∧ shortest_verdict out = Stable)).
Proof.
  apply (warn_if_bench_unstable_quiet posix tight_bench 0 None
           (state_of fresh_runner tight_bench)); [done | lia].
Defined.

Lemma for_display_run (b : Benchmark.t) (nrun : Z) (file : option fileobj)
    (runs : list (list Q)) :
  ∀ (start : nat) (st : State),
    for_ (zip (Z.of_nat <$> seq start (length runs)) runs)
      (λ '(index, samples), _display_run b index nrun samples file) st
    = (Ok tt,
       mkState (self st) (bench st)
         (trace st
          ++ imap (λ i run,
                     Print (default sys_stdout file)
                       (MsgRun (Z.of_nat (start + i)) nrun
                          (slice_to run (Benchmark.warmups b))
                          (slice_from run (Benchmark.warmups b))))
               runs)).
Proof.
  induction runs as [|run runs IH]; intros start st; simpl.
  - by rewrite trace_app_nil.
  - unfold bind at 1. unfold _display_run at 1. rewrite print_eval, IH.
    cbn [self bench trace]. rewrite <- (assoc_L (++)). simpl.
    rewrite Nat.add_0_r. do 4 f_equal.
    apply imap_ext. intros i run' _. simpl. do 3 f_equal. lia.
Qed.

(** X21: asked to show the runs, [_display_benchmark] first prints one line
    per run, in the order of the runs, numbered from 1 and with the number
    of runs, each with the warmups and the raw samples of the run, then an
    empty line; whatever else it is asked, the line of the median is the
    last one it prints when it returns. *)
Theorem display_benchmark_layout (pf : Platform) (b : Benchmark.t) (verbose : Z)
    (file : option fileobj) (check_unstable metadata : bool) (st st' : State) :
  _display_benchmark pf b verbose file check_unstable metadata true st = (Ok tt, st') →
  ∃ out,
    trace st'
    = trace st
      ++ imap (λ i run,
                 Print (default sys_stdout file)
                   (MsgRun (1 + Z.of_nat i) (Z.of_nat (length (Benchmark.runs b)))
                      (slice_to run (Benchmark.warmups b))
                      (slice_from run (Benchmark.warmups b))))
           (Benchmark.runs b)
      ++ [Print (default sys_stdout file) MsgBlank]
      ++ out
      ++ [Print (default sys_stdout file) (MsgMedian b verbose)]
    ∧ self st' = self st
    ∧ bench st' = bench st.
Proof.
  intros Hrun. unfold _display_benchmark in Hrun. simpl when at 1 in Hrun.
  unfold Benchmark.get_runs in Hrun.
  apply bind_inv_ok in Hrun as ([] & st1 & Hruns & Hrun).
  rewrite (bind_eval_ok _ _ _ _ _ (for_display_run b _ file (Benchmark.runs b) 1 st)),
    print_eval in Hruns.
  injection Hruns as <-.
  apply bind_inv_ok in Hrun as ([] & st2 & Hmeta & Hrun).
  apply bind_inv_ok in Hrun as ([] & st3 & Hwarn & Hrun).
  rewrite print_eval in Hrun. injection Hrun as <-.
  assert (∃ out1, st2 = mkState (self st) (bench st)
                          ((trace st
                            ++ imap (λ i run,
                                 Print (default sys_stdout file)
                                   (MsgRun (Z.of_nat (1 + i))
                                      (Z.of_nat (length (Benchmark.runs b)))
                                      (slice_to run (Benchmark.warmups b))
                                      (slice_from run (Benchmark.warmups b))))
                                 (Benchmark.runs b)
                            ++ [Print (default sys_stdout file) MsgBlank]) ++ out1))
    as [out1 ->].
  { destruct metadata; simpl when in Hmeta.
    - apply bind_inv_ok in Hmeta as ([] & st1' & Hmeta & Hblank).
      match type of Hmeta with
      | _display_metadata ?m ?f ?h ?s = _ =>
          destruct (display_metadata_returns m f h s) as (out1 & Hout1 & _)
      end.
      rewrite Hout1 in Hmeta. injection Hmeta as <-.
      rewrite print_eval in Hblank. injection Hblank as <-.
      cbn [self bench trace]. eexists (out1 ++ [_]).
      by rewrite <- !(assoc_L (++)).
    - injection Hmeta as <-. exists []. cbn [self bench trace].
      by rewrite app_nil_r, <- !(assoc_L (++)). }
  assert (∃ out2, st3 = mkState (self st) (bench st)
                          (((trace st
                            ++ imap (λ i run,
                                 Print (default sys_stdout file)
                                   (MsgRun (Z.of_nat (1 + i))
                                      (Z.of_nat (length (Benchmark.runs b)))
                                      (slice_to run (Benchmark.warmups b))
                                      (slice_from run (Benchmark.warmups b))))
                                 (Benchmark.runs b)
                            ++ [Print (default sys_stdout file) MsgBlank]) ++ out1)
                           ++ out2))
    as [out2 ->].
  { destruct check_unstable; simpl when in Hwarn.
    - match type of Hwarn with
      | _warn_if_bench_unstable pf b verbose file ?s = _ =>
          destruct (report_only_warn_if_bench_unstable pf b verbose file s)
            as (r & out2 & Hout2 & _)
      end.
      rewrite Hout2 in Hwarn. injection Hwarn as _ <-. by exists out2.
    - injection Hwarn as <-. exists []. by rewrite app_nil_r. }
  exists (out1 ++ out2). cbn [self bench trace]. split; [| done].
  rewrite <- !(assoc_L (++)). do 2 f_equal.
  apply imap_ext. intros i run _. simpl. do 2 f_equal. lia.
Qed.

Lemma display_benchmark_layout_witness :
  ∃ out,
    trace (_display_benchmark posix (bench_with_shortest (1 # 100)) 0 None true false true
             (state_of fresh_runner one_run)).2
    = [Print sys_stdout
         (MsgRun 1 2 [(2 # 100)%Q] [(1 # 100); (1 # 100); (1 # 100)]%Q);
       Print sys_stdout
         (MsgRun 2 2 [(1 # 100)%Q] [(1 # 100); (1 # 100); (1 # 100)]%Q);
       Print sys_stdout MsgBlank]
      ++ out
      ++ [Print sys_stdout (MsgMedian (bench_with_shortest (1 # 100)) 0)].
Proof.
  destruct (display_benchmark_layout posix (bench_with_shortest (1 # 100)) 0 None
              true false (state_of fresh_runner one_run)
              (_display_benchmark posix (bench_with_shortest (1 # 100)) 0 None true
                 false true (state_of fresh_runner one_run)).2)
    as (out & Htrace & _); [vm_compute; reflexivity |].
  exists out. exact Htrace.
Defined.

(** ** The command line of the workers *)







(** ** No worker at all *)

Lemma forallb_impl {A} (p q : A → bool) (l : list A) :
  (∀ x, p x = true → q x = true) → forallb p l = true → forallb q l = true.
Proof.
  intros Hpq. induction l as [|x l IH]; [done |]. simpl.
  intros [Hx Hl]%andb_true_iff. by rewrite (Hpq x Hx), IH.
Qed.

Lemma existsb_false_forallb {A} (p q : A → bool) (l : list A) :
  (∀ x, p x = true → q x = false) → forallb p l = true → existsb q l = false.
Proof.
  intros Hpq. induction l as [|x l IH]; [done |]. simpl.
  intros [Hx Hl]%andb_true_iff. by rewrite (Hpq x Hx), IH.
Qed.

(** The report of a benchmark without run, with the stability check: the
    metadata are printed when asked, then the check fails. *)
Lemma display_benchmark_no_run_metadata (pf : Platform) (b : Benchmark.t)
    (verbose : Z) (file : option fileobj) (metadata : bool) (st : State) :
  Benchmark.get_nrun b = 0 →
  ∃ out,
    _display_benchmark pf b verbose file true metadata false st
    = (Raise (ValueError "benchmark has no run"),
       mkState (self st) (bench st) (trace st ++ out))
    ∧ forallb (λ e, match e with
                    | Print _ (MsgMetadataHeader _) | Print _ (MsgMetadataItem _ _)
                    | Print _ MsgBlank => true
                    | _ => false
                    end) out = true.
Proof.
  intros Hnrun. unfold _display_benchmark. simpl when at 1.
  rewrite (bind_eval_ok _ _ st st tt) by done.
  assert (∃ out,
            when metadata
              (_display_metadata (Benchmark.metadata b) file "Metadata:" ;;
               print MsgBlank file) st
            = (Ok tt, mkState (self st) (bench st) (trace st ++ out))
            ∧ forallb (λ e, match e with
                            | Print _ (MsgMetadataHeader _)
                            | Print _ (MsgMetadataItem _ _)
                            | Print _ MsgBlank => true
                            | _ => false
                            end) out = true) as (out & Hmeta & Hout).
  { destruct metadata; simpl when.
    - unfold _display_metadata. destruct (decide (Benchmark.metadata b = ∅)).
      + rewrite (bind_eval_ok _ _ st st tt) by done. rewrite print_eval.
        by eexists [_].
      + unfold bind at 1 2. rewrite print_eval, for_print_metadata_lines.
        rewrite print_eval. cbn [self bench trace].
        exists (Print (default sys_stdout file) (MsgMetadataHeader "Metadata:")
                :: ((λ '(key, value),
                       Print (default sys_stdout file) (MsgMetadataItem key value))
                    <$> merge_sort (λ x y, String.leb x.1 y.1)
                          (map_to_list (Benchmark.metadata b)))
                ++ [Print (default sys_stdout file) MsgBlank]).
        split; [by rewrite <- !(assoc_L (++)) |].
        simpl. rewrite forallb_app. simpl. rewrite andb_true_r.
        induction (merge_sort _ _) as [|[key value] l IH]; done.
    - exists []. by rewrite trace_app_nil. }
  rewrite (bind_eval_ok _ _ _ _ _ Hmeta). simpl when.
  unfold bind, _warn_if_bench_unstable. rewrite Hnrun. by exists out.
Qed.

(** X23: with [processes <= 0], which only the constructor can give,
    [_spawn_workers] spawns nothing and, on a benchmark without run, fails
    in its report with [ValueError("benchmark has no run")]: the
    [duration] metadata is set, but no median is printed and nothing is
    dumped. *)
Theorem spawn_workers_no_process (pf : Platform) (start_time : Q) (st : State)
    (args : Args.t) :
  TextRunner.args (self st) = Some args →
  Args.processes args ≤ 0 →
  Benchmark.runs (bench st) = [] →
  ∃ st' out,
    _spawn_workers pf start_time st
    = (Raise (ValueError "benchmark has no run"), st')
    ∧ trace st' = trace st ++ out
    ∧ spawned out = []
    ∧ json_dumps out = []
    ∧ existsb (printed (λ m, match m with MsgMedian _ _ => true | _ => false end)) out
      = false
    ∧ self st' = self st
    ∧ Benchmark.runs (bench st') = []
    ∧ is_Some (Benchmark.metadata (bench st') !! "duration").
Proof.
  intros Hargs Hprocesses Hruns. unfold _spawn_workers.
  rewrite (bind_eval_ok _ _ _ _ _ (self_args_eval _ _ Hargs)). cbv zeta.
  rewrite (bind_eval_ok _ _ _ _ _ (stream_eval _ _ Hargs)).
  assert (range (Args.processes args) = []) as ->.
  { unfold range. by replace (Z.to_nat (Args.processes args)) with 0%nat by lia. }
  simpl for_. rewrite (bind_eval_ok (ret tt) _ st st tt eq_refl).
  set (stream := if Args.json args then sys_stderr else sys_stdout).
  set (blank := if Args.verbose args <=? 1 then [Print stream MsgBlank] else []).
  assert (when (Args.verbose args <=? 1) (print MsgBlank (Some stream)) st
          = (Ok tt, mkState (self st) (bench st) (trace st ++ blank))) as Hblank.
  { unfold blank. destruct (Args.verbose args <=? 1); simpl; [done |].
    unfold ret. by rewrite trace_app_nil. }
  rewrite (bind_eval_ok _ _ _ _ _ Hblank).
  rewrite (bind_eval_ok _ _ _ _ _ (emit_eval _ _)).
  unfold bind at 1 2 3 4, get_trace, get_bench at 1 2, set_bench.
  cbn [self bench trace fst snd]. fold (duration_text pf).
  set (b := Benchmark.set_metadata "duration" _ (bench st)).
  set (st1 := mkState (self st) b ((trace st ++ blank) ++ [MonotonicClock])).
  assert (TextRunner.args (self st1) = Some args) as Hargs1 by done.
  assert (Benchmark.get_nrun b = 0) as Hnrun
    by (unfold Benchmark.get_nrun, b; simpl; by rewrite Hruns).
  destruct (display_benchmark_no_run_metadata pf b (Args.verbose args) (Some stream)
              (Args.metadata args) st1 Hnrun) as (out & Hdisplay & Hout).
  assert (_display_result pf b true st1
          = (Raise (ValueError "benchmark has no run"),
             mkState (self st1) (bench st1) (trace st1 ++ out))) as Hresult.
  { unfold _display_result.
    rewrite (bind_eval_ok _ _ _ _ _ (stream_eval _ _ Hargs1)).
    rewrite (bind_eval_ok _ _ _ _ _ (self_args_eval _ _ Hargs1)).
    fold stream. by rewrite (bind_eval_raise _ _ _ _ _ Hdisplay). }
  rewrite (bind_eval_raise _ _ _ _ _ Hresult).
  exists (mkState (self st1) (bench st1) (trace st1 ++ out)),
    (blank ++ [MonotonicClock] ++ out).
  split; [done |]. cbn [self bench trace]. unfold st1. cbn [self bench trace].
  split; [by rewrite <- !(assoc_L (++)) |].
  assert (spawned blank = [] ∧ json_dumps blank = []
          ∧ existsb (printed (λ m, match m with MsgMedian _ _ => true | _ => false end))
              blank = false) as (Hb1 & Hb2 & Hb3)
    by (unfold blank; by destruct (Args.verbose args <=? 1)).
  assert (spawned out = [] ∧ json_dumps out = []
          ∧ existsb (printed (λ m, match m with MsgMedian _ _ => true | _ => false end))
              out = false) as (Ho1 & Ho2 & Ho3).
  { split; [| split].
    - apply not_spawn_spawned. eapply forallb_impl; [| exact Hout].
      by intros [? [] | | | | | | | | | | | | | |].
    - apply json_dumps_no_dump. eapply forallb_impl; [| exact Hout].
      by intros [? [] | | | | | | | | | | | | | |].
    - eapply existsb_false_forallb; [| exact Hout].
      by intros [? [] | | | | | | | | | | | | | |]. }
  split; [by rewrite !spawned_app, Hb1, Ho1 |].
  split; [by rewrite !json_dumps_app, Hb2, Ho2 |].
  split; [by rewrite !existsb_app, Hb3, Ho3 |].
  split; [done |]. split; [done |].
  unfold b. simpl. rewrite lookup_insert_eq. by eexists.
Qed.

Lemma spawn_workers_no_process_witness :
  ∃ st' out,
    _spawn_workers posix 0 (spawning_state no_process_args)
    = (Raise (ValueError "benchmark has no run"), st')
    ∧ trace st' = out
    ∧ spawned out = [].
Proof.
  destruct (spawn_workers_no_process posix 0 (spawning_state no_process_args)
              no_process_args)
    as (st' & out & Hrun & Htrace & Hspawned & _);
    [reflexivity | simpl; lia | reflexivity |].
  exists st', out. split; [exact Hrun |]. split; [exact Htrace | exact Hspawned].
Defined.
